(** * pymaid.user_stats: contribution and time-investment reports

    A shallow embedding of [get_user_contributions] and [get_time_invested]
    from [pymaid/user_stats.py], together with the part of pandas they lean
    on ([unique], [TimeGrouper] binning, [sort_values], [reset_index]).

    Conventions
    - a timestamp is the integer pandas stores for it: nanoseconds since the
      epoch ([Timestamp.value]), timezone-naive; pandas keeps it in 64 bits
      and raises out of that range, the definitions here compute with
      unbounded integers ([in_range] bounds the inputs where that matters);
    - a user identifier is an integer;
    - a [DataFrame] with columns [user, timestamp] is a list of pairs, in row
      order; a Python [dict] is a [gmap];
    - an exception is a value of [exn]; a call either returns or raises. *)

From Stdlib Require Import ZArith Lia.
From stdpp Require Import gmap strings list fin_maps sorting.

Local Open Scope Z_scope.

(** ** Exceptions *)

Inductive exn : Type :=
  | KeyError (label : Z)
  | TypeError
  | PandasError.

Inductive outcome (A : Type) : Type :=
  | Returned (a : A)
  | Raised (e : exn).
Arguments Returned {A} a.
Arguments Raised {A} e.

#[global] Instance outcome_ret : MRet outcome := λ A a, Returned a.
#[global] Instance outcome_bind : MBind outcome := λ A B f m,
  match m with
  | Returned a => f a
  | Raised e => Raised e
  end.

(** A [for] loop whose body updates a state and may raise. *)
Fixpoint for_each {A S : Type} (body : S → A → outcome S) (l : list A) (s : S)
  : outcome S :=
  match l with
  | [] => Returned s
  | x :: l' => s' ← body s x; for_each body l' s'
  end.

(** [d[k]] on a dict: raises [KeyError] when the key is absent. *)
Definition getitem {V : Type} (d : gmap Z V) (k : Z) : outcome V :=
  match d !! k with
  | Some v => Returned v
  | None => Raised (KeyError k)
  end.

(** ** The pandas operations used by the module *)

Module Pandas.

(** [Series.unique()]: distinct values in order of first appearance. *)
Fixpoint unique_from (seen : list Z) (l : list Z) : list Z :=
  match l with
  | [] => []
  | x :: l' =>
      if decide (x ∈ seen) then unique_from seen l'
      else x :: unique_from (x :: seen) l'
  end.
Definition unique (l : list Z) : list Z := unique_from [] l.

(** [a[idx]] / [take]: the elements of [l] at the positions [idx]. *)
Definition take_at {A : Type} (l : list A) (idx : list nat) : list A :=
  omap (λ j, l !! j) idx.

(** *** Time bins of a [TimeGrouper] with a minute frequency

    [groupby(TimeGrouper(freq = 'nMin'))] sorts the index, takes its first
    and last value, and lays bins of [n] minutes, closed on the left, from
    the adjusted first edge to the adjusted last edge
    ([_get_range_edges] / [_adjust_dates_anchored] with [closed = 'left'],
    [base = 0]).  The anchor is midnight of the day of the first value. *)

Definition nanos_per_minute : Z := 60 * 1000000000.
Definition minutes_per_day : Z := 1440.
Definition nanos_per_day : Z := minutes_per_day * nanos_per_minute.

(** [Minute(n).nanos] *)
Definition offset_nanos (n : Z) : Z := n * nanos_per_minute.

(** [Timestamp.normalize().value] *)
Definition normalize (t : Z) : Z := t - t `mod` nanos_per_day.

Definition adjust_dates_anchored (first last nanos : Z) : Z * Z :=
  let start_day_nanos := normalize first in
  let foffset := (first - start_day_nanos) `mod` nanos in
  let loffset := (last - start_day_nanos) `mod` nanos in
  let fresult := if decide (0 < foffset) then first - foffset else first in
  let lresult :=
    if decide (0 < loffset) then last + (nanos - loffset) else last + nanos in
  (fresult, lresult).

Definition ts_min (t0 : Z) (rest : list Z) : Z := foldr Z.min t0 rest.
Definition ts_max (t0 : Z) (rest : list Z) : Z := foldr Z.max t0 rest.

(** First and last bin edge of a non-empty group. *)
Definition range_edges (nanos : Z) (t0 : Z) (rest : list Z) : Z * Z :=
  adjust_dates_anchored (ts_min t0 rest) (ts_max t0 rest) nanos.

(** Number of values in the bin [[lo, lo + nanos)]. *)
Definition bin_size (lo nanos : Z) (ts : list Z) : Z :=
  Z.of_nat (length (filter (λ t, lo ≤ t < lo + nanos) ts)).

(** [.groupby(TimeGrouper(freq)).count().values] for a positive stride:
    one count per bin from the first edge to the last, empty bins
    included. *)
Definition time_grouper_count (nanos : Z) (ts : list Z) : list Z :=
  match ts with
  | [] => []
  | t0 :: rest =>
      let '(fresult, lresult) := range_edges nanos t0 rest in
      (λ i, bin_size (fresult + i * nanos) nanos ts)
        <$> seqZ 0 ((lresult - fresult) `div` nanos)
  end.

Section Library.

(** [ndarray.argsort(kind = 'quicksort')]: numpy documents the result as
    a permutation of the positions that puts the items in ascending
    order; quicksort is not a stable algorithm, so nothing is promised
    about the relative order of equal items. *)
Variable argsort : list Z → list nat.

(** [nargsort(items, kind, ascending = False)]: reverse, argsort
    ascending, map back, reverse. *)
Definition nargsort_descending (items : list Z) : list nat :=
  let idx := seq 0 (length items) in
  reverse (take_at (reverse idx) (argsort (reverse items))).

(** What a [TimeGrouper] whose stride is zero or negative makes of a
    group is decided inside pandas and left open here. *)
Variable nonpositive_freq : Z → list Z → outcome (list Z).

Definition groupby_count (interval : Z) (ts : list Z) : outcome (list Z) :=
  if decide (0 < interval)
  then Returned (time_grouper_count (offset_nanos interval) ts)
  else nonpositive_freq interval ts.

End Library.

Definition argsort_ok (argsort : list Z → list nat) : Prop :=
  ∀ items,
    argsort items ≡ₚ seq 0 (length items) ∧
    Sorted Z.le (take_at items (argsort items)).

End Pandas.

(** ** [get_node_user_details]: one row per node or connector *)

Module NodeDetails.
Record t : Type := mk {
  user : Z;
  creation_time : Z;
  editor : Z;
  edition_time : Z;
  reviewers : list Z;
  review_times : list Z
}.
End NodeDetails.

(** A frame with the columns [user] and [timestamp]. *)
Abbreviation timestamps_frame := (list (Z * Z)).

Definition creation_timestamps (node_details : list NodeDetails.t)
  : timestamps_frame :=
  (λ d, (NodeDetails.user d, NodeDetails.creation_time d)) <$> node_details.

Definition edition_timestamps (node_details : list NodeDetails.t)
  : timestamps_frame :=
  (λ d, (NodeDetails.editor d, NodeDetails.edition_time d)) <$> node_details.

Definition review_timestamps (node_details : list NodeDetails.t)
  : timestamps_frame :=
  let reviewers := mjoin (NodeDetails.reviewers <$> node_details) in
  let timestamps := mjoin (NodeDetails.review_times <$> node_details) in
  zip reviewers timestamps.

Definition all_timestamps (node_details : list NodeDetails.t)
  : timestamps_frame :=
  creation_timestamps node_details ++ edition_timestamps node_details
    ++ review_timestamps node_details.

(** [frame.user.unique()] *)
Definition users_of (frame : timestamps_frame) : list Z :=
  Pandas.unique (frame.*1).

(** [frame[frame.user == u].timestamp] *)
Definition timestamps_of (frame : timestamps_frame) (u : Z) : list Z :=
  (filter (λ r, r.1 = u) frame).*2.

(** [{ u : 0 for u in users }] *)
Definition zero_dict (users : list Z) : gmap Z Z :=
  list_to_map ((λ u, (u, 0)) <$> users).

(** ** The report *)

Record report_row : Type := mk_row {
  index : nat;
  user : string;
  total : Z;
  creation : Z;
  edition : Z;
  review : Z
}.

Record stats_dict : Type := mk_stats {
  st_total : gmap Z Z;
  st_creation : gmap Z Z;
  st_edition : gmap Z Z;
  st_review : gmap Z Z
}.

Section TimeInvested.

Variable argsort : list Z → list nat.
Variable nonpositive_freq : Z → list Z → outcome (list Z).

(** [sum( frame[frame.user == u]...count().values >= minimum_actions )[0]
     * interval] *)
Definition active_minutes (interval minimum_actions : Z)
    (frame : timestamps_frame) (u : Z) : outcome Z :=
  counts ← Pandas.groupby_count nonpositive_freq interval (timestamps_of frame u);
  match counts with
  | [] => Raised TypeError
  | _ :: _ =>
      Returned
        (Z.of_nat (length (filter (λ c, minimum_actions ≤ c) counts)) * interval)
  end.

(** [d[u] += active_minutes] *)
Definition add_time (interval minimum_actions : Z) (frame : timestamps_frame)
    (d : gmap Z Z) (u : Z) : outcome (gmap Z Z) :=
  old ← getitem d u;
  n ← active_minutes interval minimum_actions frame u;
  Returned (<[u := old + n]> d).

(** [for u in frame.user.unique(): d[u] += ...] *)
Definition time_spent (interval minimum_actions : Z) (frame : timestamps_frame)
    (d : gmap Z Z) : outcome (gmap Z Z) :=
  for_each (add_time interval minimum_actions frame) (users_of frame) d.

Definition compute_stats (interval minimum_actions : Z)
    (node_details : list NodeDetails.t) : outcome stats_dict :=
  let everyone := users_of (all_timestamps node_details) in
  t ← time_spent interval minimum_actions (all_timestamps node_details)
        (zero_dict everyone);
  c ← time_spent interval minimum_actions (creation_timestamps node_details)
        (zero_dict everyone);
  e ← time_spent interval minimum_actions (edition_timestamps node_details)
        (zero_dict everyone);
  r ← time_spent interval minimum_actions (review_timestamps node_details)
        (zero_dict everyone);
  Returned (mk_stats t c e r).

(** One row of the unsorted frame; [i] is its position. *)
Definition make_row (user_list : gmap Z string) (stats : stats_dict)
    (iu : nat * Z) : outcome report_row :=
  let '(i, u) := iu in
  name ← getitem user_list u;
  t ← getitem (st_total stats) u;
  c ← getitem (st_creation stats) u;
  e ← getitem (st_edition stats) u;
  r ← getitem (st_review stats) u;
  Returned (mk_row i name t c e r).

(** [.sort_values('total', ascending = False).reset_index()] *)
Definition sort_values_total (rows : list report_row) : list report_row :=
  Pandas.take_at rows (Pandas.nargsort_descending argsort (total <$> rows)).

Definition get_time_invested (user_list : gmap Z string)
    (node_details : list NodeDetails.t) (interval minimum_actions : Z)
  : outcome (list report_row) :=
  stats ← compute_stats interval minimum_actions node_details;
  let everyone := users_of (all_timestamps node_details) in
  rows ← mapM (make_row user_list stats) (zip (seq 0 (length everyone)) everyone);
  Returned (sort_values_total rows).

End TimeInvested.

(** ** [get_user_contributions] *)

Module Contributions.

(** The three dicts of [get_contributor_statistics(...).ix[0]] that the
    function reads; keys are user identifiers ([int(u)] is the identity
    on them). *)
Record contributor_statistics : Type := mk_cont {
  node_contributors : gmap Z Z;
  pre_contributors : gmap Z Z;
  post_contributors : gmap Z Z
}.

Record row : Type := mk_row {
  index : nat;
  user : string;
  nodes : Z;
  presynapses : Z;
  postsynapses : Z
}.

(** [list(d.keys())] *)
Definition keys (d : gmap Z Z) : list Z := (map_to_list d).*1.

(** [for u in src: d[u] = src[u]] *)
Definition copy_counts (src d : gmap Z Z) : outcome (gmap Z Z) :=
  for_each (λ acc u, v ← getitem src u; Returned (<[u := v]> acc)) (keys src) d.

Section Contributions.

Variable argsort : list Z → list nat.

(** Iteration order of [set(l)]: each element once, in an order Python
    does not specify. *)
Variable set_iter : list Z → list Z.

Definition make_row (user_list : gmap Z string) (n pre post : gmap Z Z)
    (iu : nat * Z) : outcome row :=
  let '(i, u) := iu in
  name ← getitem user_list u;
  a ← getitem n u;
  b ← getitem pre u;
  c ← getitem post u;
  Returned (mk_row i name a b c).

(** [.sort_values('nodes', ascending = False).reset_index()] *)
Definition sort_values_nodes (rows : list row) : list row :=
  Pandas.take_at rows (Pandas.nargsort_descending argsort (nodes <$> rows)).

Definition get_user_contributions (user_list : gmap Z string)
    (cont : contributor_statistics) : outcome (list row) :=
  let all_users :=
    set_iter (keys (node_contributors cont) ++ keys (pre_contributors cont)
                ++ keys (post_contributors cont)) in
  n ← copy_counts (node_contributors cont) (zero_dict all_users);
  pre ← copy_counts (pre_contributors cont) (zero_dict all_users);
  post ← copy_counts (post_contributors cont) (zero_dict all_users);
  rows ← mapM (make_row user_list n pre post)
           (zip (seq 0 (length all_users)) all_users);
  Returned (sort_values_nodes rows).

End Contributions.

Definition set_ok (set_iter : list Z → list Z) : Prop :=
  ∀ l, NoDup (set_iter l) ∧ ∀ x, x ∈ set_iter l ↔ x ∈ l.

End Contributions.

(** ** numpy's quicksort for [argsort]

    [ndarray.argsort(kind = 'quicksort')] on an integer array, as numpy
    implements it ([aquicksort] in [npysort/quicksort]): an introsort on the
    array [tosort] of positions, which partitions around the median of three
    while a range holds more than [SMALL_QUICKSORT + 1] positions and sorts
    what is left by insertion.  Pointers into [tosort] are positions in a
    list; [v] is the array of values.  The fall-back to heapsort, taken when
    the depth budget of [2 * floor(log2 n)] partitions runs out, is not
    modelled: [aquicksort] is [None] there. *)

Module Numpy.

Definition SMALL_QUICKSORT : nat := 16.

Section AQuicksort.

Variable v : list Z.

(** The value a position of [tosort] points at: [v[tosort[p]]]. *)
Definition value_at (tosort : list nat) (p : nat) : Z := v !!! (tosort !!! p).

(** [INTP_SWAP] of [tosort[p]] and [tosort[q]]. *)
Definition intp_swap (tosort : list nat) (p q : nat) : list nat :=
  <[q := tosort !!! p]> (<[p := tosort !!! q]> tosort).

(** Swap [tosort[p]] and [tosort[q]] if the value at [p] is less than the
    value at [q]. *)
Definition swap_if_lt (tosort : list nat) (p q : nat) : list nat :=
  if decide (value_at tosort p < value_at tosort q) then intp_swap tosort p q
  else tosort.

(** [do ++pi; while] the value at [pi] is less than the pivot [vp]. *)
Fixpoint scan_up (fuel : nat) (tosort : list nat) (vp : Z) (pi : nat) : nat :=
  match fuel with
  | O => pi
  | S fuel =>
      let pi := S pi in
      if decide (value_at tosort pi < vp) then scan_up fuel tosort vp pi
      else pi
  end.

(** [do --pj; while] the pivot [vp] is less than the value at [pj]. *)
Fixpoint scan_down (fuel : nat) (tosort : list nat) (vp : Z) (pj : nat) : nat :=
  match fuel with
  | O => pj
  | S fuel =>
      let pj := pred pj in
      if decide (vp < value_at tosort pj) then scan_down fuel tosort vp pj
      else pj
  end.

(** [for (;;)]: scan up, scan down, [break] if [pi >= pj], else swap
    [tosort[pi]] and [tosort[pj]]. *)
Fixpoint partition_loop (fuel : nat) (tosort : list nat) (vp : Z) (pi pj : nat)
  : list nat * nat :=
  match fuel with
  | O => (tosort, pi)
  | S fuel =>
      let pi := scan_up (length tosort) tosort vp pi in
      let pj := scan_down (length tosort) tosort vp pj in
      if decide (pj ≤ pi)%nat then (tosort, pi)
      else partition_loop fuel (intp_swap tosort pi pj) vp pi pj
  end.

(** One partition of [pl .. pr]: median of three to [pm], pivot parked at
    [pr - 1], the scans, pivot moved to its place [pi]. *)
Definition partition (tosort : list nat) (pl pr : nat) : list nat * nat :=
  let pm := (pl + (pr - pl) `div` 2)%nat in
  let tosort := swap_if_lt tosort pm pl in
  let tosort := swap_if_lt tosort pr pm in
  let tosort := swap_if_lt tosort pm pl in
  let vp := value_at tosort pm in
  let pj := (pr - 1)%nat in
  let tosort := intp_swap tosort pm pj in
  let '(tosort, pi) := partition_loop (length tosort) tosort vp pl pj in
  (intp_swap tosort pi (pr - 1), pi).

(** [while pj > pl] and [vp] is less than the value at [pj - 1]: move
    [tosort[pj - 1]] up to [pj] and step down. *)
Fixpoint shift_up (fuel : nat) (tosort : list nat) (vp : Z) (pl pj : nat)
  : list nat * nat :=
  match fuel with
  | O => (tosort, pj)
  | S fuel =>
      if decide ((pl < pj)%nat ∧ vp < value_at tosort (pj - 1)) then
        shift_up fuel (<[pj := tosort !!! (pj - 1)%nat]> tosort) vp pl (pj - 1)
      else (tosort, pj)
  end.

(** The body of the insertion sort for one [pi]. *)
Definition insert_one (pl : nat) (tosort : list nat) (pi : nat) : list nat :=
  let vi := tosort !!! pi in
  let vp := v !!! vi in
  let '(tosort, pj) := shift_up (length tosort) tosort vp pl pi in
  <[pj := vi]> tosort.

(** [for (pi = pl + 1; pi <= pr; ++pi) ...] *)
Definition insertion_sort (tosort : list nat) (pl pr : nat) : list nat :=
  foldl (insert_one pl) tosort (seq (S pl) (pr - pl)).

(** The main loop: partition while the range is large, pushing the larger
    part on the stack together with the depth left; sort a small range by
    insertion and pop. *)
Fixpoint sort_loop (fuel : nat) (tosort : list nat) (pl pr : nat) (cdepth : Z)
    (stack : list (nat * nat * Z)) : option (list nat) :=
  match fuel with
  | O => None
  | S fuel =>
      if decide (SMALL_QUICKSORT < pr - pl)%nat then
        let '(tosort, pi) := partition tosort pl pr in
        let cdepth := cdepth - 1 in
        if decide (pi - pl < pr - pi)%nat then
          sort_loop fuel tosort pl (pi - 1) cdepth ((S pi, pr, cdepth) :: stack)
        else
          sort_loop fuel tosort (S pi) pr cdepth
            ((pl, (pi - 1)%nat, cdepth) :: stack)
      else
        let tosort := insertion_sort tosort pl pr in
        match stack with
        | [] => Some tosort
        | (pl, pr, cdepth) :: stack =>
            if decide (cdepth < 0) then None
            else sort_loop fuel tosort pl pr cdepth stack
        end
  end.

Definition aquicksort : option (list nat) :=
  let num := length v in
  match num with
  | O => Some []
  | S n =>
      sort_loop (2 * num + 2) (seq 0 num) 0 n (2 * Z.log2 (Z.of_nat num)) []
  end.

End AQuicksort.

Definition argsort (items : list Z) : list nat :=
  default [] (aquicksort items).

End Numpy.

(** ** Concrete library instances

    A sorting routine that meets the [argsort] contract, and a set
    iteration order, used to run the functions on concrete inputs. *)

Module Instances.

(** Ascending by item; equal items keep their order of appearance. *)
Definition le_item (a b : Z * nat) : Prop :=
  a.1 < b.1 ∨ (a.1 = b.1 ∧ (a.2 ≤ b.2)%nat).
#[global] Instance le_item_dec : RelDecision le_item.
Proof. intros a b; unfold le_item; apply _. Defined.

Definition stable_argsort (items : list Z) : list nat :=
  (merge_sort le_item (zip items (seq 0 (length items)))).*2.

(** A set that iterates in order of first insertion. *)
Definition insertion_order (l : list Z) : list Z := Pandas.unique l.

(** A pandas that refuses a stride that is not positive. *)
Definition refuse_freq (interval : Z) (ts : list Z) : outcome (list Z) :=
  Raised PandasError.

End Instances.

(** ** The estimator as the specification words it

    "Bucket that user's timestamps into contiguous, fixed-width
    ([interval]-minute) time bins anchored to a deterministic origin; count
    actions per bin; count the number of bins whose action count is at least
    [minimum_actions]; that bin count, multiplied by [interval], is the
    number of minutes." *)

Module Spec.

(** The bin a timestamp falls into: bin [k] is
    [[origin + k * width, origin + (k + 1) * width)]. *)
Definition bin_of (origin width t : Z) : Z := (t - origin) `div` width.

Definition actions_in_bin (origin width : Z) (ts : list Z) (k : Z) : Z :=
  Z.of_nat (length (filter (λ t, bin_of origin width t = k) ts)).

Definition active_bins (origin width minimum_actions : Z) (ts : list Z)
  : list Z :=
  filter (λ k, minimum_actions ≤ actions_in_bin origin width ts k)
         (remove_dups (bin_of origin width <$> ts)).

Definition minutes (origin interval minimum_actions : Z) (ts : list Z) : Z :=
  Z.of_nat
    (length (active_bins origin (Pandas.offset_nanos interval) minimum_actions ts))
    * interval.

End Spec.

(** Midnight of the day of the earliest timestamp of a group: the anchor
    pandas uses for the group's bins. *)
Definition day_origin (ts : list Z) : Z :=
  match ts with
  | [] => 0
  | t0 :: rest => Pandas.normalize (Pandas.ts_min t0 rest)
  end.

(** The minutes [active_minutes] adds for a group, for a positive interval. *)
Definition binned_minutes (interval minimum_actions : Z) (ts : list Z) : Z :=
  Z.of_nat
    (length (filter (λ c, minimum_actions ≤ c)
               (Pandas.time_grouper_count (Pandas.offset_nanos interval) ts)))
    * interval.

(** The frame before sorting, in closed form. *)
Definition expected_row (user_list : gmap Z string) (interval minimum_actions : Z)
    (node_details : list NodeDetails.t) (iu : nat * Z) : report_row :=
  let u := iu.2 in
  mk_row iu.1 (user_list !!! u)
    (binned_minutes interval minimum_actions
       (timestamps_of (all_timestamps node_details) u))
    (binned_minutes interval minimum_actions
       (timestamps_of (creation_timestamps node_details) u))
    (binned_minutes interval minimum_actions
       (timestamps_of (edition_timestamps node_details) u))
    (binned_minutes interval minimum_actions
       (timestamps_of (review_timestamps node_details) u)).

Definition expected_frame (user_list : gmap Z string) (interval minimum_actions : Z)
    (node_details : list NodeDetails.t) : list report_row :=
  let everyone := users_of (all_timestamps node_details) in
  expected_row user_list interval minimum_actions node_details
    <$> zip (seq 0 (length everyone)) everyone.

(** The rows of a call that returned; no rows for one that raised. *)
Definition get_time_invested_rows_of (r : outcome (list report_row))
  : list report_row :=
  match r with
  | Returned rows => rows
  | Raised _ => []
  end.

(** ** Sample data *)

Module Samples.
Import Instances.

Definition minute : Z := Pandas.nanos_per_minute.
Definition day : Z := Pandas.nanos_per_day.

Definition names : gmap Z string :=
  list_to_map [(1, "A"%string); (2, "B"%string); (3, "C"%string)].

Definition node (u t e te : Z) : NodeDetails.t :=
  NodeDetails.mk u t e te [] [].

(** User 1 creates nodes at minutes 0, 0.5 and 2; user 2 edits them. *)
Definition scenario1 : list NodeDetails.t :=
  [ node 1 0 2 (10 * minute);
    node 1 (minute `div` 2) 2 (10 * minute);
    node 1 (2 * minute) 2 (10 * minute) ].

(** User 1 is first seen on day 0, user 2 on day 1. *)
Definition scenario_days : list NodeDetails.t :=
  [ node 1 0 1 0; node 2 day 2 day ].

(** User 1 creates six nodes on day 1, at minutes 6, 7, 20, 21, 34 and 35,
    which user 2 edits; user 1 edits one node of user 2 at midnight of
    day 0. *)
Definition scenario_shift : list NodeDetails.t :=
  [ node 2 0 1 0;
    node 1 (day + 6 * minute) 2 (day + 6 * minute);
    node 1 (day + 7 * minute) 2 (day + 6 * minute);
    node 1 (day + 20 * minute) 2 (day + 6 * minute);
    node 1 (day + 21 * minute) 2 (day + 6 * minute);
    node 1 (day + 34 * minute) 2 (day + 6 * minute);
    node 1 (day + 35 * minute) 2 (day + 6 * minute) ].

(** Two users with the same activity. *)
Definition scenario_tie : list NodeDetails.t :=
  [ node 1 0 1 0; node 2 0 2 0 ].

(** User 3 only reviews. *)
Definition scenario_review : list NodeDetails.t :=
  [ NodeDetails.mk 1 0 1 0 [3; 3] [5 * minute; 6 * minute] ].

Definition run := get_time_invested stable_argsort refuse_freq.
End Samples.

(** Twenty users, first seen in the order 1, 2, ..., 20.  A user with an odd
    id creates one node; a user with an even id creates two, five minutes
    apart.  Nobody touches a node of somebody else. *)
Module TieSamples.

Definition users : list Z := seqZ 1 20.

Definition names : gmap Z string :=
  list_to_map
    ((λ u, (u, String (Ascii.ascii_of_nat (Z.to_nat (64 + u))) EmptyString))
       <$> users).

Definition nodes_of (u : Z) : list NodeDetails.t :=
  if decide (u `mod` 2 = 1) then [Samples.node u 0 u 0]
  else [Samples.node u 0 u 0;
        Samples.node u (5 * Samples.minute) u (5 * Samples.minute)].

Definition scenario : list NodeDetails.t := mjoin (nodes_of <$> users).

End TieSamples.

(** Minutes of a group when every bin between its first and last edge
    counts. *)
Definition span_minutes (interval : Z) (ts : list Z) : Z :=
  match ts with
  | [] => 0
  | t0 :: rest =>
      let '(fresult, lresult) :=
        Pandas.range_edges (Pandas.offset_nanos interval) t0 rest in
      (lresult - fresult) `div` Pandas.offset_nanos interval * interval
  end.

(** Left edge of the first bin of a group. *)
Definition first_edge (interval : Z) (ts : list Z) : Z :=
  match ts with
  | [] => 0
  | t0 :: rest => (Pandas.range_edges (Pandas.offset_nanos interval) t0 rest).1
  end.

(** The bins of all users of a view lie on one grid: some origin is a whole
    number of bin widths away from every user's first bin edge. *)
Definition bins_aligned (interval : Z) (frame : timestamps_frame) : Prop :=
  ∃ origin,
    ∀ u, u ∈ users_of frame →
      (first_edge interval (timestamps_of frame u) - origin)
        `mod` Pandas.offset_nanos interval = 0.

(** The frame of [get_user_contributions] before sorting, in closed form:
    one row per user of [all_users], with 0 where a dict has no entry. *)
Definition contributions_frame (all_users : list Z) (user_list : gmap Z string)
    (cont : Contributions.contributor_statistics) : list Contributions.row :=
  (λ iu : nat * Z,
     Contributions.mk_row iu.1 (user_list !!! iu.2)
       (default 0 (Contributions.node_contributors cont !! iu.2))
       (default 0 (Contributions.pre_contributors cont !! iu.2))
       (default 0 (Contributions.post_contributors cont !! iu.2)))
    <$> zip (seq 0 (length all_users)) all_users.

Module ContributionSamples.
Import Contributions.

Definition cont : contributor_statistics :=
  mk_cont (list_to_map [(1, 10); (2, 30)]) (list_to_map [(2, 4)])
          (list_to_map [(3, 7)]).

Definition run :=
  get_user_contributions Instances.stable_argsort Instances.insertion_order.
End ContributionSamples.

(** ** [pymaid.plotting]: helpers *)

Module Plotting.

(** The exceptions the helpers can raise, and the result of a call. *)
Inductive key : Type :=
  | Int (n : Z)
  | Str (s : string).

Inductive error : Type :=
  | KeyError (label : key)
  | ValueError
  | ZeroDivisionError
  | IndexError
  | TypeError
  | UnboundLocalError
  | Exception (message : string).

Inductive result (A : Type) : Type :=
  | Ok (a : A)
  | Err (e : error).
Arguments Ok {A} a.
Arguments Err {A} e.

#[global] Instance result_ret : MRet result := λ A a, Ok a.
#[global] Instance result_bind : MBind result := λ A B f m,
  match m with
  | Ok a => f a
  | Err e => Err e
  end.

(** *** [_fix_default_dict] *)

Section FixDefaultDict.

Variable V : Type.

(** [x.pop(v)] *)
Definition pop (v : string) (x : gmap string V) : result (gmap string V) :=
  match x !! v with
  | Some _ => Ok (delete v x)
  | None => Err (KeyError (Str v))
  end.

(** The first entry of each pair is the survivor. *)
Definition duplicates : list (list string) :=
  [ ["color"; "c"]; ["size"; "s"] ]%string.

(** [[ v for v in dupl if v in x ]] *)
Definition present (x : gmap string V) (dupl : list string) : list string :=
  filter (λ v, is_Some (x !! v)) dupl.

(** One round of the loop over [duplicates]. *)
Definition fix_duplicate (x : gmap string V) (dupl : list string)
  : result (gmap string V) :=
  if decide (1 < length (present x dupl))%nat
  then
    let to_delete := tail (present x dupl) in
    foldl (λ acc v, acc ≫= pop v) (Ok x) to_delete
  else Ok x.

Definition _fix_default_dict (x : gmap string V) : result (gmap string V) :=
  foldl (λ acc dupl, acc ≫= λ x', fix_duplicate x' dupl) (Ok x) duplicates.

(** [default_settings.update(scatter_kws);
     default_settings = _fix_default_dict(default_settings)] *)
Definition scatter_settings (default_settings scatter_kws : gmap string V)
  : result (gmap string V) :=
  _fix_default_dict (scatter_kws ∪ default_settings).

End FixDefaultDict.

(** *** [_segments_to_coords] *)

Section SegmentsToCoords.

(** Coordinates are numbers of numpy; only their product is used. *)
Variable number : Type.
Variable mul : number → number → number.

Definition xyz : Type := number * number * number.

(** A row of [x.nodes]. *)
Record node_row : Type := mk_node {
  treenode_id : Z;
  location : xyz
}.

(** [{ r.treenode_id : (r.x, r.y, r.z) for r in x.nodes.itertuples() }] *)
Definition locations (nodes : list node_row) : gmap Z xyz :=
  foldl (λ locs r, <[treenode_id r := location r]> locs) ∅ nodes.

(** The last row with a given identifier. *)
Definition last_row (nodes : list node_row) (tn : Z) : option node_row :=
  last (filter (λ r, treenode_id r = tn) nodes).

(** [locs[tn]] *)
Definition loc (locs : gmap Z xyz) (tn : Z) : result xyz :=
  match locs !! tn with
  | Some p => Ok p
  | None => Err (KeyError (Int tn))
  end.

(** A row of an [(n, 3)] array times the modifier. *)
Definition scale (modifier p : xyz) : xyz :=
  (mul p.1.1 modifier.1.1, mul p.1.2 modifier.1.2, mul p.2 modifier.2).

(** [np.array([ locs[tn] for tn in s ]) * modifier]: an array of shape
    [(n, 3)] is multiplied row by row; the empty list gives an array of
    shape [(0,)], which does not broadcast against shape [(3,)]. *)
Definition segment_coords (locs : gmap Z xyz) (modifier : xyz) (s : list Z)
  : result (list xyz) :=
  points ← mapM (loc locs) s;
  match points with
  | [] => Err ValueError
  | _ :: _ => Ok (scale modifier <$> points)
  end.

Definition _segments_to_coords (nodes : list node_row)
    (segments : list (list Z)) (modifier : xyz) : result (list (list xyz)) :=
  let locs := locations nodes in
  mapM (segment_coords locs modifier) segments.

End SegmentsToCoords.

(** *** [_random_colors] *)

Section RandomColors.

(** A colour is a tuple of floating-point numbers computed by
    [colorsys.hsv_to_rgb]; the components stay abstract, the shape of the
    list is what is modelled.  [bright r n i] stands for
    [tuple(v * r for v in hsv_to_rgb(2 / n * i, 1, 1))], [dim r n i] for
    [tuple(v * r for v in hsv_to_rgb(2 / n * (i + 0.5), 1, 0.5))] and
    [gray r n i] for [tuple(v * r for v in hsv_to_rgb(0, 0, 1 / n * i))]. *)
Variable color : Type.
Variable number : Type.
Variable black : color.
Variables bright dim gray : number → Z → Z → color.

Definition _random_colors (color_count : Z) (color_space : string)
    (color_range : number) : result (list color) :=
  if decide (color_count = 1) then Ok [black]
  else
    (* Make count_color an even number *)
    let color_count :=
      if decide (color_count `mod` 2 ≠ 0) then color_count + 1
      else color_count in
    (* interval = 2 / color_count *)
    if decide (color_count = 0) then Err ZeroDivisionError
    else
      (* runs = int(color_count / 2): the quotient of an even count, exact
         in floating point for counts below 2 ^ 53 in absolute value *)
      let runs := color_count `quot` 2 in
      if decide (color_space = "RGB"%string) then
        Ok (mjoin ((λ i, [bright color_range color_count i;
                          dim color_range color_count i]) <$> seqZ 0 runs))
      else if decide (color_space = "Grayscale"%string) then
        Ok (gray color_range color_count <$> seqZ 0 color_count)
      else Ok [].

(** *** The colours of [plot_network] *)

(** The [colormap] keyword: a dict from node to colour, a string, or
    anything else (a tuple, a list, ...). *)
Inductive colormap_arg : Type :=
  | DictColormap (d : gmap Z color)
  | StrColormap (s : string)
  | OtherColormap.

Variable grey : color.
Variable range_255 : number.

(** [c[i]] *)
Definition color_at (c : list color) (i : nat) : result color :=
  match c !! i with
  | Some col => Ok col
  | None => Err IndexError
  end.

(** The block "Prepare colors" of [plot_network]; [nodes] is [g.nodes]. *)
Definition plot_network_colors (colormap : colormap_arg) (nodes : list Z)
  : result (gmap Z color) :=
  match colormap with
  | DictColormap d =>
      (* colors.update({n: (.5, .5, .5) for n in g.nodes if n not in colormap}) *)
      Ok (foldl (λ colors n, <[n := grey]> colors) d
            (filter (λ n, d !! n = None) nodes))
  | StrColormap s =>
      if decide (s = "random"%string) then
        c ← _random_colors (Z.of_nat (length nodes)) "RGB" range_255;
        entries ← mapM (λ ni : nat * Z, col ← color_at c ni.1; Ok (ni.2, col))
                    (zip (seq 0 (length nodes)) nodes);
        Ok (foldl (λ colors e, <[e.1 := e.2]> colors) ∅ entries)
      else
        (* isinstance(colormap, tuple, list) *)
        Err TypeError
  | OtherColormap => Err TypeError
  end.

End RandomColors.

(** *** The canvas kept in the module's globals *)

Section Canvas.

Variable canvas : Type.
Variable scale_factor : Type.

(** The two entries of [globals()] the functions read and write. *)
Record globals : Type := mk_globals {
  g_canvas : option canvas;
  g_vispy_scale_factor : option scale_factor
}.

(** A statement: it changes the globals and returns or raises. *)
Definition stmt (A : Type) : Type := globals → globals * result A.

Definition seq_stmt {A B : Type} (m : stmt A) (k : A → stmt B) : stmt B :=
  λ g, match m g with
       | (g', Ok a) => k a g'
       | (g', Err e) => (g', Err e)
       end.

(** [globals()['canvas']] *)
Definition load_canvas : stmt canvas :=
  λ g, match g_canvas g with
       | Some c => (g, Ok c)
       | None => (g, Err (KeyError (Str "canvas")))
       end.

(** [globals()['vispy_scale_factor']] *)
Definition load_scale_factor : stmt scale_factor :=
  λ g, match g_vispy_scale_factor g with
       | Some s => (g, Ok s)
       | None => (g, Err (KeyError (Str "vispy_scale_factor")))
       end.

(** [globals().pop('canvas')] *)
Definition pop_canvas : stmt unit :=
  λ g, match g_canvas g with
       | Some _ => (mk_globals None (g_vispy_scale_factor g), Ok tt)
       | None => (g, Err (KeyError (Str "canvas")))
       end.

(** [globals().pop('vispy_scale_factor')] *)
Definition pop_scale_factor : stmt unit :=
  λ g, match g_vispy_scale_factor g with
       | Some _ => (mk_globals (g_canvas g) None, Ok tt)
       | None => (g, Err (KeyError (Str "vispy_scale_factor")))
       end.

(** A call into vispy on the canvas object: it returns or raises; the
    dict of globals is not touched. *)
Definition vispy_call (returns : bool) : stmt unit :=
  λ g, if returns then (g, Ok tt) else (g, Err (Exception "vispy")).

(** [del vispy_scale_factor] on a name that is local and unbound. *)
Definition del_unbound_local : stmt unit :=
  λ g, (g, Err UnboundLocalError).

(** [try: body except: pass] *)
Definition try_pass (body : stmt unit) (g : globals) : globals := (body g).1.

Definition get_canvas (g : globals) : result (canvas * scale_factor) :=
  match seq_stmt load_canvas
          (λ c, seq_stmt load_scale_factor (λ s g', (g', Ok (c, s)))) g with
  | (_, Ok r) => Ok r
  | (_, Err _) => Err (Exception "No canvas found.")
  end.

(** [widget_removed]: whether
    [canvas.central_widget.remove_widget(canvas.central_widget.children[0])]
    returns; [updated]: whether [canvas.update()] returns. *)
Definition clear3d (widget_removed updated : bool) : globals → globals :=
  try_pass
    (seq_stmt load_canvas (λ _,
     seq_stmt (vispy_call widget_removed) (λ _,
     seq_stmt (vispy_call updated) (λ _,
     seq_stmt pop_scale_factor (λ _,
     del_unbound_local))))).

(** [closed]: whether [canvas.close()] returns. *)
Definition close3d (closed : bool) : globals → globals :=
  try_pass
    (seq_stmt load_canvas (λ _,
     seq_stmt (vispy_call closed) (λ _,
     seq_stmt pop_canvas (λ _,
     seq_stmt pop_scale_factor (λ _,
     (* del canvas *)
     del_unbound_local))))).

End Canvas.

End Plotting.

Module PlottingSamples.

(** The defaults of the two-dimensional scatter call and a user's
    keywords. *)
Definition default_settings : gmap string string :=
  list_to_map [("c", "black"); ("alpha", "1"); ("zorder", "4");
               ("edge_color", "none"); ("s", "1")]%string.

Definition scatter_kws : gmap string string :=
  list_to_map [("color", "red")]%string.

End PlottingSamples.

Module SegmentSamples.

(** Three nodes with integer coordinates; node 2 is listed twice. *)
Definition nodes : list (Plotting.node_row Z) :=
  [ Plotting.mk_node Z 1 (10, 20, 30);
    Plotting.mk_node Z 2 (0, 0, 0);
    Plotting.mk_node Z 3 (11, 21, 31);
    Plotting.mk_node Z 2 (12, 22, 32) ].

Definition segments : list (list Z) := [ [1; 2]; [3] ].

Definition run := Plotting._segments_to_coords Z Z.mul nodes.

End SegmentSamples.

Module ColorSamples.

(** Colours named by strings, enough to run the colour helpers. *)
Definition bright (r : unit) (n i : Z) : string := "bright".
Definition dim (r : unit) (n i : Z) : string := "dim".
Definition gray (r : unit) (n i : Z) : string := "gray".

Definition random_colors :=
  Plotting._random_colors string unit "black" bright dim gray.

Definition network_colors :=
  Plotting.plot_network_colors string unit "black" bright dim gray "grey" tt.

End ColorSamples.

(** [Series.sum()] of a column of integers. *)
Definition column_sum (column : list Z) : Z := foldr Z.add 0 column.

(** ** Who acts, read off the records

    The users the report is about, named from the records themselves and
    not through the frames the function builds: [u] creates when some record
    has it in the [user] column, edits when some record has it in the
    [editor] column, and reviews when it is the [i]-th reviewer of the
    records taken together and there is an [i]-th review time to go with
    it (with as many review times as reviewers in every record, that is
    every reviewer of every record). *)

Module Actions.

Definition creates (node_details : list NodeDetails.t) (u : Z) : Prop :=
  ∃ d, d ∈ node_details ∧ NodeDetails.user d = u.

Definition edits (node_details : list NodeDetails.t) (u : Z) : Prop :=
  ∃ d, d ∈ node_details ∧ NodeDetails.editor d = u.

Definition reviews (node_details : list NodeDetails.t) (u : Z) : Prop :=
  ∃ (i : nat) (t : Z),
    mjoin (NodeDetails.reviewers <$> node_details) !! i = Some u ∧
    mjoin (NodeDetails.review_times <$> node_details) !! i = Some t.

Definition acts (node_details : list NodeDetails.t) (u : Z) : Prop :=
  creates node_details u ∨ edits node_details u ∨ reviews node_details u.

End Actions.

(** ** Inputs within the range of a pandas timestamp

    A pandas [Timestamp] and the stride of a [TimeGrouper] are signed 64-bit
    counts of nanoseconds.  Out of that range the library raises
    ([OutOfBoundsDatetime], [OverflowError]) where the definitions of
    [Pandas], which compute with unbounded integers, go on.  Records dated
    from the epoch to the year 2100, binned with an interval of at most a
    year, stay within it: every timestamp, every bin edge and the stride
    are below [2 ^ 63]. *)

Definition year_2100 : Z := 4102444800 * 1000000000.
Definition minutes_per_year : Z := 525600.

Definition dated_in_range (d : NodeDetails.t) : Prop :=
  0 ≤ NodeDetails.creation_time d < year_2100 ∧
  0 ≤ NodeDetails.edition_time d < year_2100 ∧
  Forall (λ t, 0 ≤ t < year_2100) (NodeDetails.review_times d).

Definition in_range (node_details : list NodeDetails.t) (interval : Z) : Prop :=
  interval ≤ minutes_per_year ∧ Forall dated_in_range node_details.

#[global] Instance dated_in_range_dec (d : NodeDetails.t) :
  Decision (dated_in_range d).
Proof. unfold dated_in_range. apply _. Defined.

#[global] Instance in_range_dec (node_details : list NodeDetails.t)
    (interval : Z) : Decision (in_range node_details interval).
Proof. unfold in_range. apply _. Defined.

(** * Properties *)

(** ** The outcome monad *)

Lemma bind_Returned {A B : Type} (f : A → outcome B) (m : outcome A) (b : B) :
  m ≫= f = Returned b ↔ ∃ a, m = Returned a ∧ f a = Returned b.
Proof.
  destruct m as [a|e]; simpl.
  - split; [eauto | intros (a' & [= <-] & ?); done].
  - split; [done | intros (a' & ? & ?); done].
Qed.

Lemma getitem_Returned {V : Type} (d : gmap Z V) (k : Z) (v : V) :
  getitem d k = Returned v ↔ d !! k = Some v.
Proof. unfold getitem. destruct (d !! k); split; congruence. Qed.

Lemma mapM_Returned {A B : Type} (f : A → outcome B) (l : list A) (k : list B) :
  mapM f l = Returned k ↔ Forall2 (λ x y, f x = Returned y) l k.
Proof.
  revert k. induction l as [|x l IH]; intros k; simpl.
  - split; [intros [= <-]; constructor | by inversion 1].
  - rewrite bind_Returned. split.
    + intros (y & Hy & Hk). apply bind_Returned in Hk as (k' & Hk' & [= <-]).
      constructor; [done | by apply IH].
    + inversion 1 as [|? y ? k' Hy Hk']; subst. exists y. split; [done|].
      apply bind_Returned. exists k'. split; [by apply IH | done].
Qed.

Lemma Forall2_fmap_eq {A B : Type} (f : A → outcome B) (g : A → B)
    (l : list A) (k : list B) :
  Forall2 (λ x y, f x = Returned y) l k →
  (∀ x y, x ∈ l → f x = Returned y → y = g x) →
  k = g <$> l.
Proof.
  induction 1 as [|x y l k Hxy _ IH]; intros Hg; [done|]. simpl. f_equal.
  - apply Hg; [left | done].
  - apply IH. intros x' y' Hx'. apply Hg. by right.
Qed.

(** ** [unique] *)

Lemma elem_of_unique_from (seen l : list Z) (x : Z) :
  x ∈ Pandas.unique_from seen l ↔ x ∈ l ∧ x ∉ seen.
Proof.
  revert seen. induction l as [|y l IH]; intros seen; simpl.
  - rewrite !elem_of_nil. tauto.
  - case_decide as Hy.
    + rewrite IH, elem_of_cons. split; [tauto|].
      intros [[->|?] ?]; [done | tauto].
    + rewrite !elem_of_cons, IH, elem_of_cons. split.
      * intros [->|[? ?]]; [tauto|]. split; [tauto|]. tauto.
      * intros [[->|?] ?]; [tauto|].
        destruct (decide (x = y)) as [->|]; [tauto|]. right. tauto.
Qed.

Lemma NoDup_unique_from (seen l : list Z) : NoDup (Pandas.unique_from seen l).
Proof.
  revert seen. induction l as [|y l IH]; intros seen; simpl; [constructor|].
  case_decide; [done|]. constructor; [|done].
  rewrite elem_of_unique_from, elem_of_cons. tauto.
Qed.

Lemma elem_of_unique (l : list Z) (x : Z) : x ∈ Pandas.unique l ↔ x ∈ l.
Proof. unfold Pandas.unique. rewrite elem_of_unique_from, elem_of_nil. tauto. Qed.

Lemma NoDup_unique (l : list Z) : NoDup (Pandas.unique l).
Proof. apply NoDup_unique_from. Qed.

Lemma elem_of_users_of (frame : timestamps_frame) (u : Z) :
  u ∈ users_of frame ↔ ∃ t, (u, t) ∈ frame.
Proof.
  unfold users_of. rewrite elem_of_unique, list_elem_of_fmap. split.
  - intros ([u' t] & -> & ?). by exists t.
  - intros (t & ?). by exists (u, t).
Qed.

Lemma elem_of_timestamps_of (frame : timestamps_frame) (u t : Z) :
  t ∈ timestamps_of frame u ↔ (u, t) ∈ frame.
Proof.
  unfold timestamps_of. rewrite list_elem_of_fmap. split.
  - intros ([u' t'] & -> & Hin). apply list_elem_of_filter in Hin as [Hu Hin].
    simpl in *. by subst.
  - intros Hin. exists (u, t). split; [done|]. by apply list_elem_of_filter.
Qed.

Lemma timestamps_of_app (f1 f2 : timestamps_frame) (u : Z) :
  timestamps_of (f1 ++ f2) u = timestamps_of f1 u ++ timestamps_of f2 u.
Proof. unfold timestamps_of. by rewrite filter_app, fmap_app. Qed.

Lemma timestamps_of_nil_iff (frame : timestamps_frame) (u : Z) :
  timestamps_of frame u = [] ↔ u ∉ users_of frame.
Proof.
  rewrite elem_of_users_of. split.
  - intros Hnil (t & Ht). apply elem_of_timestamps_of in Ht.
    rewrite Hnil in Ht. by apply elem_of_nil in Ht.
  - intros Hno. destruct (timestamps_of frame u) as [|t ts] eqn:E; [done|].
    exfalso. apply Hno. exists t. apply elem_of_timestamps_of. rewrite E. left.
Qed.

(** ** [take_at] *)

Lemma take_at_fmap {A B : Type} (f : A → B) (l : list A) (idx : list nat) :
  Pandas.take_at (f <$> l) idx = f <$> Pandas.take_at l idx.
Proof.
  unfold Pandas.take_at. induction idx as [|j idx IH]; [done|]. csimpl.
  rewrite list_lookup_fmap. destruct (l !! j); csimpl; by rewrite IH.
Qed.

Lemma take_at_app {A : Type} (l : list A) (i1 i2 : list nat) :
  Pandas.take_at l (i1 ++ i2) = Pandas.take_at l i1 ++ Pandas.take_at l i2.
Proof. unfold Pandas.take_at. apply omap_app. Qed.

Lemma take_at_reverse {A : Type} (l : list A) (idx : list nat) :
  Pandas.take_at l (reverse idx) = reverse (Pandas.take_at l idx).
Proof.
  induction idx as [|j idx IH]; [done|].
  rewrite reverse_cons, take_at_app, IH. unfold Pandas.take_at at 2 3. csimpl.
  destruct (l !! j); csimpl.
  - by rewrite reverse_cons.
  - by rewrite app_nil_r.
Qed.

Lemma omap_ext_in {A B : Type} (f g : A → option B) (l : list A) :
  (∀ x, x ∈ l → f x = g x) → omap f l = omap g l.
Proof.
  induction l as [|x l IH]; intros Hfg; [done|]. csimpl.
  rewrite (Hfg x) by left. rewrite IH; [done|].
  intros y Hy. apply Hfg. by right.
Qed.

Lemma take_at_seq {A : Type} (l : list A) :
  Pandas.take_at l (seq 0 (length l)) = l.
Proof.
  induction l as [|x l IH] using rev_ind; [done|].
  rewrite length_app. csimpl. rewrite Nat.add_1_r, seq_S, take_at_app. csimpl.
  rewrite lookup_app_r, Nat.sub_diag by lia. csimpl. f_equal.
  transitivity (Pandas.take_at l (seq 0 (length l))); [|exact IH].
  apply omap_ext_in. intros j Hj.
  apply elem_of_seq in Hj. by rewrite lookup_app_l by lia.
Qed.

Lemma take_at_Permutation {A : Type} (l : list A) (idx : list nat) :
  idx ≡ₚ seq 0 (length l) → Pandas.take_at l idx ≡ₚ l.
Proof.
  intros Hp. rewrite <- (take_at_seq l) at 2. unfold Pandas.take_at.
  by rewrite Hp.
Qed.

Lemma elem_of_take_at {A : Type} (l : list A) (idx : list nat) (x : A) :
  x ∈ Pandas.take_at l idx → x ∈ l.
Proof.
  unfold Pandas.take_at. rewrite list_elem_of_omap.
  intros (j & _ & Hj). by apply list_elem_of_lookup_2 in Hj.
Qed.

Lemma take_at_reverse_seq {A : Type} (l : list A) (js : list nat) :
  Pandas.take_at l (Pandas.take_at (reverse (seq 0 (length l))) js)
  = Pandas.take_at (reverse l) js.
Proof.
  induction js as [|j js IH]; [done|].
  unfold Pandas.take_at in *. csimpl.
  destruct (decide (j < length l)%nat) as [Hlt|Hge].
  - rewrite !reverse_lookup by (rewrite ?length_seq; lia).
    rewrite length_seq, lookup_seq_lt by lia. csimpl.
    destruct (l !! (length l - S j)%nat); csimpl; by rewrite IH.
  - rewrite (lookup_ge_None_2 (reverse (seq 0 (length l)))) by
      (rewrite length_reverse, length_seq; lia).
    rewrite (lookup_ge_None_2 (reverse l)) by (rewrite length_reverse; lia).
    csimpl. apply IH.
Qed.

(** ** Sorting *)

Section Sorting.

Variable argsort : list Z → list nat.
Hypothesis argsort_contract : Pandas.argsort_ok argsort.

Lemma nargsort_descending_Permutation (items : list Z) :
  Pandas.nargsort_descending argsort items ≡ₚ seq 0 (length items).
Proof.
  unfold Pandas.nargsort_descending.
  destruct (argsort_contract (reverse items)) as [Hp _].
  rewrite length_reverse in Hp.
  rewrite reverse_Permutation, take_at_Permutation.
  - apply reverse_Permutation.
  - by rewrite length_reverse, length_seq.
Qed.

Lemma nargsort_descending_Sorted (items : list Z) :
  Sorted (flip Z.le)
    (Pandas.take_at items (Pandas.nargsort_descending argsort items)).
Proof.
  unfold Pandas.nargsort_descending.
  rewrite take_at_reverse, take_at_reverse_seq.
  apply Sorted_reverse. apply argsort_contract.
Qed.

Lemma take_at_nargsort_Permutation {A : Type} (f : A → Z) (rows : list A) :
  Pandas.take_at rows (Pandas.nargsort_descending argsort (f <$> rows)) ≡ₚ rows.
Proof.
  apply take_at_Permutation.
  rewrite nargsort_descending_Permutation. by rewrite length_fmap.
Qed.

Lemma take_at_nargsort_Sorted {A : Type} (f : A → Z) (rows : list A) :
  Sorted (flip Z.le)
    (f <$> Pandas.take_at rows (Pandas.nargsort_descending argsort (f <$> rows))).
Proof. rewrite <- take_at_fmap. apply nargsort_descending_Sorted. Qed.

End Sorting.

(** The sample routine meets the contract. *)

Lemma take_at_zip_seq (items : list Z) (ps : list (Z * nat)) :
  (∀ p, p ∈ ps → items !! p.2 = Some p.1) →
  Pandas.take_at items (ps.*2) = ps.*1.
Proof.
  induction ps as [|p ps IH]; intros Hin; [done|].
  unfold Pandas.take_at in *. csimpl. rewrite (Hin p) by left. csimpl.
  rewrite IH; [done|]. intros q Hq. apply Hin. by right.
Qed.

Lemma elem_of_zip_seq (items : list Z) (p : Z * nat) :
  p ∈ zip items (seq 0 (length items)) → items !! p.2 = Some p.1.
Proof.
  intros Hp. apply list_elem_of_lookup in Hp as [i Hi].
  apply lookup_zip_with_Some in Hi as (x & j & -> & Hx & Hj). simpl.
  apply lookup_seq in Hj as [-> _]. done.
Qed.

Lemma merge_argsort_ok (R : relation (Z * nat)) `{∀ a b, Decision (R a b)} :
  Total R → (∀ a b, R a b → a.1 ≤ b.1) →
  Pandas.argsort_ok
    (λ items, (merge_sort R (zip items (seq 0 (length items)))).*2).
Proof.
  intros Htot Hle items. split.
  - rewrite merge_sort_Permutation, snd_zip; [done|]. by rewrite length_seq.
  - rewrite take_at_zip_seq.
    + assert (Hs := Sorted_merge_sort R (zip items (seq 0 (length items)))).
      induction Hs as [|p ps Hs IH Hhd]; csimpl; constructor; [done|].
      destruct Hhd; csimpl; constructor. by apply Hle.
    + intros p Hp. apply elem_of_zip_seq.
      by rewrite merge_sort_Permutation in Hp.
Qed.

Lemma stable_argsort_ok : Pandas.argsort_ok Instances.stable_argsort.
Proof.
  apply (merge_argsort_ok Instances.le_item).
  - intros [a i] [b j]. unfold Instances.le_item. simpl. lia.
  - intros a b. unfold Instances.le_item. lia.
Qed.

Lemma insertion_order_ok : Contributions.set_ok Instances.insertion_order.
Proof.
  intros l. split; [apply NoDup_unique | intros x; apply elem_of_unique].
Qed.

(** ** Time bins *)

Lemma length_filter_fmap {A B : Type} (f : A → B) (P : B → Prop)
    `{!∀ y, Decision (P y)} (l : list A) :
  length (filter P (f <$> l)) = length (filter (λ x, P (f x)) l).
Proof.
  induction l as [|x l IH]; [done|]. csimpl.
  rewrite !filter_cons. destruct (decide (P (f x))); simpl; by rewrite IH.
Qed.

Lemma filter_all {A : Type} (P : A → Prop) `{!∀ x, Decision (P x)} (l : list A) :
  Forall P l → filter P l = l.
Proof.
  induction 1 as [|x l Hx _ IH]; [done|]. by rewrite filter_cons_True, IH.
Qed.

Lemma ts_min_le (t0 : Z) (rest : list Z) (t : Z) :
  t ∈ t0 :: rest → Pandas.ts_min t0 rest ≤ t.
Proof.
  unfold Pandas.ts_min. induction rest as [|x rest IH]; simpl.
  - intros Ht. apply list_elem_of_singleton in Ht. lia.
  - rewrite !elem_of_cons. rewrite elem_of_cons in IH.
    intros [->|[->|Ht]]; [specialize (IH (or_introl eq_refl)) | | 
                          specialize (IH (or_intror Ht))]; lia.
Qed.

Lemma ts_max_ge (t0 : Z) (rest : list Z) (t : Z) :
  t ∈ t0 :: rest → t ≤ Pandas.ts_max t0 rest.
Proof.
  unfold Pandas.ts_max. induction rest as [|x rest IH]; simpl.
  - intros Ht. apply list_elem_of_singleton in Ht. lia.
  - rewrite !elem_of_cons. rewrite elem_of_cons in IH.
    intros [->|[->|Ht]]; [specialize (IH (or_introl eq_refl)) | | 
                          specialize (IH (or_intror Ht))]; lia.
Qed.

Lemma ts_min_le_max (t0 : Z) (rest : list Z) :
  Pandas.ts_min t0 rest ≤ Pandas.ts_max t0 rest.
Proof.
  transitivity t0; [apply ts_min_le | apply ts_max_ge]; left.
Qed.

Lemma normalize_le (t : Z) : Pandas.normalize t ≤ t.
Proof.
  unfold Pandas.normalize.
  assert (0 ≤ t `mod` Pandas.nanos_per_day); [|lia].
  apply Z.mod_pos_bound. reflexivity.
Qed.

(** Both edges lie on the grid of width [w] through midnight of the first
    day. *)
Lemma adjust_dates_anchored_grid (first last w : Z) :
  0 < w →
  Pandas.adjust_dates_anchored first last w
  = (Pandas.normalize first
       + w * Spec.bin_of (Pandas.normalize first) w first,
     Pandas.normalize first
       + w * (Spec.bin_of (Pandas.normalize first) w last + 1)).
Proof.
  intros Hw. unfold Pandas.adjust_dates_anchored, Spec.bin_of.
  set (o := Pandas.normalize first).
  pose proof (Z.div_mod (first - o) w) as Hf.
  pose proof (Z.div_mod (last - o) w) as Hl.
  pose proof (Z.mod_pos_bound (first - o) w Hw).
  pose proof (Z.mod_pos_bound (last - o) w Hw).
  f_equal; case_decide; lia.
Qed.

Lemma bin_of_spec (o w t k : Z) :
  0 < w → Spec.bin_of o w t = k ↔ o + w * k ≤ t < o + w * k + w.
Proof.
  intros Hw. unfold Spec.bin_of.
  pose proof (Z.div_mod (t - o) w) as Hd.
  pose proof (Z.mod_pos_bound (t - o) w Hw). split.
  - intros <-. lia.
  - intros Hk. symmetry. apply (Z.div_unique_pos _ _ _ (t - o - w * k)); lia.
Qed.

Lemma bin_of_mono (o w t1 t2 : Z) :
  0 < w → t1 ≤ t2 → Spec.bin_of o w t1 ≤ Spec.bin_of o w t2.
Proof. intros. unfold Spec.bin_of. apply Z.div_le_mono; lia. Qed.

Lemma bin_size_actions (o w k : Z) (ts : list Z) :
  0 < w →
  Pandas.bin_size (o + w * k) w ts = Spec.actions_in_bin o w ts k.
Proof.
  intros Hw. unfold Pandas.bin_size, Spec.actions_in_bin. do 2 f_equal.
  apply list_filter_iff. intros t. by rewrite bin_of_spec.
Qed.

(** The counts pandas produces, read as the specification's bins: one count
    for every bin from the bin of the earliest timestamp to the bin of the
    latest. *)
Lemma time_grouper_count_bins (w t0 : Z) (rest : list Z) :
  0 < w →
  let ts := t0 :: rest in
  let o := day_origin ts in
  let kf := Spec.bin_of o w (Pandas.ts_min t0 rest) in
  let kl := Spec.bin_of o w (Pandas.ts_max t0 rest) in
  Pandas.time_grouper_count w ts
  = Spec.actions_in_bin o w ts <$> seqZ kf (kl - kf + 1).
Proof.
  intros Hw ts o kf kl. unfold Pandas.time_grouper_count, Pandas.range_edges.
  subst ts. cbv iota.
  rewrite adjust_dates_anchored_grid by done.
  change (Pandas.normalize (Pandas.ts_min t0 rest)) with o.
  fold kf kl.
  replace ((o + w * (kl + 1) - (o + w * kf)) `div` w) with (kl - kf + 1).
  2:{ replace (o + w * (kl + 1) - (o + w * kf)) with ((kl - kf + 1) * w) by lia.
      by rewrite Z.div_mul by lia. }
  replace (seqZ kf (kl - kf + 1)) with (Z.add kf <$> seqZ 0 (kl - kf + 1))
    by (rewrite fmap_add_seqZ; f_equal; lia).
  rewrite <- list_fmap_compose.
  apply list_fmap_ext. intros _ i _. simpl.
  rewrite <- bin_size_actions by done. f_equal. lia.
Qed.

Lemma time_grouper_count_length (w t0 : Z) (rest : list Z) :
  0 < w →
  let o := day_origin (t0 :: rest) in
  Z.of_nat (length (Pandas.time_grouper_count w (t0 :: rest)))
  = Spec.bin_of o w (Pandas.ts_max t0 rest)
    - Spec.bin_of o w (Pandas.ts_min t0 rest) + 1.
Proof.
  intros Hw o. rewrite time_grouper_count_bins by done.
  rewrite length_fmap, length_seqZ.
  pose proof (bin_of_mono (day_origin (t0 :: rest)) w _ _ Hw (ts_min_le_max t0 rest)).
  fold o in H |- *. lia.
Qed.

Lemma time_grouper_count_nonempty (w t0 : Z) (rest : list Z) :
  0 < w → Pandas.time_grouper_count w (t0 :: rest) ≠ [].
Proof.
  intros Hw Hnil. pose proof (time_grouper_count_length w t0 rest Hw) as Hlen.
  rewrite Hnil in Hlen. cbv zeta in Hlen. simpl length in Hlen.
  pose proof (bin_of_mono (day_origin (t0 :: rest)) w _ _ Hw (ts_min_le_max t0 rest)).
  lia.
Qed.

Lemma actions_in_bin_pos (o w k : Z) (ts : list Z) :
  0 < Spec.actions_in_bin o w ts k ↔ k ∈ Spec.bin_of o w <$> ts.
Proof.
  unfold Spec.actions_in_bin. rewrite list_elem_of_fmap. split.
  - intros Hpos.
    destruct (filter (λ t, Spec.bin_of o w t = k) ts) as [|t l] eqn:E;
      [simpl in Hpos; lia|].
    assert (Ht : t ∈ filter (λ t, Spec.bin_of o w t = k) ts) by (rewrite E; left).
    apply list_elem_of_filter in Ht as [Hk Ht]. by exists t.
  - intros (t & -> & Ht).
    assert (Hin : t ∈ filter (λ t', Spec.bin_of o w t' = Spec.bin_of o w t) ts)
      by (by apply list_elem_of_filter).
    destruct (filter _ ts); [by apply elem_of_nil in Hin | simpl; lia].
Qed.

(** With a threshold of at least one action, the active bins pandas counts
    are the specification's active bins. *)
Lemma binned_minutes_spec (interval minimum_actions : Z) (ts : list Z) :
  0 < interval → 1 ≤ minimum_actions →
  binned_minutes interval minimum_actions ts
  = Spec.minutes (day_origin ts) interval minimum_actions ts.
Proof.
  intros Hi Hm. unfold binned_minutes, Spec.minutes, Spec.active_bins.
  destruct ts as [|t0 rest]; [done|].
  set (w := Pandas.offset_nanos interval).
  assert (Hw : 0 < w) by (unfold w, Pandas.offset_nanos, Pandas.nanos_per_minute; lia).
  rewrite time_grouper_count_bins by done. cbv zeta.
  set (o := day_origin (t0 :: rest)).
  rewrite length_filter_fmap. do 2 f_equal. apply Permutation_length.
  apply NoDup_Permutation.
  - apply NoDup_filter, NoDup_seqZ.
  - apply NoDup_filter, NoDup_remove_dups.
  - intros k. rewrite !list_elem_of_filter, elem_of_remove_dups, elem_of_seqZ.
    split.
    + intros [Hk _]. split; [done|]. apply actions_in_bin_pos. lia.
    + intros [Hk Hin]. split; [done|].
      apply list_elem_of_fmap in Hin as (t & -> & Ht).
      pose proof (bin_of_mono o w _ _ Hw (ts_min_le t0 rest t Ht)).
      pose proof (bin_of_mono o w _ _ Hw (ts_max_ge t0 rest t Ht)). lia.
Qed.

(** With a threshold of zero or less every bin of the range counts. *)
Lemma binned_minutes_nonpositive (interval minimum_actions t0 : Z) (rest : list Z) :
  0 < interval → minimum_actions ≤ 0 →
  let w := Pandas.offset_nanos interval in
  let o := day_origin (t0 :: rest) in
  binned_minutes interval minimum_actions (t0 :: rest)
  = (Spec.bin_of o w (Pandas.ts_max t0 rest)
     - Spec.bin_of o w (Pandas.ts_min t0 rest) + 1) * interval.
Proof.
  intros Hi Hm w o. unfold binned_minutes. fold w.
  assert (Hw : 0 < w) by (unfold w, Pandas.offset_nanos, Pandas.nanos_per_minute; lia).
  subst o. rewrite <- (time_grouper_count_length w t0 rest Hw). do 3 f_equal.
  apply filter_all.
  rewrite time_grouper_count_bins by done. cbv zeta.
  apply Forall_fmap, Forall_forall. intros k _. simpl.
  unfold Spec.actions_in_bin. lia.
Qed.

(** ** The statistics loop *)

Lemma lookup_zero_dict (users : list Z) (u : Z) :
  zero_dict users !! u = if decide (u ∈ users) then Some 0 else None.
Proof.
  unfold zero_dict. induction users as [|x users IH]; csimpl.
  - by rewrite lookup_empty.
  - rewrite lookup_insert. destruct (decide (x = u)) as [->|Hne].
    + by rewrite decide_True by left.
    + rewrite IH. destruct (decide (u ∈ users)).
      * by rewrite decide_True by (by right).
      * rewrite decide_False; [done|]. rewrite elem_of_cons. intros [?|?]; congruence.
Qed.

Lemma binned_minutes_nil (interval minimum_actions : Z) :
  binned_minutes interval minimum_actions [] = 0.
Proof. done. Qed.

Section Loop.

Variable nonpositive_freq : Z → list Z → outcome (list Z).
Variables interval minimum_actions : Z.
Hypothesis interval_pos : 0 < interval.

Lemma active_minutes_pos (frame : timestamps_frame) (u : Z) :
  u ∈ users_of frame →
  active_minutes nonpositive_freq interval minimum_actions frame u
  = Returned (binned_minutes interval minimum_actions (timestamps_of frame u)).
Proof.
  intros Hu. unfold active_minutes, Pandas.groupby_count.
  rewrite decide_True by done. simpl.
  destruct (timestamps_of frame u) as [|t0 rest] eqn:E.
  { apply timestamps_of_nil_iff in E. done. }
  assert (Hw : 0 < Pandas.offset_nanos interval)
    by (unfold Pandas.offset_nanos, Pandas.nanos_per_minute; lia).
  pose proof (time_grouper_count_nonempty _ t0 rest Hw) as Hne.
  unfold binned_minutes.
  destruct (Pandas.time_grouper_count _ (t0 :: rest)); done.
Qed.

Lemma add_time_pos (frame : timestamps_frame) (d : gmap Z Z) (u old : Z) :
  u ∈ users_of frame → d !! u = Some old →
  add_time nonpositive_freq interval minimum_actions frame d u
  = Returned (<[u := old + binned_minutes interval minimum_actions
                               (timestamps_of frame u)]> d).
Proof.
  intros Hu Hold. unfold add_time, getitem. rewrite Hold. simpl.
  by rewrite active_minutes_pos.
Qed.

Lemma for_each_add_time (frame : timestamps_frame) (l : list Z) (d : gmap Z Z) :
  NoDup l →
  (∀ u, u ∈ l → u ∈ users_of frame) →
  (∀ u, u ∈ l → is_Some (d !! u)) →
  ∃ d',
    for_each (add_time nonpositive_freq interval minimum_actions frame) l d
    = Returned d' ∧
    ∀ u, d' !! u =
         if decide (u ∈ l)
         then (λ old, old + binned_minutes interval minimum_actions
                              (timestamps_of frame u)) <$> d !! u
         else d !! u.
Proof.
  revert d. induction l as [|x l IH]; intros d Hnd Hin Hkeys.
  - exists d. split; [done|]. intros u.
    by rewrite decide_False by apply not_elem_of_nil.
  - apply NoDup_cons in Hnd as [Hx Hnd].
    destruct (Hkeys x) as [old Hold]; [left|].
    set (n := binned_minutes interval minimum_actions (timestamps_of frame x)).
    destruct (IH (<[x := old + n]> d)) as (d' & Hrun & Hd'); [done | | |].
    { intros u Hu. apply Hin. by right. }
    { intros u Hu. rewrite lookup_insert. case_decide; [eauto|].
      apply Hkeys. by right. }
    exists d'. split.
    + cbn [for_each]. rewrite (add_time_pos frame d x old); [| apply Hin; left | done].
      exact Hrun.
    + intros u. rewrite Hd'. destruct (decide (u = x)) as [->|Hne].
      * rewrite decide_False by done. rewrite decide_True by left.
        rewrite lookup_insert, decide_True by done. by rewrite Hold.
      * rewrite lookup_insert, (decide_False (P := x = u)) by done.
        destruct (decide (u ∈ l)).
        -- by rewrite decide_True by (by right).
        -- rewrite decide_False; [done|]. rewrite elem_of_cons. intros [?|?]; done.
Qed.

(** One call of the loop over a view, started from the zero dict. *)
Lemma time_spent_zero (frame : timestamps_frame) (everyone : list Z) :
  (∀ u, u ∈ users_of frame → u ∈ everyone) →
  ∃ d',
    time_spent nonpositive_freq interval minimum_actions frame (zero_dict everyone)
    = Returned d' ∧
    ∀ u, d' !! u =
         if decide (u ∈ everyone)
         then Some (binned_minutes interval minimum_actions (timestamps_of frame u))
         else None.
Proof.
  intros Hsub.
  destruct (for_each_add_time frame (users_of frame) (zero_dict everyone))
    as (d' & Hrun & Hd').
  - apply NoDup_unique.
  - done.
  - intros u Hu. rewrite lookup_zero_dict, decide_True by auto. eauto.
  - exists d'. split; [exact Hrun|]. intros u. rewrite Hd', lookup_zero_dict.
    destruct (decide (u ∈ users_of frame)) as [Hu|Hu].
    + destruct (decide (u ∈ everyone)) as [|Hn]; [|exfalso; auto].
      done.
    + destruct (decide (u ∈ everyone)); [|done].
      apply timestamps_of_nil_iff in Hu. by rewrite Hu.
Qed.

Lemma compute_stats_pos (node_details : list NodeDetails.t) :
  let everyone := users_of (all_timestamps node_details) in
  let value frame u :=
    if decide (u ∈ everyone)
    then Some (binned_minutes interval minimum_actions (timestamps_of frame u))
    else None in
  ∃ stats,
    compute_stats nonpositive_freq interval minimum_actions node_details
    = Returned stats ∧
    ∀ u,
      st_total stats !! u = value (all_timestamps node_details) u ∧
      st_creation stats !! u = value (creation_timestamps node_details) u ∧
      st_edition stats !! u = value (edition_timestamps node_details) u ∧
      st_review stats !! u = value (review_timestamps node_details) u.
Proof.
  intros everyone value. unfold compute_stats. fold everyone.
  destruct (time_spent_zero (all_timestamps node_details) everyone)
    as (t & -> & Ht); [done|].
  destruct (time_spent_zero (creation_timestamps node_details) everyone)
    as (c & -> & Hc).
  { intros u. unfold everyone. rewrite !elem_of_users_of.
    intros [ts ?]. exists ts. unfold all_timestamps. rewrite !elem_of_app. auto. }
  destruct (time_spent_zero (edition_timestamps node_details) everyone)
    as (e & -> & He).
  { intros u. unfold everyone. rewrite !elem_of_users_of.
    intros [ts ?]. exists ts. unfold all_timestamps. rewrite !elem_of_app. auto. }
  destruct (time_spent_zero (review_timestamps node_details) everyone)
    as (r & -> & Hr).
  { intros u. unfold everyone. rewrite !elem_of_users_of.
    intros [ts ?]. exists ts. unfold all_timestamps. rewrite !elem_of_app. auto. }
  simpl. eexists. split; [done|]. intros u. simpl. by rewrite Ht, Hc, He, Hr.
Qed.

End Loop.

(** ** The report in closed form *)

Lemma elem_of_zip_seq_users (everyone : list Z) (i : nat) (u : Z) :
  (i, u) ∈ zip (seq 0 (length everyone)) everyone ↔ everyone !! i = Some u.
Proof.
  rewrite list_elem_of_lookup. split.
  - intros (j & Hj). apply lookup_zip_with_Some in Hj as (i' & u' & [= -> ->] & Hi & Hu).
    apply lookup_seq in Hi as [-> _]. done.
  - intros Hu. exists i. apply lookup_zip_with_Some. exists i, u.
    split; [done|]. split; [|done]. apply lookup_seq. split; [done|].
    by apply lookup_lt_Some in Hu.
Qed.

Section ClosedForm.

Variable argsort : list Z → list nat.
Variable nonpositive_freq : Z → list Z → outcome (list Z).
Variable user_list : gmap Z string.
Variable node_details : list NodeDetails.t.
Variables interval minimum_actions : Z.
Hypothesis interval_pos : 0 < interval.

Let everyone := users_of (all_timestamps node_details).

Lemma make_row_pos (stats : stats_dict) (i : nat) (u : Z) (row : report_row) :
  compute_stats nonpositive_freq interval minimum_actions node_details
  = Returned stats →
  u ∈ everyone →
  make_row user_list stats (i, u) = Returned row ↔
  is_Some (user_list !! u) ∧
  row = expected_row user_list interval minimum_actions node_details (i, u).
Proof.
  intros Hstats Hu.
  destruct (compute_stats_pos nonpositive_freq interval minimum_actions
              interval_pos node_details) as (stats' & Hstats' & Hval).
  rewrite Hstats in Hstats'. injection Hstats' as <-.
  destruct (Hval u) as (Ht & Hc & He & Hr).
  fold everyone in Ht, Hc, He, Hr.
  rewrite decide_True in Ht, Hc, He, Hr by done.
  unfold make_row, getitem, expected_row. rewrite Ht, Hc, He, Hr. simpl.
  rewrite lookup_total_alt.
  destruct (user_list !! u) as [name|]; simpl.
  - split; [intros [= <-]; eauto | intros [_ ->]; done].
  - split; [done | intros [[? ?] _]; done].
Qed.

Theorem get_time_invested_Returned (rows : list report_row) :
  get_time_invested argsort nonpositive_freq user_list node_details
    interval minimum_actions = Returned rows ↔
  (∀ u, u ∈ everyone → is_Some (user_list !! u)) ∧
  rows = sort_values_total argsort
           (expected_frame user_list interval minimum_actions node_details).
Proof.
  unfold get_time_invested.
  destruct (compute_stats_pos nonpositive_freq interval minimum_actions
              interval_pos node_details) as (stats & Hstats & _).
  rewrite Hstats. simpl. fold everyone. rewrite bind_Returned.
  unfold expected_frame. fold everyone. split.
  - intros (rows0 & Hmap & [= <-]). apply mapM_Returned in Hmap.
    assert (Hnames : ∀ u, u ∈ everyone → is_Some (user_list !! u)).
    { intros u Hu. apply list_elem_of_lookup in Hu as [i Hi].
      apply elem_of_zip_seq_users in Hi.
      apply list_elem_of_lookup in Hi as [j Hj].
      destruct (Forall2_lookup_l _ _ _ _ _ Hmap Hj) as (row & _ & Hrow).
      apply (make_row_pos stats) in Hrow as [? _]; [done | done |].
      apply list_elem_of_lookup_2, elem_of_zip_seq_users in Hj.
      by apply list_elem_of_lookup_2 in Hj. }
    split; [done|]. f_equal.
    apply (Forall2_fmap_eq _ _ _ _ Hmap). intros [i u] row Hin Hrow.
    apply (make_row_pos stats) in Hrow as [_ ->]; [done | done |].
    apply elem_of_zip_seq_users in Hin. by apply list_elem_of_lookup_2 in Hin.
  - intros [Hnames ->]. eexists. split; [|done]. apply mapM_Returned.
    apply Forall2_fmap_r, Forall_Forall2_diag, Forall_forall.
    intros [i u] Hin. apply (make_row_pos stats); [done | | ].
    + apply elem_of_zip_seq_users in Hin. by apply list_elem_of_lookup_2 in Hin.
    + split; [|done]. apply Hnames.
      apply elem_of_zip_seq_users in Hin. by apply list_elem_of_lookup_2 in Hin.
Qed.

End ClosedForm.

(** ** Rows of the report *)

Lemma elem_of_expected_frame (user_list : gmap Z string) (interval m : Z)
    (node_details : list NodeDetails.t) (row : report_row) :
  row ∈ expected_frame user_list interval m node_details ↔
  ∃ u, users_of (all_timestamps node_details) !! index row = Some u ∧
       row = expected_row user_list interval m node_details (index row, u).
Proof.
  unfold expected_frame. rewrite list_elem_of_fmap. split.
  - intros ([i u] & -> & Hin). apply elem_of_zip_seq_users in Hin. by exists u.
  - intros (u & Hu & Hrow). exists (index row, u). split; [done|].
    by apply elem_of_zip_seq_users.
Qed.

Lemma index_expected_frame (user_list : gmap Z string) (interval m : Z)
    (node_details : list NodeDetails.t) :
  index <$> expected_frame user_list interval m node_details
  = seq 0 (length (users_of (all_timestamps node_details))).
Proof.
  unfold expected_frame. rewrite <- list_fmap_compose.
  set (everyone := users_of (all_timestamps node_details)).
  transitivity ((zip (seq 0 (length everyone)) everyone).*1).
  - by apply list_fmap_ext.
  - apply fst_zip. by rewrite length_seq.
Qed.

(** Every row of a returned report is the closed-form row of the user its
    [index] column points at. *)
Lemma report_row_inv (argsort : list Z → list nat)
    (nonpositive_freq : Z → list Z → outcome (list Z))
    (user_list : gmap Z string) (node_details : list NodeDetails.t)
    (interval m : Z) (rows : list report_row) (row : report_row) :
  0 < interval →
  get_time_invested argsort nonpositive_freq user_list node_details interval m
  = Returned rows →
  row ∈ rows →
  ∃ u, users_of (all_timestamps node_details) !! index row = Some u ∧
       row = expected_row user_list interval m node_details (index row, u).
Proof.
  intros Hi Hrun Hrow. apply get_time_invested_Returned in Hrun as [_ ->]; [|done].
  apply elem_of_take_at in Hrow. by apply elem_of_expected_frame.
Qed.

(** With a conforming sort the report is a rearrangement of the closed-form
    frame. *)
Lemma report_Permutation (argsort : list Z → list nat)
    (nonpositive_freq : Z → list Z → outcome (list Z))
    (user_list : gmap Z string) (node_details : list NodeDetails.t)
    (interval m : Z) (rows : list report_row) :
  Pandas.argsort_ok argsort →
  0 < interval →
  get_time_invested argsort nonpositive_freq user_list node_details interval m
  = Returned rows →
  rows ≡ₚ expected_frame user_list interval m node_details.
Proof.
  intros Hsort Hi Hrun. apply get_time_invested_Returned in Hrun as [_ ->]; [|done].
  by apply take_at_nargsort_Permutation.
Qed.

(** ** Minutes are active bins times the interval *)

(** C1: for every user of the report and every view (total, creation,
    edition, review), the minutes in that user's row are the number of
    [interval]-minute bins holding at least [minimum_actions] of the user's
    timestamps in that view, times [interval]; the bins are counted from
    midnight of the day of the user's first timestamp in the view.  With
    [interval = 1], [minimum_actions = 1] and creation timestamps at minutes
    0, 0.5 and 2 the creation figure is 2. *)
Theorem minutes_are_active_bins :
  (∀ (argsort : list Z → list nat)
     (nonpositive_freq : Z → list Z → outcome (list Z))
     (user_list : gmap Z string) (node_details : list NodeDetails.t)
     (interval minimum_actions : Z) (rows : list report_row),
     Pandas.argsort_ok argsort →
     1 ≤ interval → 1 ≤ minimum_actions →
     get_time_invested argsort nonpositive_freq user_list node_details
       interval minimum_actions = Returned rows →
     ∀ (i : nat) (u : Z),
       users_of (all_timestamps node_details) !! i = Some u →
       let minutes_in view :=
         Spec.minutes (day_origin (timestamps_of view u)) interval
           minimum_actions (timestamps_of view u) in
       ∃ row, row ∈ rows ∧ index row = i ∧
         total row = minutes_in (all_timestamps node_details) ∧
         creation row = minutes_in (creation_timestamps node_details) ∧
         edition row = minutes_in (edition_timestamps node_details) ∧
         review row = minutes_in (review_timestamps node_details))
  ∧ creation <$>
      get_time_invested_rows_of
        (get_time_invested Instances.stable_argsort Instances.refuse_freq
           Samples.names Samples.scenario1 1 1)
    = [2; 0].
Proof.
  split.
  - intros argsort npf ul nd interval m rows Hsort Hi Hm Hrun i u Hu minutes_in.
    assert (Hpos : 0 < interval) by lia.
    exists (expected_row ul interval m nd (i, u)). split.
    { rewrite (report_Permutation _ _ _ _ _ _ _ Hsort Hpos Hrun).
      apply elem_of_expected_frame. by exists u. }
    split; [done|]. unfold minutes_in. simpl.
    rewrite !binned_minutes_spec by lia. done.
  - vm_compute. reflexivity.
Qed.

Lemma minutes_are_active_bins_witness :
  ∃ row,
    row ∈ [mk_row 0 "A" 2 2 0 0; mk_row 1 "B" 1 0 1 0] ∧ index row = 0%nat ∧
    total row
    = Spec.minutes
        (day_origin (timestamps_of (all_timestamps Samples.scenario1) 1)) 1 1
        (timestamps_of (all_timestamps Samples.scenario1) 1) ∧
    creation row
    = Spec.minutes
        (day_origin (timestamps_of (creation_timestamps Samples.scenario1) 1)) 1 1
        (timestamps_of (creation_timestamps Samples.scenario1) 1) ∧
    edition row
    = Spec.minutes
        (day_origin (timestamps_of (edition_timestamps Samples.scenario1) 1)) 1 1
        (timestamps_of (edition_timestamps Samples.scenario1) 1) ∧
    review row
    = Spec.minutes
        (day_origin (timestamps_of (review_timestamps Samples.scenario1) 1)) 1 1
        (timestamps_of (review_timestamps Samples.scenario1) 1).
Proof.
  apply (proj1 minutes_are_active_bins Instances.stable_argsort
           Instances.refuse_freq Samples.names Samples.scenario1 1 1 _
           stable_argsort_ok);
    [lia | lia | vm_compute; reflexivity | reflexivity].
Defined.

(** ** No validation of the parameters *)

Lemma span_minutes_bins (interval t0 : Z) (rest : list Z) :
  0 < interval →
  let w := Pandas.offset_nanos interval in
  let o := day_origin (t0 :: rest) in
  span_minutes interval (t0 :: rest)
  = (Spec.bin_of o w (Pandas.ts_max t0 rest)
     - Spec.bin_of o w (Pandas.ts_min t0 rest) + 1) * interval.
Proof.
  intros Hi w o. unfold span_minutes, Pandas.range_edges. fold w.
  assert (Hw : 0 < w) by (unfold w, Pandas.offset_nanos, Pandas.nanos_per_minute; lia).
  rewrite adjust_dates_anchored_grid by done.
  change (Pandas.normalize (Pandas.ts_min t0 rest)) with o.
  set (kf := Spec.bin_of o w (Pandas.ts_min t0 rest)).
  set (kl := Spec.bin_of o w (Pandas.ts_max t0 rest)).
  replace (o + w * (kl + 1) - (o + w * kf)) with ((kl - kf + 1) * w) by lia.
  by rewrite Z.div_mul by lia.
Qed.

Lemma binned_minutes_span (interval minimum_actions : Z) (ts : list Z) :
  0 < interval → minimum_actions ≤ 0 →
  binned_minutes interval minimum_actions ts = span_minutes interval ts.
Proof.
  intros Hi Hm. destruct ts as [|t0 rest]; [done|].
  rewrite binned_minutes_nonpositive, span_minutes_bins by done. done.
Qed.

(** C2 (as the code has it): the function checks neither parameter.  With
    an interval of at least one minute, a [minimum_actions] that is zero or
    negative is used as it is: in the report the call returns, every bin
    between a user's first and last bin edge counts as active, empty bins
    included. *)
Theorem nonpositive_minimum_actions_accepted
    (argsort : list Z → list nat)
    (nonpositive_freq : Z → list Z → outcome (list Z))
    (user_list : gmap Z string) (node_details : list NodeDetails.t)
    (interval minimum_actions : Z) (rows : list report_row)
    (row : report_row) :
  1 ≤ interval → minimum_actions ≤ 0 →
  get_time_invested argsort nonpositive_freq user_list node_details
    interval minimum_actions = Returned rows →
  row ∈ rows →
  ∃ u, users_of (all_timestamps node_details) !! index row = Some u ∧
    total row
    = span_minutes interval (timestamps_of (all_timestamps node_details) u) ∧
    creation row
    = span_minutes interval (timestamps_of (creation_timestamps node_details) u) ∧
    edition row
    = span_minutes interval (timestamps_of (edition_timestamps node_details) u) ∧
    review row
    = span_minutes interval (timestamps_of (review_timestamps node_details) u).
Proof.
  intros Hi Hm Hrun Hrow. assert (Hpos : 0 < interval) by lia.
  destruct (report_row_inv _ _ _ _ _ _ _ _ Hpos Hrun Hrow) as (u & Hu & ->).
  exists u. split; [done|]. simpl. rewrite !binned_minutes_span by done. done.
Qed.

Lemma nonpositive_minimum_actions_accepted_witness :
  ∃ u, users_of (all_timestamps Samples.scenario1) !! 0%nat = Some u ∧
    3 = span_minutes 1 (timestamps_of (all_timestamps Samples.scenario1) u) ∧
    3 = span_minutes 1 (timestamps_of (creation_timestamps Samples.scenario1) u) ∧
    0 = span_minutes 1 (timestamps_of (edition_timestamps Samples.scenario1) u) ∧
    0 = span_minutes 1 (timestamps_of (review_timestamps Samples.scenario1) u).
Proof.
  apply (nonpositive_minimum_actions_accepted Instances.stable_argsort
           Instances.refuse_freq Samples.names Samples.scenario1 1 (-1)
           [mk_row 0 "A" 3 3 0 0; mk_row 1 "B" 1 0 1 0]
           (mk_row 0 "A" 3 3 0 0));
    [lia | lia | vm_compute; reflexivity | left].
Defined.

(** C2, the claim as stated fails: with [minimum_actions = 0] the call
    returns a report, counting the empty bin between minute 0 and minute 2,
    and raises nothing. *)
Lemma zero_minimum_actions_returns :
  get_time_invested Instances.stable_argsort Instances.refuse_freq
    Samples.names Samples.scenario1 1 0
  = Returned [mk_row 0 "A" 3 3 0 0; mk_row 1 "B" 1 0 1 0]
  ∧ ¬ ∃ e, get_time_invested Instances.stable_argsort Instances.refuse_freq
             Samples.names Samples.scenario1 1 0 = Raised e.
Proof.
  split; [vm_compute; reflexivity|]. intros [e He]. vm_compute in He. done.
Qed.

(** ** Order of the rows *)

Lemma get_time_invested_sorted_frame (argsort : list Z → list nat)
    (nonpositive_freq : Z → list Z → outcome (list Z))
    (user_list : gmap Z string) (node_details : list NodeDetails.t)
    (interval m : Z) (rows : list report_row) :
  get_time_invested argsort nonpositive_freq user_list node_details interval m
  = Returned rows →
  ∃ frame, rows = sort_values_total argsort frame.
Proof.
  unfold get_time_invested. intros Hrun.
  apply bind_Returned in Hrun as (stats & _ & Hrun).
  apply bind_Returned in Hrun as (frame & _ & [= <-]). by exists frame.
Qed.

(** C6 (as the code has it): the rows of a returned report are in
    descending order of [total], whatever sorting routine the library
    provides; nothing fixes the order of rows whose totals are equal. *)
Theorem rows_sorted_by_total_descending
    (argsort : list Z → list nat)
    (nonpositive_freq : Z → list Z → outcome (list Z))
    (user_list : gmap Z string) (node_details : list NodeDetails.t)
    (interval minimum_actions : Z) (rows : list report_row) :
  Pandas.argsort_ok argsort →
  get_time_invested argsort nonpositive_freq user_list node_details
    interval minimum_actions = Returned rows →
  Sorted (flip Z.le) (total <$> rows).
Proof.
  intros Hsort Hrun.
  apply get_time_invested_sorted_frame in Hrun as [frame ->].
  by apply take_at_nargsort_Sorted.
Qed.

Lemma rows_sorted_by_total_descending_witness :
  Sorted (flip Z.le)
    (total <$> [mk_row 1 "C" 2 0 0 2; mk_row 0 "A" 1 1 1 0]).
Proof.
  apply (rows_sorted_by_total_descending Instances.stable_argsort
           Instances.refuse_freq Samples.names Samples.scenario_review 1 1 _
           stable_argsort_ok).
  vm_compute. reflexivity.
Defined.

(** C6, the claim as stated fails: the order of tied rows is no stable
    secondary order.  With numpy's quicksort, two users with the same total
    stay in their original order in a report of two rows, while in a report
    of twenty rows - sorted by [total], ten users at 2 minutes and ten at
    1 minute - a user first seen later comes before a user with the same
    total first seen earlier. *)
Lemma quicksort_reorders_ties :
  get_time_invested Numpy.argsort Instances.refuse_freq
    Samples.names Samples.scenario_tie 1 1
  = Returned [mk_row 0 "A" 1 1 1 0; mk_row 1 "B" 1 1 1 0] ∧
  ∃ rows,
    get_time_invested Numpy.argsort Instances.refuse_freq
      TieSamples.names TieSamples.scenario 1 1 = Returned rows ∧
    total <$> rows = replicate 10 2 ++ replicate 10 1 ∧
    ∃ (i j : nat) (earlier later : report_row),
      (i < j)%nat ∧ rows !! i = Some earlier ∧ rows !! j = Some later ∧
      total earlier = total later ∧ (index later < index earlier)%nat.
Proof.
  split; [vm_compute; reflexivity|].
  eexists. split; [vm_compute; reflexivity|]. split; [vm_compute; reflexivity|].
  exists 0%nat, 1%nat. eexists. eexists.
  split; [lia|]. split; [reflexivity|]. split; [reflexivity|].
  split; [reflexivity|]. simpl. lia.
Qed.

(** ** One row per user, zero for a category without actions *)

Lemma elem_of_users_of_all (node_details : list NodeDetails.t) (u : Z) :
  u ∈ users_of (all_timestamps node_details) ↔
  u ∈ users_of (creation_timestamps node_details) ∨
  u ∈ users_of (edition_timestamps node_details) ∨
  u ∈ users_of (review_timestamps node_details).
Proof.
  rewrite !elem_of_users_of. unfold all_timestamps.
  setoid_rewrite elem_of_app. setoid_rewrite elem_of_app. split.
  - intros (t & [?|[?|?]]); eauto.
  - intros [(t & ?)|[(t & ?)|(t & ?)]]; eauto.
Qed.

Lemma binned_minutes_absent (interval m : Z) (frame : timestamps_frame) (u : Z) :
  u ∉ users_of frame → binned_minutes interval m (timestamps_of frame u) = 0.
Proof. intros Hu. apply timestamps_of_nil_iff in Hu. by rewrite Hu. Qed.

Lemma creates_users_of (node_details : list NodeDetails.t) (u : Z) :
  u ∈ users_of (creation_timestamps node_details) ↔
  Actions.creates node_details u.
Proof.
  rewrite elem_of_users_of. unfold creation_timestamps, Actions.creates. split.
  - intros (t & Ht). apply list_elem_of_fmap in Ht as (d & [= -> ->] & Hd). eauto.
  - intros (d & Hd & <-). exists (NodeDetails.creation_time d).
    apply list_elem_of_fmap. eauto.
Qed.

Lemma edits_users_of (node_details : list NodeDetails.t) (u : Z) :
  u ∈ users_of (edition_timestamps node_details) ↔
  Actions.edits node_details u.
Proof.
  rewrite elem_of_users_of. unfold edition_timestamps, Actions.edits. split.
  - intros (t & Ht). apply list_elem_of_fmap in Ht as (d & [= -> ->] & Hd). eauto.
  - intros (d & Hd & <-). exists (NodeDetails.edition_time d).
    apply list_elem_of_fmap. eauto.
Qed.

Lemma reviews_users_of (node_details : list NodeDetails.t) (u : Z) :
  u ∈ users_of (review_timestamps node_details) ↔
  Actions.reviews node_details u.
Proof.
  rewrite elem_of_users_of. unfold review_timestamps, Actions.reviews.
  cbv zeta. split.
  - intros (t & Ht). apply list_elem_of_lookup in Ht as [i Hi].
    apply lookup_zip_with_Some in Hi as (x & y & [= -> ->] & Hx & Hy). eauto.
  - intros (i & t & Hu & Ht). exists t. apply list_elem_of_lookup. exists i.
    apply lookup_zip_with_Some. eauto 6.
Qed.

Lemma acts_users_of (node_details : list NodeDetails.t) (u : Z) :
  u ∈ users_of (all_timestamps node_details) ↔ Actions.acts node_details u.
Proof.
  rewrite elem_of_users_of_all, creates_users_of, edits_users_of,
    reviews_users_of. done.
Qed.

(** With as many review times as reviewers in every record, the reviewing
    users are the reviewers of the records. *)
Lemma reviews_aligned (node_details : list NodeDetails.t) (u : Z) :
  Forall (λ d, length (NodeDetails.reviewers d)
               = length (NodeDetails.review_times d)) node_details →
  Actions.reviews node_details u ↔
  ∃ d, d ∈ node_details ∧ u ∈ NodeDetails.reviewers d.
Proof.
  intros Hlen.
  assert (Hsame : length (mjoin (NodeDetails.reviewers <$> node_details))
                  = length (mjoin (NodeDetails.review_times <$> node_details))).
  { induction Hlen as [|d l Hd _ IH]; [done|].
    csimpl. rewrite !length_app. congruence. }
  unfold Actions.reviews. split.
  - intros (i & t & Hu & _). apply list_elem_of_lookup_2 in Hu.
    apply list_elem_of_join in Hu as (l & Hl & Hin).
    apply list_elem_of_fmap in Hin as (d & -> & Hd). eauto.
  - intros (d & Hd & Hu).
    assert (Hin : u ∈ mjoin (NodeDetails.reviewers <$> node_details)).
    { apply list_elem_of_join. exists (NodeDetails.reviewers d).
      split; [done|]. apply list_elem_of_fmap. eauto. }
    apply list_elem_of_lookup in Hin as [i Hi]. exists i.
    destruct (lookup_lt_is_Some_2
                (mjoin (NodeDetails.review_times <$> node_details)) i)
      as [t Ht]; [|by eauto].
    rewrite <- Hsame. by apply lookup_lt_Some in Hi.
Qed.

(** C7: a returned report has exactly one row for every user with at least
    one action in any of the three categories - the acting users, each
    once, fill the positions the [index] column runs through - and a user
    without actions in a category has 0 minutes there. *)
Theorem one_row_per_user_zero_filled
    (argsort : list Z → list nat)
    (nonpositive_freq : Z → list Z → outcome (list Z))
    (user_list : gmap Z string) (node_details : list NodeDetails.t)
    (interval minimum_actions : Z) (rows : list report_row) :
  Pandas.argsort_ok argsort →
  1 ≤ interval →
  get_time_invested argsort nonpositive_freq user_list node_details
    interval minimum_actions = Returned rows →
  ∃ everyone : list Z,
    NoDup everyone ∧
    (∀ u, u ∈ everyone ↔ Actions.acts node_details u) ∧
    index <$> rows ≡ₚ seq 0 (length everyone) ∧
    ∀ row, row ∈ rows →
      ∃ u, everyone !! index row = Some u ∧
        user row = user_list !!! u ∧
        (¬ Actions.creates node_details u → creation row = 0) ∧
        (¬ Actions.edits node_details u → edition row = 0) ∧
        (¬ Actions.reviews node_details u → review row = 0).
Proof.
  intros Hsort Hi Hrun. assert (Hpos : 0 < interval) by lia.
  exists (users_of (all_timestamps node_details)).
  split; [apply NoDup_unique|]. split; [apply acts_users_of|].
  apply get_time_invested_Returned in Hrun as [_ ->]; [|done].
  split.
  - unfold sort_values_total. rewrite take_at_nargsort_Permutation by done.
    by rewrite index_expected_frame.
  - intros row Hrow. apply elem_of_take_at, elem_of_expected_frame in Hrow
      as (u & Hu & ->).
    exists u. split; [done|]. split; [done|]. simpl.
    rewrite <- creates_users_of, <- edits_users_of, <- reviews_users_of.
    repeat split; apply binned_minutes_absent.
Qed.

Lemma one_row_per_user_zero_filled_witness :
  ∃ everyone : list Z,
    NoDup everyone ∧
    (∀ u, u ∈ everyone ↔ Actions.acts Samples.scenario_review u) ∧
    index <$> [mk_row 1 "C" 2 0 0 2; mk_row 0 "A" 1 1 1 0]
      ≡ₚ seq 0 (length everyone) ∧
    ∀ row, row ∈ [mk_row 1 "C" 2 0 0 2; mk_row 0 "A" 1 1 1 0] →
      ∃ u, everyone !! index row = Some u ∧
        user row = Samples.names !!! u ∧
        (¬ Actions.creates Samples.scenario_review u → creation row = 0) ∧
        (¬ Actions.edits Samples.scenario_review u → edition row = 0) ∧
        (¬ Actions.reviews Samples.scenario_review u → review row = 0).
Proof.
  apply (one_row_per_user_zero_filled Instances.stable_argsort
           Instances.refuse_freq Samples.names Samples.scenario_review 1 1 _
           stable_argsort_ok); [lia|].
  vm_compute. reflexivity.
Defined.

(** ** Empty input *)

(** C8: with no action records the function returns a report without rows
    and raises nothing, for every interval and threshold. *)
Theorem empty_records_empty_report
    (argsort : list Z → list nat)
    (nonpositive_freq : Z → list Z → outcome (list Z))
    (user_list : gmap Z string) (interval minimum_actions : Z) :
  Pandas.argsort_ok argsort →
  get_time_invested argsort nonpositive_freq user_list [] interval minimum_actions
  = Returned [].
Proof.
  intros Hsort. unfold get_time_invested. simpl. f_equal.
  unfold sort_values_total, Pandas.nargsort_descending. simpl.
  change (reverse (@nil Z)) with (@nil Z).
  destruct (Hsort []) as [Hp _]. simpl in Hp.
  apply Permutation_nil_r in Hp. rewrite Hp. done.
Qed.

Lemma empty_records_empty_report_witness :
  get_time_invested Instances.stable_argsort Instances.refuse_freq
    Samples.names [] 0 1 = Returned [].
Proof.
  apply (empty_records_empty_report Instances.stable_argsort
           Instances.refuse_freq Samples.names 0 1 stable_argsort_ok).
Defined.

(** ** What the library's sort leaves open *)

Lemma Sorted_total_rows (rows : list report_row) :
  Sorted (flip Z.le) (total <$> rows) →
  Sorted (λ r1 r2, total r2 ≤ total r1) rows.
Proof.
  induction rows as [|r rows IH]; intros Hs; [constructor|].
  inversion Hs as [|? ? Hs' Hhd]; subst. constructor; [by apply IH|].
  destruct rows as [|r' rows]; [constructor|].
  inversion Hhd; subst. by constructor.
Qed.

Lemma NoDup_fmap_inj_on {A B : Type} (f : A → B) (l : list A) (x y : A) :
  NoDup (f <$> l) → x ∈ l → y ∈ l → f x = f y → x = y.
Proof.
  induction l as [|a l IH]; intros Hnd Hx Hy Hf.
  { by apply elem_of_nil in Hx. }
  csimpl in Hnd. apply NoDup_cons in Hnd as [Hnin Hnd].
  apply elem_of_cons in Hx as [->|Hx]; apply elem_of_cons in Hy as [->|Hy].
  - done.
  - exfalso. apply Hnin. rewrite Hf. apply list_elem_of_fmap. eauto.
  - exfalso. apply Hnin. rewrite <- Hf. apply list_elem_of_fmap. eauto.
  - by apply IH.
Qed.

(** X20: the report is fixed by the records up to the order of tied rows.
    Whatever conforming sorting routine the library provides, a returned
    report holds the same rows and the same column of totals; when no two
    users have the same total it is the same report, row for row. *)
Theorem report_fixed_up_to_tie_order
    (argsort1 argsort2 : list Z → list nat)
    (nonpositive_freq1 nonpositive_freq2 : Z → list Z → outcome (list Z))
    (user_list : gmap Z string) (node_details : list NodeDetails.t)
    (interval minimum_actions : Z) (rows1 : list report_row) :
  Pandas.argsort_ok argsort1 → Pandas.argsort_ok argsort2 →
  1 ≤ interval →
  get_time_invested argsort1 nonpositive_freq1 user_list node_details
    interval minimum_actions = Returned rows1 →
  ∃ rows2,
    get_time_invested argsort2 nonpositive_freq2 user_list node_details
      interval minimum_actions = Returned rows2 ∧
    rows1 ≡ₚ rows2 ∧
    total <$> rows1 = total <$> rows2 ∧
    (NoDup (total <$> rows1) → rows1 = rows2).
Proof.
  intros Hsort1 Hsort2 Hi Hrun. assert (Hpos : 0 < interval) by lia.
  apply get_time_invested_Returned in Hrun as [Hnames ->]; [|done].
  set (frame := expected_frame user_list interval minimum_actions node_details).
  exists (sort_values_total argsort2 frame).
  assert (Hperm : sort_values_total argsort1 frame
                  ≡ₚ sort_values_total argsort2 frame).
  { unfold sort_values_total. by rewrite !take_at_nargsort_Permutation. }
  assert (Hs1 : Sorted (flip Z.le) (total <$> sort_values_total argsort1 frame))
    by by apply take_at_nargsort_Sorted.
  assert (Hs2 : Sorted (flip Z.le) (total <$> sort_values_total argsort2 frame))
    by by apply take_at_nargsort_Sorted.
  split; [by apply get_time_invested_Returned|]. split; [done|]. split.
  - apply (Sorted_unique_strong (flip Z.le));
      [| done | done | by rewrite Hperm].
    unfold flip. intros. lia.
  - intros Hnodup.
    assert (Htrans : Transitive (λ r1 r2 : report_row, total r2 ≤ total r1))
      by (intros r1 r2 r3 ? ?; lia).
    apply (Sorted_unique_strong (λ r1 r2, total r2 ≤ total r1));
      [| by apply Sorted_total_rows | by apply Sorted_total_rows | done].
    intros r1 r2 Hr1 Hr2 H12 H21. rewrite <- Hperm in Hr2.
    apply (NoDup_fmap_inj_on total (sort_values_total argsort1 frame));
      [done | done | done | lia].
Qed.

Lemma report_fixed_up_to_tie_order_witness :
  ∃ rows2,
    get_time_invested Instances.stable_argsort Instances.refuse_freq
      Samples.names Samples.scenario_review 1 1 = Returned rows2 ∧
    [mk_row 1 "C" 2 0 0 2; mk_row 0 "A" 1 1 1 0] ≡ₚ rows2 ∧
    total <$> [mk_row 1 "C" 2 0 0 2; mk_row 0 "A" 1 1 1 0] = total <$> rows2 ∧
    (NoDup (total <$> [mk_row 1 "C" 2 0 0 2; mk_row 0 "A" 1 1 1 0]) →
     [mk_row 1 "C" 2 0 0 2; mk_row 0 "A" 1 1 1 0] = rows2).
Proof.
  apply (report_fixed_up_to_tie_order Instances.stable_argsort
           Instances.stable_argsort Instances.refuse_freq
           Instances.refuse_freq Samples.names Samples.scenario_review 1 1 _
           stable_argsort_ok stable_argsort_ok); [lia|].
  vm_compute. reflexivity.
Defined.

(** ** Where the bins are anchored *)

Lemma offset_nanos_pos (interval : Z) :
  0 < interval → 0 < Pandas.offset_nanos interval.
Proof. unfold Pandas.offset_nanos, Pandas.nanos_per_minute. lia. Qed.

Lemma first_edge_grid (interval t0 : Z) (rest : list Z) :
  0 < interval →
  let w := Pandas.offset_nanos interval in
  let o := day_origin (t0 :: rest) in
  first_edge interval (t0 :: rest)
  = o + w * Spec.bin_of o w (Pandas.ts_min t0 rest).
Proof.
  intros Hi w o. unfold first_edge, Pandas.range_edges.
  by rewrite adjust_dates_anchored_grid by by apply offset_nanos_pos.
Qed.

(** Midnight is a whole number of bins from the epoch when the interval
    divides the minutes of a day. *)
Lemma normalize_on_grid (interval t : Z) :
  (interval | Pandas.minutes_per_day) →
  ∃ c, Pandas.normalize t = Pandas.offset_nanos interval * c.
Proof.
  intros [q Hq]. unfold Pandas.normalize.
  exists (q * (t `div` Pandas.nanos_per_day)).
  pose proof (Z.div_mod t Pandas.nanos_per_day) as Hd.
  assert (Hday : Pandas.nanos_per_day = Pandas.offset_nanos interval * q).
  { unfold Pandas.nanos_per_day, Pandas.offset_nanos. rewrite Hq. lia. }
  replace (Pandas.offset_nanos interval * (q * (t `div` Pandas.nanos_per_day)))
    with (Pandas.nanos_per_day * (t `div` Pandas.nanos_per_day))
    by (rewrite Hday; lia).
  assert (Pandas.nanos_per_day ≠ 0) by done. lia.
Qed.

(** C4 (as the code has it): in every view the bins of a user start a
    whole number of bin widths after midnight of the day of that user's
    first timestamp in the view; when the interval divides 1440 minutes the
    bins of all users of the view lie on one grid. *)
Theorem bins_anchored_at_first_day
    (interval : Z) (frame : timestamps_frame) :
  1 ≤ interval →
  (∀ u, u ∈ users_of frame →
     (first_edge interval (timestamps_of frame u)
      - day_origin (timestamps_of frame u))
       `mod` Pandas.offset_nanos interval = 0) ∧
  ((interval | Pandas.minutes_per_day) → bins_aligned interval frame).
Proof.
  intros Hi. assert (Hpos : 0 < interval) by lia.
  pose proof (offset_nanos_pos interval Hpos) as Hw.
  assert (Hedge : ∀ u, u ∈ users_of frame →
            ∃ k, first_edge interval (timestamps_of frame u)
                 = day_origin (timestamps_of frame u)
                   + Pandas.offset_nanos interval * k).
  { intros u Hu. destruct (timestamps_of frame u) as [|t0 rest] eqn:E.
    { apply timestamps_of_nil_iff in E. done. }
    eexists. by apply first_edge_grid. }
  split.
  - intros u Hu. destruct (Hedge u Hu) as [k ->].
    replace (_ + _ * k - _) with (k * Pandas.offset_nanos interval) by lia.
    apply Z.mod_mul. lia.
  - intros Hdiv. exists 0. intros u Hu. destruct (Hedge u Hu) as [k ->].
    destruct (timestamps_of frame u) as [|t0 rest] eqn:E.
    { apply timestamps_of_nil_iff in E. done. }
    unfold day_origin.
    destruct (normalize_on_grid interval (Pandas.ts_min t0 rest) Hdiv) as [c ->].
    replace (_ * c + _ * k - 0) with ((c + k) * Pandas.offset_nanos interval) by lia.
    apply Z.mod_mul. lia.
Qed.

Lemma bins_anchored_at_first_day_witness :
  (∀ u, u ∈ users_of (creation_timestamps Samples.scenario_days) →
     (first_edge 5 (timestamps_of (creation_timestamps Samples.scenario_days) u)
      - day_origin (timestamps_of (creation_timestamps Samples.scenario_days) u))
       `mod` Pandas.offset_nanos 5 = 0) ∧
  ((5 | Pandas.minutes_per_day) →
   bins_aligned 5 (creation_timestamps Samples.scenario_days)).
Proof.
  apply (bins_anchored_at_first_day 5
           (creation_timestamps Samples.scenario_days)). lia.
Defined.

(** C4, the claim as stated fails: with 7-minute bins, a user first seen on
    day 0 and a user first seen on day 1 have bins that no common origin
    fits, because 1440 minutes are not a multiple of 7. *)
Lemma seven_minute_bins_misaligned :
  first_edge 7 (timestamps_of (creation_timestamps Samples.scenario_days) 1) = 0 ∧
  first_edge 7 (timestamps_of (creation_timestamps Samples.scenario_days) 2)
  = Pandas.nanos_per_day ∧
  Pandas.nanos_per_day `mod` Pandas.offset_nanos 7 = 5 * Pandas.nanos_per_minute ∧
  ¬ bins_aligned 7 (creation_timestamps Samples.scenario_days).
Proof.
  split; [reflexivity|]. split; [vm_compute; reflexivity|].
  split; [reflexivity|].
  intros [o Ho].
  assert (H1 : 1 ∈ users_of (creation_timestamps Samples.scenario_days))
    by (vm_compute; left).
  assert (H2 : 2 ∈ users_of (creation_timestamps Samples.scenario_days))
    by (vm_compute; right; left).
  apply Ho in H1, H2.
  change (first_edge 7 (timestamps_of (creation_timestamps Samples.scenario_days) 1))
    with 0 in H1.
  replace (first_edge 7 (timestamps_of (creation_timestamps Samples.scenario_days) 2))
    with 86400000000000 in H2 by (vm_compute; reflexivity).
  change (Pandas.offset_nanos 7) with 420000000000 in H1, H2.
  apply Z.mod_divide in H1 as [q1 Hq1]; [|done].
  apply Z.mod_divide in H2 as [q2 Hq2]; [|done].
  lia.
Qed.

(** ** Total against the categories *)

Lemma ts_min_elem_of (t0 : Z) (rest : list Z) :
  Pandas.ts_min t0 rest ∈ t0 :: rest.
Proof.
  unfold Pandas.ts_min. induction rest as [|x rest IH]; simpl; [left|].
  destruct (Z.min_spec x (foldr Z.min t0 rest)) as [[_ ->]|[_ ->]].
  - right; left.
  - apply elem_of_cons in IH as [->|IH]; [left | right; by right].
Qed.

Lemma ts_max_elem_of (t0 : Z) (rest : list Z) :
  Pandas.ts_max t0 rest ∈ t0 :: rest.
Proof.
  unfold Pandas.ts_max. induction rest as [|x rest IH]; simpl; [left|].
  destruct (Z.max_spec x (foldr Z.max t0 rest)) as [[_ ->]|[_ ->]].
  - apply elem_of_cons in IH as [->|IH]; [left | right; by right].
  - right; left.
Qed.

Lemma bin_of_shift (o w c t : Z) :
  0 < w → Spec.bin_of (o + w * c) w t = Spec.bin_of o w t - c.
Proof.
  intros Hw. unfold Spec.bin_of.
  replace (t - (o + w * c)) with (t - o + (- c) * w) by lia.
  rewrite Z.div_add by lia. lia.
Qed.

Lemma actions_in_bin_shift (o w c k : Z) (ts : list Z) :
  0 < w →
  Spec.actions_in_bin (o + w * c) w ts k = Spec.actions_in_bin o w ts (c + k).
Proof.
  intros Hw. unfold Spec.actions_in_bin. do 2 f_equal.
  apply list_filter_iff. intros t. rewrite bin_of_shift by done. lia.
Qed.

(** The counts of a group read on a grid through any origin that is a whole
    number of bin widths from the group's own anchor. *)
Lemma time_grouper_count_on_grid (w o c t0 : Z) (rest : list Z) :
  0 < w →
  day_origin (t0 :: rest) = o + w * c →
  Pandas.time_grouper_count w (t0 :: rest)
  = Spec.actions_in_bin o w (t0 :: rest)
      <$> seqZ (Spec.bin_of o w (Pandas.ts_min t0 rest))
               (Spec.bin_of o w (Pandas.ts_max t0 rest)
                - Spec.bin_of o w (Pandas.ts_min t0 rest) + 1).
Proof.
  intros Hw Ho. rewrite time_grouper_count_bins by done. cbv zeta.
  rewrite Ho, !bin_of_shift by done.
  set (kf := Spec.bin_of o w (Pandas.ts_min t0 rest)).
  set (kl := Spec.bin_of o w (Pandas.ts_max t0 rest)).
  replace (kl - c - (kf - c) + 1) with (kl - kf + 1) by lia.
  replace (seqZ kf (kl - kf + 1)) with (Z.add c <$> seqZ (kf - c) (kl - kf + 1))
    by (rewrite fmap_add_seqZ; f_equal; lia).
  rewrite <- list_fmap_compose. apply list_fmap_ext. intros _ k _. simpl.
  by apply actions_in_bin_shift.
Qed.

Lemma actions_in_bin_mono (o w k : Z) (sub sup : list Z) :
  sub ⊆+ sup → Spec.actions_in_bin o w sub k ≤ Spec.actions_in_bin o w sup k.
Proof.
  intros Hsub. apply submseteq_Permutation in Hsub as [extra Hp].
  unfold Spec.actions_in_bin. rewrite Hp, filter_app, length_app. lia.
Qed.

(** On a shared grid a larger group has at least the active minutes of a
    smaller one. *)
Lemma binned_minutes_mono (interval m : Z) (sub sup : list Z) :
  0 < interval → (interval | Pandas.minutes_per_day) →
  sub ⊆+ sup →
  binned_minutes interval m sub ≤ binned_minutes interval m sup.
Proof.
  intros Hi Hdiv Hsub. unfold binned_minutes.
  pose proof (offset_nanos_pos interval Hi) as Hw.
  set (w := Pandas.offset_nanos interval) in *.
  destruct sub as [|t0 rest]; [simpl; lia|].
  destruct sup as [|s0 srest].
  { apply submseteq_length in Hsub. simpl in Hsub. lia. }
  destruct (normalize_on_grid interval (Pandas.ts_min t0 rest) Hdiv) as [c1 Hc1].
  destruct (normalize_on_grid interval (Pandas.ts_min s0 srest) Hdiv) as [c2 Hc2].
  rewrite (time_grouper_count_on_grid w 0 c1 t0 rest) by done.
  rewrite (time_grouper_count_on_grid w 0 c2 s0 srest) by done.
  rewrite !length_filter_fmap.
  apply Z.mul_le_mono_nonneg_r; [lia|]. apply inj_le, submseteq_length.
  apply NoDup_submseteq; [apply NoDup_filter, NoDup_seqZ|].
  intros k. rewrite !list_elem_of_filter, !elem_of_seqZ. intros [Hk Hrange].
  assert (Hin : ∀ t, t ∈ t0 :: rest → t ∈ s0 :: srest).
  { intros t Ht. apply submseteq_Permutation in Hsub as [extra Hp].
    rewrite Hp. apply elem_of_app. by left. }
  split.
  - pose proof (actions_in_bin_mono 0 w k _ _ Hsub). lia.
  - pose proof (bin_of_mono 0 w _ _ Hw
        (ts_min_le s0 srest _ (Hin _ (ts_min_elem_of t0 rest)))).
    pose proof (bin_of_mono 0 w _ _ Hw
        (ts_max_ge s0 srest _ (Hin _ (ts_max_elem_of t0 rest)))).
    lia.
Qed.

(** C5 (as the code has it): when the interval divides 1440 minutes, the
    total minutes of every row are at least the creation, the edition and
    the review minutes of that row. *)
Theorem total_at_least_each_category
    (argsort : list Z → list nat)
    (nonpositive_freq : Z → list Z → outcome (list Z))
    (user_list : gmap Z string) (node_details : list NodeDetails.t)
    (interval minimum_actions : Z) (rows : list report_row) :
  1 ≤ interval →
  (interval | Pandas.minutes_per_day) →
  get_time_invested argsort nonpositive_freq user_list node_details
    interval minimum_actions = Returned rows →
  ∀ row, row ∈ rows →
    creation row ≤ total row ∧ edition row ≤ total row ∧ review row ≤ total row.
Proof.
  intros Hi Hdiv Hrun row Hrow. assert (Hpos : 0 < interval) by lia.
  destruct (report_row_inv _ _ _ _ _ _ _ _ Hpos Hrun Hrow) as (u & _ & ->).
  simpl. unfold all_timestamps. rewrite !timestamps_of_app.
  repeat split; apply binned_minutes_mono; try done.
  - by apply submseteq_inserts_r.
  - apply submseteq_inserts_l. by apply submseteq_inserts_r.
  - by do 2 apply submseteq_inserts_l.
Qed.

Lemma total_at_least_each_category_witness :
  creation (mk_row 1 "A" 25 20 5 0) ≤ total (mk_row 1 "A" 25 20 5 0) ∧
  edition (mk_row 1 "A" 25 20 5 0) ≤ total (mk_row 1 "A" 25 20 5 0) ∧
  review (mk_row 1 "A" 25 20 5 0) ≤ total (mk_row 1 "A" 25 20 5 0).
Proof.
  apply (total_at_least_each_category Instances.stable_argsort
           Instances.refuse_freq Samples.names Samples.scenario_shift 5 1
           [mk_row 1 "A" 25 20 5 0; mk_row 0 "B" 10 5 5 0]);
    [lia | by exists 288 | vm_compute; reflexivity | left].
Defined.

(** C5, the claim as stated fails: with 7-minute bins user 1 gets 42
    creation minutes and only 28 total minutes, because an edit on the day
    before moves the anchor of the total view. *)
Lemma total_below_creation :
  get_time_invested Instances.stable_argsort Instances.refuse_freq
    Samples.names Samples.scenario_shift 7 1
  = Returned [mk_row 1 "A" 28 42 7 0; mk_row 0 "B" 14 7 7 0]
  ∧ total (mk_row 1 "A" 28 42 7 0) < creation (mk_row 1 "A" 28 42 7 0).
Proof. split; [vm_compute; reflexivity | simpl; lia]. Qed.

(** ** Changing the interval *)

Lemma length_remove_dups_fmap (f : Z → Z) (l : list Z) :
  (length (remove_dups (f <$> l)) ≤ length (remove_dups l))%nat.
Proof.
  rewrite <- (length_fmap f (remove_dups l)). apply submseteq_length.
  apply NoDup_submseteq; [apply NoDup_remove_dups|].
  intros y. rewrite elem_of_remove_dups, !list_elem_of_fmap.
  intros (x & -> & Hx). exists x. split; [done|]. by apply elem_of_remove_dups.
Qed.

(** With a threshold of one action every occupied bin is active. *)
Lemma active_bins_one (o w : Z) (ts : list Z) :
  Spec.active_bins o w 1 ts = remove_dups (Spec.bin_of o w <$> ts).
Proof.
  unfold Spec.active_bins. apply filter_all, Forall_forall. intros k Hk.
  apply elem_of_remove_dups, actions_in_bin_pos in Hk. lia.
Qed.

Lemma binned_minutes_one_div (interval : Z) (ts : list Z) :
  0 < interval →
  binned_minutes interval 1 ts `div` interval
  = Z.of_nat (length (remove_dups
       (Spec.bin_of (day_origin ts) (Pandas.offset_nanos interval) <$> ts))).
Proof.
  intros Hi. rewrite binned_minutes_spec by lia. unfold Spec.minutes.
  rewrite Z.div_mul by lia. by rewrite active_bins_one.
Qed.

Lemma occupied_bins_coarser (i1 i2 : Z) (ts : list Z) :
  0 < i1 → 0 < i2 → (i1 | i2) →
  binned_minutes i2 1 ts `div` i2 ≤ binned_minutes i1 1 ts `div` i1.
Proof.
  intros H1 H2 [q Hq]. rewrite !binned_minutes_one_div by done.
  apply inj_le. assert (Hqpos : 0 < q) by nia.
  set (o := day_origin ts).
  rewrite (list_fmap_ext (Spec.bin_of o (Pandas.offset_nanos i2))
             ((λ k, k `div` q) ∘ Spec.bin_of o (Pandas.offset_nanos i1)) ts).
  - rewrite list_fmap_compose. apply length_remove_dups_fmap.
  - intros _ t _. unfold Spec.bin_of, Pandas.offset_nanos. simpl.
    pose proof (offset_nanos_pos i1 H1) as Hw. unfold Pandas.offset_nanos in Hw.
    rewrite Z.div_div by lia. f_equal. rewrite Hq. lia.
Qed.

(** C3 (as the code has it): with [minimum_actions = 1] and an interval
    [i1] that divides a larger interval [i2], every figure of a user's row
    counts no more active bins (minutes divided by the interval) under [i2]
    than under [i1].  The minutes themselves may grow. *)
Theorem coarser_interval_fewer_active_bins
    (argsort : list Z → list nat)
    (nonpositive_freq : Z → list Z → outcome (list Z))
    (user_list : gmap Z string) (node_details : list NodeDetails.t)
    (i1 i2 : Z) (rows1 rows2 : list report_row) :
  1 ≤ i1 → i1 < i2 → (i1 | i2) →
  get_time_invested argsort nonpositive_freq user_list node_details i1 1
  = Returned rows1 →
  get_time_invested argsort nonpositive_freq user_list node_details i2 1
  = Returned rows2 →
  ∀ row1 row2, row1 ∈ rows1 → row2 ∈ rows2 → index row1 = index row2 →
    total row2 `div` i2 ≤ total row1 `div` i1 ∧
    creation row2 `div` i2 ≤ creation row1 `div` i1 ∧
    edition row2 `div` i2 ≤ edition row1 `div` i1 ∧
    review row2 `div` i2 ≤ review row1 `div` i1.
Proof.
  intros H1 Hlt Hdiv Hrun1 Hrun2 row1 row2 Hrow1 Hrow2 Hidx.
  assert (Hp1 : 0 < i1) by lia. assert (Hp2 : 0 < i2) by lia.
  destruct (report_row_inv _ _ _ _ _ _ _ _ Hp1 Hrun1 Hrow1) as (u1 & Hu1 & E1).
  destruct (report_row_inv _ _ _ _ _ _ _ _ Hp2 Hrun2 Hrow2) as (u2 & Hu2 & E2).
  rewrite Hidx in Hu1. rewrite Hu1 in Hu2. injection Hu2 as <-.
  rewrite E1, E2. simpl. repeat split; by apply occupied_bins_coarser.
Qed.

Lemma coarser_interval_fewer_active_bins_witness :
  total (mk_row 0 "A" 4 4 0 0) `div` 2 ≤ total (mk_row 0 "A" 2 2 0 0) `div` 1 ∧
  creation (mk_row 0 "A" 4 4 0 0) `div` 2
    ≤ creation (mk_row 0 "A" 2 2 0 0) `div` 1 ∧
  edition (mk_row 0 "A" 4 4 0 0) `div` 2 ≤ edition (mk_row 0 "A" 2 2 0 0) `div` 1 ∧
  review (mk_row 0 "A" 4 4 0 0) `div` 2 ≤ review (mk_row 0 "A" 2 2 0 0) `div` 1.
Proof.
  apply (coarser_interval_fewer_active_bins Instances.stable_argsort
           Instances.refuse_freq Samples.names Samples.scenario1 1 2
           [mk_row 0 "A" 2 2 0 0; mk_row 1 "B" 1 0 1 0]
           [mk_row 0 "A" 4 4 0 0; mk_row 1 "B" 2 0 2 0]);
    [lia | lia | by exists 2 | vm_compute; reflexivity | vm_compute; reflexivity
    | left | left | reflexivity].
Defined.

(** C3, the claim as stated fails: the same timestamps give user 1 two
    minutes with 1-minute bins and four minutes with 2-minute bins. *)
Lemma wider_interval_more_minutes :
  get_time_invested Instances.stable_argsort Instances.refuse_freq
    Samples.names Samples.scenario1 1 1
  = Returned [mk_row 0 "A" 2 2 0 0; mk_row 1 "B" 1 0 1 0] ∧
  get_time_invested Instances.stable_argsort Instances.refuse_freq
    Samples.names Samples.scenario1 2 1
  = Returned [mk_row 0 "A" 4 4 0 0; mk_row 1 "B" 2 0 2 0] ∧
  ¬ total (mk_row 0 "A" 4 4 0 0) ≤ total (mk_row 0 "A" 2 2 0 0).
Proof.
  split; [vm_compute; reflexivity|]. split; [vm_compute; reflexivity|].
  simpl. lia.
Qed.

(** ** [get_user_contributions] *)

Lemma elem_of_keys (d : gmap Z Z) (u : Z) :
  u ∈ Contributions.keys d ↔ is_Some (d !! u).
Proof.
  unfold Contributions.keys. rewrite list_elem_of_fmap. split.
  - intros ([u' v] & -> & Hin). apply elem_of_map_to_list in Hin. by exists v.
  - intros [v Hv]. exists (u, v). split; [done|]. by apply elem_of_map_to_list.
Qed.

Lemma for_each_copy (src : gmap Z Z) (l : list Z) (d : gmap Z Z) :
  (∀ u, u ∈ l → is_Some (src !! u)) →
  ∃ d',
    for_each (λ acc u, v ← getitem src u; Returned (<[u := v]> acc)) l d
    = Returned d' ∧
    ∀ u, d' !! u = if decide (u ∈ l) then src !! u else d !! u.
Proof.
  revert d. induction l as [|x l IH]; intros d Hkeys.
  - exists d. split; [done|]. intros u.
    by rewrite decide_False by apply not_elem_of_nil.
  - destruct (Hkeys x) as [v Hv]; [left|].
    destruct (IH (<[x := v]> d)) as (d' & Hrun & Hd').
    { intros u Hu. apply Hkeys. by right. }
    exists d'. split.
    + cbn [for_each]. unfold getitem in *. rewrite Hv. exact Hrun.
    + intros u. rewrite Hd'. destruct (decide (u = x)) as [->|Hne].
      * rewrite (decide_True (P := x ∈ x :: l)) by left.
        case_decide; [done|]. by rewrite lookup_insert, decide_True.
      * rewrite lookup_insert, (decide_False (P := x = u)) by done.
        destruct (decide (u ∈ l)).
        -- by rewrite decide_True by (by right).
        -- rewrite decide_False; [done|]. rewrite elem_of_cons. intros [?|?]; done.
Qed.

(** Copying a dict of counts over the zero dict: the count where the user
    has one, 0 for every other user of [all_users]. *)
Lemma copy_counts_zero (src : gmap Z Z) (all_users : list Z) :
  (∀ u, is_Some (src !! u) → u ∈ all_users) →
  ∃ d',
    Contributions.copy_counts src (zero_dict all_users) = Returned d' ∧
    ∀ u, u ∈ all_users → d' !! u = Some (default 0 (src !! u)).
Proof.
  intros Hsub. unfold Contributions.copy_counts.
  destruct (for_each_copy src (Contributions.keys src) (zero_dict all_users))
    as (d' & Hrun & Hd').
  { intros u. by rewrite elem_of_keys. }
  exists d'. split; [exact Hrun|]. intros u Hu. rewrite Hd'.
  destruct (decide (u ∈ Contributions.keys src)) as [Hk|Hk].
  - apply elem_of_keys in Hk as [v Hv]. by rewrite Hv.
  - rewrite lookup_zero_dict, decide_True by done.
    destruct (src !! u) as [v|] eqn:E; [|done].
    exfalso. apply Hk, elem_of_keys. by rewrite E.
Qed.

Section ContributionsClosedForm.

Variable argsort : list Z → list nat.
Variable set_iter : list Z → list Z.
Hypothesis set_contract : Contributions.set_ok set_iter.
Variable user_list : gmap Z string.
Variable cont : Contributions.contributor_statistics.

Let all_users : list Z :=
  set_iter (Contributions.keys (Contributions.node_contributors cont)
            ++ Contributions.keys (Contributions.pre_contributors cont)
            ++ Contributions.keys (Contributions.post_contributors cont)).

Lemma elem_of_all_users (u : Z) :
  u ∈ all_users ↔
  is_Some (Contributions.node_contributors cont !! u) ∨
  is_Some (Contributions.pre_contributors cont !! u) ∨
  is_Some (Contributions.post_contributors cont !! u).
Proof.
  unfold all_users. destruct (set_contract
    (Contributions.keys (Contributions.node_contributors cont)
     ++ Contributions.keys (Contributions.pre_contributors cont)
     ++ Contributions.keys (Contributions.post_contributors cont)))
    as [_ Hin].
  by rewrite Hin, !elem_of_app, !elem_of_keys.
Qed.

Lemma get_user_contributions_Returned (rows : list Contributions.row) :
  Contributions.get_user_contributions argsort set_iter user_list cont
  = Returned rows ↔
  (∀ u, u ∈ all_users → is_Some (user_list !! u)) ∧
  rows = Contributions.sort_values_nodes argsort
           (contributions_frame all_users user_list cont).
Proof.
  unfold Contributions.get_user_contributions. fold all_users.
  destruct (copy_counts_zero (Contributions.node_contributors cont) all_users)
    as (n & -> & Hn).
  { intros u Hu. apply elem_of_all_users. auto. }
  destruct (copy_counts_zero (Contributions.pre_contributors cont) all_users)
    as (pre & -> & Hpre).
  { intros u Hu. apply elem_of_all_users. auto. }
  destruct (copy_counts_zero (Contributions.post_contributors cont) all_users)
    as (post & -> & Hpost).
  { intros u Hu. apply elem_of_all_users. auto. }
  cbn [mbind outcome_bind]. rewrite bind_Returned.
  assert (Hrow : ∀ i u row, u ∈ all_users →
            Contributions.make_row user_list n pre post (i, u) = Returned row ↔
            is_Some (user_list !! u) ∧
            row = Contributions.mk_row i (user_list !!! u)
                    (default 0 (Contributions.node_contributors cont !! u))
                    (default 0 (Contributions.pre_contributors cont !! u))
                    (default 0 (Contributions.post_contributors cont !! u))).
  { intros i u row Hu. unfold Contributions.make_row, getitem.
    rewrite (Hn u Hu), (Hpre u Hu), (Hpost u Hu), lookup_total_alt.
    destruct (user_list !! u) as [name|]; simpl.
    - split; [intros [= <-]; eauto | intros [_ ->]; done].
    - split; [done | intros [[? ?] _]; done]. }
  unfold contributions_frame. split.
  - intros (rows0 & Hmap & [= <-]). apply mapM_Returned in Hmap.
    assert (Hnames : ∀ u, u ∈ all_users → is_Some (user_list !! u)).
    { intros u Hu. pose proof Hu as Hu'.
      apply list_elem_of_lookup in Hu as [i Hi].
      apply elem_of_zip_seq_users in Hi.
      apply list_elem_of_lookup in Hi as [j Hj].
      destruct (Forall2_lookup_l _ _ _ _ _ Hmap Hj) as (row & _ & Hr).
      by apply Hrow in Hr as [? _]. }
    split; [done|]. f_equal.
    apply (Forall2_fmap_eq _ _ _ _ Hmap). intros [i u] row Hin Hr.
    apply Hrow in Hr as [_ ->]; [done|].
    apply elem_of_zip_seq_users in Hin. by apply list_elem_of_lookup_2 in Hin.
  - intros [Hnames ->]. eexists. split; [|done]. apply mapM_Returned.
    apply Forall2_fmap_r, Forall_Forall2_diag, Forall_forall.
    intros [i u] Hin.
    apply elem_of_zip_seq_users, list_elem_of_lookup_2 in Hin.
    apply Hrow; [done|]. split; [by apply Hnames | done].
Qed.

End ContributionsClosedForm.

(** C10: [get_user_contributions] returns exactly one row for every user
    that is a key of the node, presynapse or postsynapse contributor dict,
    with count 0 where a dict has no entry for the user, and the rows come
    in descending order of their node count. *)
Theorem user_contributions_rows
    (argsort : list Z → list nat) (set_iter : list Z → list Z)
    (user_list : gmap Z string)
    (cont : Contributions.contributor_statistics) :
  Pandas.argsort_ok argsort →
  Contributions.set_ok set_iter →
  (∀ u,
     is_Some (Contributions.node_contributors cont !! u) ∨
     is_Some (Contributions.pre_contributors cont !! u) ∨
     is_Some (Contributions.post_contributors cont !! u) →
     is_Some (user_list !! u)) →
  ∃ rows all_users,
    Contributions.get_user_contributions argsort set_iter user_list cont
    = Returned rows ∧
    NoDup all_users ∧
    (∀ u, u ∈ all_users ↔
          is_Some (Contributions.node_contributors cont !! u) ∨
          is_Some (Contributions.pre_contributors cont !! u) ∨
          is_Some (Contributions.post_contributors cont !! u)) ∧
    rows ≡ₚ contributions_frame all_users user_list cont ∧
    Sorted (flip Z.le) (Contributions.nodes <$> rows).
Proof.
  intros Hsort Hset Hnames.
  set (all_users :=
    set_iter (Contributions.keys (Contributions.node_contributors cont)
              ++ Contributions.keys (Contributions.pre_contributors cont)
              ++ Contributions.keys (Contributions.post_contributors cont))).
  exists (Contributions.sort_values_nodes argsort
            (contributions_frame all_users user_list cont)), all_users.
  split; [|split; [|split; [|split]]].
  - apply get_user_contributions_Returned; [done|]. split; [|done].
    intros u Hu. by apply Hnames, (elem_of_all_users set_iter Hset).
  - apply Hset.
  - intros u. by apply elem_of_all_users.
  - by apply take_at_nargsort_Permutation.
  - by apply take_at_nargsort_Sorted.
Qed.

Lemma user_contributions_rows_witness :
  ∃ rows all_users,
    Contributions.get_user_contributions Instances.stable_argsort
      Instances.insertion_order Samples.names ContributionSamples.cont
    = Returned rows ∧
    NoDup all_users ∧
    (∀ u, u ∈ all_users ↔
          is_Some (Contributions.node_contributors ContributionSamples.cont !! u) ∨
          is_Some (Contributions.pre_contributors ContributionSamples.cont !! u) ∨
          is_Some (Contributions.post_contributors ContributionSamples.cont !! u)) ∧
    rows ≡ₚ contributions_frame all_users Samples.names ContributionSamples.cont ∧
    Sorted (flip Z.le) (Contributions.nodes <$> rows).
Proof.
  apply (user_contributions_rows Instances.stable_argsort
           Instances.insertion_order Samples.names ContributionSamples.cont
           stable_argsort_ok insertion_order_ok).
  intros u Hu.
  assert (Hin : u ∈ [1; 2; 3]).
  { destruct Hu as [[v Hv]|[[v Hv]|[v Hv]]];
      apply elem_of_list_to_map_2 in Hv;
      repeat (apply elem_of_cons in Hv as [[= -> _]|Hv];
              [repeat constructor|]);
      by apply elem_of_nil in Hv. }
  repeat (apply elem_of_cons in Hin as [->|Hin]; [vm_compute; eauto|]).
  by apply elem_of_nil in Hin.
Defined.

(** * Further properties of [get_time_invested] *)

(** ** An unknown user *)

Lemma mapM_Raised {A B : Type} (f : A → outcome B) (l1 l2 : list A) (x : A)
    (e : exn) :
  Forall (λ y, ∃ r, f y = Returned r) l1 →
  f x = Raised e →
  mapM f (l1 ++ x :: l2) = Raised e.
Proof.
  intros Hl1 Hx. induction Hl1 as [|y l1 [r Hr] _ IH]; simpl.
  - by rewrite Hx.
  - rewrite Hr. simpl. by rewrite IH.
Qed.

Lemma zip_seq_middle (everyone : list Z) (i : nat) (u : Z) :
  everyone !! i = Some u →
  zip (seq 0 (length everyone)) everyone
  = zip (seq 0 i) (take i everyone)
    ++ (i, u) :: zip (seq (S i) (length everyone - S i)) (drop (S i) everyone).
Proof.
  intros Hu. pose proof (lookup_lt_Some _ _ _ Hu) as Hlt.
  rewrite <- (take_drop_middle everyone i u Hu) at 2.
  replace (length everyone) with (i + S (length everyone - S i))%nat by lia.
  rewrite seq_app. simpl.
  rewrite zip_with_app by (rewrite length_seq, length_take; lia).
  simpl. do 4 f_equal. lia.
Qed.

(** With the dates and the interval of [in_range], the bin edges of every
    group and the stride fit a signed 64-bit count of nanoseconds. *)
Lemma in_range_edges (interval first last : Z) :
  1 ≤ interval ≤ minutes_per_year →
  0 ≤ first → first ≤ last → last < year_2100 →
  let '(fresult, lresult) :=
    Pandas.adjust_dates_anchored first last (Pandas.offset_nanos interval) in
  0 ≤ fresult ∧ fresult ≤ first ∧ last < lresult ∧ lresult < 2 ^ 63 ∧
  0 < Pandas.offset_nanos interval < 2 ^ 63.
Proof.
  intros Hi Hf Hfl Hl. unfold Pandas.adjust_dates_anchored, Pandas.normalize.
  set (w := Pandas.offset_nanos interval).
  assert (Hw : 0 < w ≤ minutes_per_year * Pandas.nanos_per_minute).
  { unfold w, Pandas.offset_nanos, Pandas.nanos_per_minute. lia. }
  assert (Hday : 0 < Pandas.nanos_per_day) by done.
  pose proof (Z.mod_pos_bound first Pandas.nanos_per_day Hday) as Hm.
  pose proof (Z.mod_le first Pandas.nanos_per_day Hf Hday) as Hm'.
  set (o := first - first `mod` Pandas.nanos_per_day) in *.
  assert (Ho : 0 ≤ o ≤ first) by (unfold o; lia).
  pose proof (Z.mod_pos_bound (first - o) w ltac:(lia)) as Hfo.
  pose proof (Z.mod_le (first - o) w ltac:(lia) ltac:(lia)) as Hfo'.
  pose proof (Z.mod_pos_bound (last - o) w ltac:(lia)) as Hlo.
  unfold year_2100, minutes_per_year, Pandas.nanos_per_minute in *.
  repeat case_decide; lia.
Qed.

(** X1: with dates and an interval in the range of a pandas timestamp, the
    call raises [KeyError] for the first user, in order of first appearance
    in the records, that the user list does not know. *)
Theorem unknown_user_raises_KeyError
    (argsort : list Z → list nat)
    (nonpositive_freq : Z → list Z → outcome (list Z))
    (user_list : gmap Z string) (node_details : list NodeDetails.t)
    (interval minimum_actions : Z) (i : nat) (u : Z) :
  1 ≤ interval →
  in_range node_details interval →
  users_of (all_timestamps node_details) !! i = Some u →
  user_list !! u = None →
  (∀ v, v ∈ take i (users_of (all_timestamps node_details)) →
        is_Some (user_list !! v)) →
  get_time_invested argsort nonpositive_freq user_list node_details
    interval minimum_actions = Raised (KeyError u).
Proof.
  intros Hi _ Hu Hnone Hknown. assert (Hpos : 0 < interval) by lia.
  unfold get_time_invested.
  destruct (compute_stats_pos nonpositive_freq interval minimum_actions
              Hpos node_details) as (stats & Hstats & _).
  rewrite Hstats. cbn [mbind outcome_bind].
  rewrite (zip_seq_middle _ i u Hu).
  rewrite (mapM_Raised _ _ _ _ (KeyError u)); [done| |].
  - apply Forall_forall. intros [j v] Hjv.
    apply list_elem_of_lookup in Hjv as [k Hk].
    apply lookup_zip_with_Some in Hk as (j' & v' & [= <- <-] & _ & Hv).
    apply list_elem_of_lookup_2 in Hv.
    exists (expected_row user_list interval minimum_actions node_details (j, v)).
    apply (make_row_pos nonpositive_freq user_list node_details interval
             minimum_actions Hpos stats); [done | | ].
    + by apply (subseteq_take i).
    + split; [by apply Hknown | done].
  - unfold make_row, getitem. by rewrite Hnone.
Qed.

Lemma unknown_user_raises_KeyError_witness :
  get_time_invested Instances.stable_argsort Instances.refuse_freq
    (delete 2 Samples.names) Samples.scenario1 1 1 = Raised (KeyError 2).
Proof.
  apply (unknown_user_raises_KeyError Instances.stable_argsort
           Instances.refuse_freq (delete 2 Samples.names) Samples.scenario1
           1 1 1%nat 2);
    [lia | apply (bool_decide_unpack _); vm_compute; exact I
    | reflexivity | reflexivity |].
  intros v Hv. vm_compute in Hv.
  apply elem_of_cons in Hv as [->|Hv]; [vm_compute; eauto|].
  by apply elem_of_nil in Hv.
Defined.

(** ** Range of the figures *)

Lemma span_minutes_counts (interval : Z) (ts : list Z) :
  0 < interval →
  span_minutes interval ts
  = Z.of_nat (length (Pandas.time_grouper_count (Pandas.offset_nanos interval) ts))
    * interval.
Proof.
  intros Hi. destruct ts as [|t0 rest]; [done|].
  rewrite span_minutes_bins by done. cbv zeta.
  by rewrite time_grouper_count_length by by apply offset_nanos_pos.
Qed.

Lemma binned_minutes_bounds (interval m : Z) (ts : list Z) :
  0 < interval →
  0 ≤ binned_minutes interval m ts ∧
  (interval | binned_minutes interval m ts) ∧
  binned_minutes interval m ts ≤ span_minutes interval ts.
Proof.
  intros Hi. rewrite span_minutes_counts by done. unfold binned_minutes.
  set (counts := Pandas.time_grouper_count (Pandas.offset_nanos interval) ts).
  pose proof (length_filter (λ c, m ≤ c) counts) as Hlen.
  split; [apply Z.mul_nonneg_nonneg; lia|]. split.
  - apply Z.divide_factor_r.
  - apply Z.mul_le_mono_nonneg_r; lia.
Qed.

(** X2: every figure of a returned report is a non-negative multiple of the
    interval and is at most the interval times the number of bins between
    the user's first and last bin edge in that view, whatever the
    threshold. *)
Theorem figures_within_span
    (argsort : list Z → list nat)
    (nonpositive_freq : Z → list Z → outcome (list Z))
    (user_list : gmap Z string) (node_details : list NodeDetails.t)
    (interval minimum_actions : Z) (rows : list report_row) :
  1 ≤ interval →
  get_time_invested argsort nonpositive_freq user_list node_details
    interval minimum_actions = Returned rows →
  ∀ row, row ∈ rows →
    ∃ u, users_of (all_timestamps node_details) !! index row = Some u ∧
      let within figure view :=
        0 ≤ figure ∧ (interval | figure) ∧
        figure ≤ span_minutes interval (timestamps_of view u) in
      within (total row) (all_timestamps node_details) ∧
      within (creation row) (creation_timestamps node_details) ∧
      within (edition row) (edition_timestamps node_details) ∧
      within (review row) (review_timestamps node_details).
Proof.
  intros Hi Hrun row Hrow. assert (Hpos : 0 < interval) by lia.
  destruct (report_row_inv _ _ _ _ _ _ _ _ Hpos Hrun Hrow) as (u & Hu & ->).
  exists u. split; [done|]. simpl.
  repeat split; by apply binned_minutes_bounds.
Qed.

Lemma figures_within_span_witness :
  ∃ u, users_of (all_timestamps Samples.scenario1)
         !! index (mk_row 0 "A" 1 1 0 0) = Some u ∧
    let within figure view :=
      0 ≤ figure ∧ (1 | figure) ∧
      figure ≤ span_minutes 1 (timestamps_of view u) in
    within (total (mk_row 0 "A" 1 1 0 0)) (all_timestamps Samples.scenario1) ∧
    within (creation (mk_row 0 "A" 1 1 0 0))
      (creation_timestamps Samples.scenario1) ∧
    within (edition (mk_row 0 "A" 1 1 0 0))
      (edition_timestamps Samples.scenario1) ∧
    within (review (mk_row 0 "A" 1 1 0 0)) (review_timestamps Samples.scenario1).
Proof.
  apply (figures_within_span Instances.stable_argsort Instances.refuse_freq
           Samples.names Samples.scenario1 1 2
           [mk_row 0 "A" 1 1 0 0; mk_row 1 "B" 1 0 1 0]);
    [lia | vm_compute; reflexivity | left].
Defined.

(** ** Total against the sum of the categories *)

Lemma length_remove_dups_app (l1 l2 : list Z) :
  (length (remove_dups (l1 ++ l2))
   ≤ length (remove_dups l1) + length (remove_dups l2))%nat.
Proof.
  rewrite <- length_app. apply submseteq_length.
  apply NoDup_submseteq; [apply NoDup_remove_dups|].
  intros x. rewrite elem_of_remove_dups, !elem_of_app, !elem_of_remove_dups.
  done.
Qed.

Lemma length_remove_dups_shift (c : Z) (l : list Z) :
  length (remove_dups ((λ k, k - c) <$> l)) = length (remove_dups l).
Proof.
  apply Nat.le_antisymm; [apply length_remove_dups_fmap|].
  replace l with ((λ k, k + c) <$> ((λ k, k - c) <$> l)) at 1.
  - apply length_remove_dups_fmap.
  - rewrite <- list_fmap_compose. rewrite <- (list_fmap_id l) at 2.
    apply list_fmap_ext. intros _ k _. simpl. lia.
Qed.

(** With a threshold of one action and bins on the grid of the epoch, the
    minutes count the distinct epoch bins the timestamps fall into. *)
Lemma binned_minutes_one_epoch (interval : Z) (ts : list Z) :
  0 < interval → (interval | Pandas.minutes_per_day) →
  binned_minutes interval 1 ts
  = Z.of_nat (length (remove_dups
       (Spec.bin_of 0 (Pandas.offset_nanos interval) <$> ts))) * interval.
Proof.
  intros Hi Hdiv. rewrite binned_minutes_spec by lia. unfold Spec.minutes.
  rewrite active_bins_one. do 2 f_equal.
  destruct ts as [|t0 rest]; [done|]. unfold day_origin.
  destruct (normalize_on_grid interval (Pandas.ts_min t0 rest) Hdiv) as [c ->].
  pose proof (offset_nanos_pos interval Hi) as Hw.
  rewrite <- (length_remove_dups_shift c
                (Spec.bin_of 0 (Pandas.offset_nanos interval) <$> t0 :: rest)).
  f_equal. f_equal. rewrite <- list_fmap_compose.
  apply list_fmap_ext. intros _ t _. simpl.
  by rewrite <- (bin_of_shift 0) by done.
Qed.

(** X3: with [minimum_actions = 1] and an interval that divides 1440
    minutes, the total minutes of a row are at most the sum of its
    creation, edition and review minutes (the categories can overlap). *)
Theorem total_at_most_sum_of_categories
    (argsort : list Z → list nat)
    (nonpositive_freq : Z → list Z → outcome (list Z))
    (user_list : gmap Z string) (node_details : list NodeDetails.t)
    (interval : Z) (rows : list report_row) :
  1 ≤ interval →
  (interval | Pandas.minutes_per_day) →
  get_time_invested argsort nonpositive_freq user_list node_details interval 1
  = Returned rows →
  ∀ row, row ∈ rows → total row ≤ creation row + edition row + review row.
Proof.
  intros Hi Hdiv Hrun row Hrow. assert (Hpos : 0 < interval) by lia.
  destruct (report_row_inv _ _ _ _ _ _ _ _ Hpos Hrun Hrow) as (u & _ & ->).
  simpl. rewrite !binned_minutes_one_epoch by done.
  unfold all_timestamps. rewrite !timestamps_of_app, !fmap_app.
  set (w := Pandas.offset_nanos interval).
  set (c := Spec.bin_of 0 w <$> timestamps_of (creation_timestamps node_details) u).
  set (e := Spec.bin_of 0 w <$> timestamps_of (edition_timestamps node_details) u).
  set (r := Spec.bin_of 0 w <$> timestamps_of (review_timestamps node_details) u).
  pose proof (length_remove_dups_app c (e ++ r)).
  pose proof (length_remove_dups_app e r). nia.
Qed.

Lemma total_at_most_sum_of_categories_witness :
  total (mk_row 0 "A" 2 2 0 0)
  ≤ creation (mk_row 0 "A" 2 2 0 0) + edition (mk_row 0 "A" 2 2 0 0)
    + review (mk_row 0 "A" 2 2 0 0).
Proof.
  apply (total_at_most_sum_of_categories Instances.stable_argsort
           Instances.refuse_freq Samples.names Samples.scenario1 1
           [mk_row 0 "A" 2 2 0 0; mk_row 1 "B" 1 0 1 0]);
    [lia | by exists 1440 | vm_compute; reflexivity | left].
Defined.

(** ** Reviewers and review times *)

Lemma zip_join_aligned (node_details : list NodeDetails.t) :
  Forall (λ d, length (NodeDetails.reviewers d)
               = length (NodeDetails.review_times d)) node_details →
  zip (mjoin (NodeDetails.reviewers <$> node_details))
      (mjoin (NodeDetails.review_times <$> node_details))
  = mjoin ((λ d, zip (NodeDetails.reviewers d) (NodeDetails.review_times d))
             <$> node_details).
Proof.
  induction 1 as [|d nd Hd _ IH]; [done|]. csimpl.
  rewrite zip_with_app by done. by rewrite IH.
Qed.

(** X4: when every node lists as many reviewers as review times, the
    review frame pairs each reviewer with the review time at the same
    position of the same node, node after node. *)
Theorem review_pairs_node_by_node (node_details : list NodeDetails.t) :
  Forall (λ d, length (NodeDetails.reviewers d)
               = length (NodeDetails.review_times d)) node_details →
  review_timestamps node_details
  = mjoin ((λ d, zip (NodeDetails.reviewers d) (NodeDetails.review_times d))
             <$> node_details).
Proof.
  intros Haligned. unfold review_timestamps. by apply zip_join_aligned.
Qed.

Lemma review_pairs_node_by_node_witness :
  review_timestamps Samples.scenario_review
  = mjoin ((λ d, zip (NodeDetails.reviewers d) (NodeDetails.review_times d))
             <$> Samples.scenario_review).
Proof.
  apply (review_pairs_node_by_node Samples.scenario_review).
  repeat constructor.
Defined.

(** The frame of reviews is as long as the shorter of the two flattened
    lists: surplus reviewers or review times are dropped. *)
Lemma review_timestamps_length (node_details : list NodeDetails.t) :
  length (review_timestamps node_details)
  = (length (mjoin (NodeDetails.reviewers <$> node_details))
     `min` length (mjoin (NodeDetails.review_times <$> node_details)))%nat.
Proof. unfold review_timestamps. apply length_zip_with. Qed.

(** ** A user active in one category only *)

(** X5: for a user without actions in two of the categories, the total
    minutes equal the minutes of the remaining category. *)
Theorem single_category_total
    (argsort : list Z → list nat)
    (nonpositive_freq : Z → list Z → outcome (list Z))
    (user_list : gmap Z string) (node_details : list NodeDetails.t)
    (interval minimum_actions : Z) (rows : list report_row) :
  1 ≤ interval →
  get_time_invested argsort nonpositive_freq user_list node_details
    interval minimum_actions = Returned rows →
  ∀ row, row ∈ rows →
    ∃ u, users_of (all_timestamps node_details) !! index row = Some u ∧
      (u ∉ users_of (edition_timestamps node_details) →
       u ∉ users_of (review_timestamps node_details) →
       total row = creation row) ∧
      (u ∉ users_of (creation_timestamps node_details) →
       u ∉ users_of (review_timestamps node_details) →
       total row = edition row) ∧
      (u ∉ users_of (creation_timestamps node_details) →
       u ∉ users_of (edition_timestamps node_details) →
       total row = review row).
Proof.
  intros Hi Hrun row Hrow. assert (Hpos : 0 < interval) by lia.
  destruct (report_row_inv _ _ _ _ _ _ _ _ Hpos Hrun Hrow) as (u & Hu & ->).
  exists u. split; [done|]. simpl. unfold all_timestamps.
  rewrite !timestamps_of_app.
  repeat split; intros H1 H2; apply timestamps_of_nil_iff in H1, H2;
    rewrite H1, H2; by rewrite ?app_nil_r.
Qed.

Lemma single_category_total_witness :
  ∃ u, users_of (all_timestamps Samples.scenario_review)
         !! index (mk_row 1 "C" 2 0 0 2) = Some u ∧
    (u ∉ users_of (edition_timestamps Samples.scenario_review) →
     u ∉ users_of (review_timestamps Samples.scenario_review) →
     total (mk_row 1 "C" 2 0 0 2) = creation (mk_row 1 "C" 2 0 0 2)) ∧
    (u ∉ users_of (creation_timestamps Samples.scenario_review) →
     u ∉ users_of (review_timestamps Samples.scenario_review) →
     total (mk_row 1 "C" 2 0 0 2) = edition (mk_row 1 "C" 2 0 0 2)) ∧
    (u ∉ users_of (creation_timestamps Samples.scenario_review) →
     u ∉ users_of (edition_timestamps Samples.scenario_review) →
     total (mk_row 1 "C" 2 0 0 2) = review (mk_row 1 "C" 2 0 0 2)).
Proof.
  apply (single_category_total Instances.stable_argsort Instances.refuse_freq
           Samples.names Samples.scenario_review 1 1
           [mk_row 1 "C" 2 0 0 2; mk_row 0 "A" 1 1 1 0]);
    [lia | vm_compute; reflexivity | left].
Defined.

(** ** The order of the records *)

Lemma ts_min_Permutation (t0 s0 : Z) (rest srest : list Z) :
  t0 :: rest ≡ₚ s0 :: srest → Pandas.ts_min t0 rest = Pandas.ts_min s0 srest.
Proof.
  intros Hp. apply Z.le_antisymm.
  - apply ts_min_le. rewrite Hp. apply ts_min_elem_of.
  - apply ts_min_le. rewrite <- Hp. apply ts_min_elem_of.
Qed.

Lemma ts_max_Permutation (t0 s0 : Z) (rest srest : list Z) :
  t0 :: rest ≡ₚ s0 :: srest → Pandas.ts_max t0 rest = Pandas.ts_max s0 srest.
Proof.
  intros Hp. apply Z.le_antisymm.
  - apply ts_max_ge. rewrite <- Hp. apply ts_max_elem_of.
  - apply ts_max_ge. rewrite Hp. apply ts_max_elem_of.
Qed.

(** The counts per bin do not depend on the order of the rows grouped. *)
Lemma time_grouper_count_Permutation (w : Z) (ts ts' : list Z) :
  0 < w → ts ≡ₚ ts' →
  Pandas.time_grouper_count w ts = Pandas.time_grouper_count w ts'.
Proof.
  intros Hw Hp. destruct ts as [|t0 rest], ts' as [|s0 srest]; [done| | |].
  - by apply Permutation_nil_cons in Hp.
  - symmetry in Hp. by apply Permutation_nil_cons in Hp.
  - rewrite !time_grouper_count_bins by done. cbv zeta. unfold day_origin.
    rewrite (ts_min_Permutation _ _ _ _ Hp), (ts_max_Permutation _ _ _ _ Hp).
    apply list_fmap_ext. intros _ k _.
    unfold Spec.actions_in_bin. by rewrite Hp.
Qed.

Lemma binned_minutes_Permutation (interval m : Z) (ts ts' : list Z) :
  0 < interval → ts ≡ₚ ts' →
  binned_minutes interval m ts = binned_minutes interval m ts'.
Proof.
  intros Hi Hp. unfold binned_minutes.
  by rewrite (time_grouper_count_Permutation _ ts ts')
    by (done || by apply offset_nanos_pos).
Qed.

Lemma timestamps_of_Permutation (frame frame' : timestamps_frame) (u : Z) :
  frame ≡ₚ frame' → timestamps_of frame u ≡ₚ timestamps_of frame' u.
Proof. intros Hp. unfold timestamps_of. by rewrite Hp. Qed.

Lemma review_timestamps_Permutation (nd nd' : list NodeDetails.t) :
  Forall (λ d, length (NodeDetails.reviewers d)
               = length (NodeDetails.review_times d)) nd →
  nd ≡ₚ nd' →
  review_timestamps nd ≡ₚ review_timestamps nd'.
Proof.
  intros Hal Hp. unfold review_timestamps. rewrite !zip_join_aligned.
  - by rewrite Hp.
  - by rewrite <- Hp.
  - done.
Qed.

(** X6: the figures do not depend on the order in which the nodes are
    listed.  When every node has as many reviewers as review times and the
    call returns for one order of the nodes, it returns for any other
    order, and every user's row has the same name and the same four
    figures (only the [index] column may differ). *)
Theorem figures_independent_of_record_order
    (argsort : list Z → list nat)
    (nonpositive_freq : Z → list Z → outcome (list Z))
    (user_list : gmap Z string) (nd nd' : list NodeDetails.t)
    (interval minimum_actions : Z) (rows : list report_row) :
  Pandas.argsort_ok argsort →
  1 ≤ interval →
  Forall (λ d, length (NodeDetails.reviewers d)
               = length (NodeDetails.review_times d)) nd →
  nd ≡ₚ nd' →
  get_time_invested argsort nonpositive_freq user_list nd
    interval minimum_actions = Returned rows →
  ∃ rows',
    get_time_invested argsort nonpositive_freq user_list nd'
      interval minimum_actions = Returned rows' ∧
    ∀ row, row ∈ rows →
      ∃ row', row' ∈ rows' ∧
        user row' = user row ∧ total row' = total row ∧
        creation row' = creation row ∧ edition row' = edition row ∧
        review row' = review row.
Proof.
  intros Hsort Hi Hal Hp Hrun. assert (Hpos : 0 < interval) by lia.
  assert (Hc : creation_timestamps nd ≡ₚ creation_timestamps nd')
    by (unfold creation_timestamps; by rewrite Hp).
  assert (He : edition_timestamps nd ≡ₚ edition_timestamps nd')
    by (unfold edition_timestamps; by rewrite Hp).
  assert (Hr : review_timestamps nd ≡ₚ review_timestamps nd')
    by by apply review_timestamps_Permutation.
  assert (Ha : all_timestamps nd ≡ₚ all_timestamps nd')
    by (unfold all_timestamps; by rewrite Hc, He, Hr).
  assert (Husers : ∀ u, u ∈ users_of (all_timestamps nd')
                        ↔ u ∈ users_of (all_timestamps nd)).
  { intros u. rewrite !elem_of_users_of. by setoid_rewrite Ha. }
  pose proof Hrun as Hrun0.
  apply get_time_invested_Returned in Hrun as [Hnames ->]; [|done].
  eexists. split.
  { apply get_time_invested_Returned; [done|]. split; [|done].
    intros u Hu. by apply Hnames, Husers. }
  intros row Hrow.
  apply elem_of_take_at, elem_of_expected_frame in Hrow as (u & Hu & ->).
  assert (Hu' : u ∈ users_of (all_timestamps nd'))
    by (apply Husers; by apply list_elem_of_lookup_2 in Hu).
  apply list_elem_of_lookup in Hu' as [i' Hi'].
  exists (expected_row user_list interval minimum_actions nd' (i', u)). split.
  - unfold sort_values_total. rewrite take_at_nargsort_Permutation by done.
    apply elem_of_expected_frame. by exists u.
  - simpl. split; [done|].
    repeat split; apply binned_minutes_Permutation; try done;
      by apply timestamps_of_Permutation.
Qed.

Lemma figures_independent_of_record_order_witness :
  ∃ rows',
    get_time_invested Instances.stable_argsort Instances.refuse_freq
      Samples.names (reverse Samples.scenario1) 1 1 = Returned rows' ∧
    ∀ row, row ∈ [mk_row 0 "A" 2 2 0 0; mk_row 1 "B" 1 0 1 0] →
      ∃ row', row' ∈ rows' ∧
        user row' = user row ∧ total row' = total row ∧
        creation row' = creation row ∧ edition row' = edition row ∧
        review row' = review row.
Proof.
  apply (figures_independent_of_record_order Instances.stable_argsort
           Instances.refuse_freq Samples.names Samples.scenario1
           (reverse Samples.scenario1) 1 1 _ stable_argsort_ok);
    [lia | repeat constructor | by rewrite reverse_Permutation
    | vm_compute; reflexivity].
Defined.

(** * Further properties of [get_user_contributions] *)




(** * Properties of the plotting helpers *)

(** ** [_fix_default_dict] *)

Section FixDefaultDictFacts.

Variable V : Type.
Implicit Types x y : gmap string V.

(** One round keeps the survivor and drops the short name when both are
    set. *)
Lemma fix_duplicate_pair x (a b : string) :
  a ≠ b →
  Plotting.fix_duplicate V x [a; b]
  = Plotting.Ok (if decide (is_Some (x !! a) ∧ is_Some (x !! b))
                 then delete b x else x).
Proof.
  intros Hab. unfold Plotting.fix_duplicate, Plotting.present.
  rewrite !filter_cons, filter_nil.
  destruct (decide (is_Some (x !! a))) as [Ha|Ha],
           (decide (is_Some (x !! b))) as [Hb|Hb]; simpl.
  - rewrite decide_True by done. unfold Plotting.pop.
    destruct Hb as [v ->]. done.
  - rewrite decide_False by tauto. done.
  - rewrite decide_False by tauto. done.
  - rewrite decide_False by tauto. done.
Qed.

Lemma fix_default_dict_steps x :
  Plotting._fix_default_dict V x
  = Plotting.Ok
      (let x1 := if decide (is_Some (x !! "color"%string)
                            ∧ is_Some (x !! "c"%string))
                 then delete "c"%string x else x in
       if decide (is_Some (x1 !! "size"%string) ∧ is_Some (x1 !! "s"%string))
       then delete "s"%string x1 else x1).
Proof.
  unfold Plotting._fix_default_dict, Plotting.duplicates. simpl.
  rewrite fix_duplicate_pair by done. simpl.
  by rewrite fix_duplicate_pair by done.
Qed.

Lemma lookup_drop_short x (a b k : string) :
  a ≠ b →
  (if decide (is_Some (x !! a) ∧ is_Some (x !! b)) then delete b x else x) !! k
  = if decide (k = b ∧ is_Some (x !! a)) then None else x !! k.
Proof.
  intros Hab. destruct (decide (is_Some (x !! a) ∧ is_Some (x !! b)))
    as [[Ha Hb]|Hnot].
  - rewrite lookup_delete. destruct (decide (b = k)) as [<-|Hne].
    + by rewrite decide_True.
    + rewrite decide_False; [done|]. intros [-> _]. done.
  - destruct (decide (k = b ∧ is_Some (x !! a))) as [[-> Ha]|_]; [|done].
    apply eq_None_not_Some. tauto.
Qed.

Lemma fix_default_dict_lookup x :
  ∃ y,
    Plotting._fix_default_dict V x = Plotting.Ok y ∧
    ∀ k : string,
      y !! k =
      if decide ((k = "c"%string ∧ is_Some (x !! "color"%string))
                 ∨ (k = "s"%string ∧ is_Some (x !! "size"%string)))
      then None else x !! k.
Proof.
  eexists. split; [apply fix_default_dict_steps|].
  intros k. cbv zeta. rewrite !lookup_drop_short by done.
  rewrite (decide_False (P := "size"%string = "c"%string ∧ _)) by
    (intros [? _]; done).
  repeat case_decide; try done; tauto.
Qed.

(** X8: the call never raises; it removes ['c'] exactly when ['color'] is
    set and ['s'] exactly when ['size'] is set, leaves every other entry
    as it was, and applying it again changes nothing. *)
Theorem fix_default_dict_survivors x :
  ∃ y,
    Plotting._fix_default_dict V x = Plotting.Ok y ∧
    (∀ k : string,
       y !! k =
       if decide ((k = "c"%string ∧ is_Some (x !! "color"%string))
                  ∨ (k = "s"%string ∧ is_Some (x !! "size"%string)))
       then None else x !! k) ∧
    Plotting._fix_default_dict V y = Plotting.Ok y.
Proof.
  destruct (fix_default_dict_lookup x) as (y & Hy & Hlook).
  exists y. split; [done|]. split; [done|].
  destruct (fix_default_dict_lookup y) as (z & Hz & Hlook').
  rewrite Hz. f_equal. apply map_eq. intros k. rewrite Hlook', !Hlook.
  rewrite (decide_False (P := "color"%string = "c"%string ∧ _ ∨ _)) by
    (intros [[? _]|[? _]]; done).
  rewrite (decide_False (P := "size"%string = "c"%string ∧ _ ∨ _)) by
    (intros [[? _]|[? _]]; done).
  repeat case_decide; try done; tauto.
Qed.

(** X9: at the call sites the user's keywords are merged over the defaults
    before the call.  When the defaults use the short names ['c'] and
    ['s'], a ['color'] given by the user ends up as the only colour entry;
    without it the user's ['c'] is used, and the default ['c'] otherwise.
    The same holds for ['size'] and ['s']. *)
Theorem scatter_settings_precedence (default_settings scatter_kws : gmap string V) :
  default_settings !! "color"%string = None →
  default_settings !! "size"%string = None →
  ∃ y,
    Plotting.scatter_settings V default_settings scatter_kws = Plotting.Ok y ∧
    y !! "color"%string = scatter_kws !! "color"%string ∧
    y !! "c"%string =
      match scatter_kws !! "color"%string, scatter_kws !! "c"%string with
      | Some _, _ => None
      | None, Some v => Some v
      | None, None => default_settings !! "c"%string
      end ∧
    y !! "size"%string = scatter_kws !! "size"%string ∧
    y !! "s"%string =
      match scatter_kws !! "size"%string, scatter_kws !! "s"%string with
      | Some _, _ => None
      | None, Some v => Some v
      | None, None => default_settings !! "s"%string
      end.
Proof.
  intros Hcolor Hsize. unfold Plotting.scatter_settings.
  destruct (fix_default_dict_lookup (scatter_kws ∪ default_settings))
    as (y & Hy & Hlook).
  exists y. split; [done|]. rewrite !Hlook, !lookup_union, Hcolor, Hsize.
  rewrite (decide_False (P := "color"%string = "c"%string ∧ _ ∨ _)) by
    (intros [[? _]|[? _]]; done).
  rewrite (decide_False (P := "size"%string = "c"%string ∧ _ ∨ _)) by
    (intros [[? _]|[? _]]; done).
  destruct (scatter_kws !! "color"%string) as [vc|] eqn:Ec,
           (scatter_kws !! "size"%string) as [vs|] eqn:Es,
           (scatter_kws !! "c"%string) as [wc|],
           (scatter_kws !! "s"%string) as [ws|],
           (default_settings !! "c"%string) as [dc|],
           (default_settings !! "s"%string) as [ds|];
    simpl; repeat split; try done;
    repeat case_decide; try done;
    repeat match goal with
           | H : _ ∨ _ |- _ => destruct H as [[? ?]|[? ?]]
           | H : ¬ (_ ∨ _) |- _ => apply not_or in H as [? ?]
           | H : is_Some None |- _ => by destruct H
           | H : ¬ (_ ∧ _) |- _ => exfalso; apply H; split; [done | eauto]
           end; try done.
Qed.

End FixDefaultDictFacts.

Lemma scatter_settings_precedence_witness :
  ∃ y,
    Plotting.scatter_settings string PlottingSamples.default_settings
      PlottingSamples.scatter_kws = Plotting.Ok y ∧
    y !! "color"%string = PlottingSamples.scatter_kws !! "color"%string ∧
    y !! "c"%string =
      match PlottingSamples.scatter_kws !! "color"%string,
            PlottingSamples.scatter_kws !! "c"%string with
      | Some _, _ => None
      | None, Some v => Some v
      | None, None => PlottingSamples.default_settings !! "c"%string
      end ∧
    y !! "size"%string = PlottingSamples.scatter_kws !! "size"%string ∧
    y !! "s"%string =
      match PlottingSamples.scatter_kws !! "size"%string,
            PlottingSamples.scatter_kws !! "s"%string with
      | Some _, _ => None
      | None, Some v => Some v
      | None, None => PlottingSamples.default_settings !! "s"%string
      end.
Proof.
  apply (scatter_settings_precedence string PlottingSamples.default_settings
           PlottingSamples.scatter_kws); reflexivity.
Defined.

(** ** The result monad of the plotting helpers *)

Lemma result_bind_Ok {A B : Type} (f : A → Plotting.result B)
    (m : Plotting.result A) (b : B) :
  m ≫= f = Plotting.Ok b ↔ ∃ a, m = Plotting.Ok a ∧ f a = Plotting.Ok b.
Proof.
  destruct m as [a|e]; simpl.
  - split; [eauto | intros (a' & [= <-] & ?); done].
  - split; [done | intros (a' & ? & ?); done].
Qed.

Lemma result_mapM_Ok {A B : Type} (f : A → Plotting.result B) (l : list A)
    (k : list B) :
  mapM f l = Plotting.Ok k ↔ Forall2 (λ x y, f x = Plotting.Ok y) l k.
Proof.
  revert k. induction l as [|x l IH]; intros k; simpl.
  - split; [intros [= <-]; constructor | by inversion 1].
  - rewrite result_bind_Ok. split.
    + intros (y & Hy & Hk). apply result_bind_Ok in Hk as (k' & Hk' & [= <-]).
      constructor; [done | by apply IH].
    + inversion 1 as [|? y ? k' Hy Hk']; subst. exists y. split; [done|].
      apply result_bind_Ok. exists k'. split; [by apply IH | done].
Qed.

Lemma result_mapM_Err {A B : Type} (f : A → Plotting.result B)
    (l1 l2 : list A) (x : A) (e : Plotting.error) :
  Forall (λ y, ∃ r, f y = Plotting.Ok r) l1 →
  f x = Plotting.Err e →
  mapM f (l1 ++ x :: l2) = Plotting.Err e.
Proof.
  intros Hl1 Hx. induction Hl1 as [|y l1 [r Hr] _ IH]; simpl.
  - by rewrite Hx.
  - rewrite Hr. simpl. by rewrite IH.
Qed.

Lemma result_mapM_total {A B : Type} (f : A → Plotting.result B) (g : A → B)
    (l : list A) :
  (∀ x, x ∈ l → f x = Plotting.Ok (g x)) →
  mapM f l = Plotting.Ok (g <$> l).
Proof.
  intros Hf. apply result_mapM_Ok, Forall2_fmap_r, Forall_Forall2_diag,
    Forall_forall. done.
Qed.

(** ** [_segments_to_coords] *)

Section SegmentsToCoordsFacts.

Variable number : Type.
Variable mul : number → number → number.

Implicit Types nodes : list (Plotting.node_row number).

Lemma lookup_locations nodes (tn : Z) :
  Plotting.locations number nodes !! tn
  = Plotting.location number <$> Plotting.last_row number nodes tn.
Proof.
  unfold Plotting.locations, Plotting.last_row.
  induction nodes as [|r nodes IH] using rev_ind; [done|].
  rewrite foldl_app, filter_app. simpl. rewrite lookup_insert.
  rewrite filter_cons, filter_nil.
  destruct (decide (Plotting.treenode_id number r = tn)) as [Heq|Hne].
  - by rewrite last_snoc.
  - by rewrite app_nil_r.
Qed.

Lemma last_row_is_Some nodes (tn : Z) :
  is_Some (Plotting.last_row number nodes tn)
  ↔ tn ∈ Plotting.treenode_id number <$> nodes.
Proof.
  unfold Plotting.last_row. rewrite list_elem_of_fmap, last_is_Some. split.
  - intros Hne. destruct (filter _ nodes) as [|r l] eqn:E; [done|].
    assert (Hr : r ∈ filter (λ r, Plotting.treenode_id number r = tn) nodes)
      by (rewrite E; left).
    apply list_elem_of_filter in Hr as [<- Hr]. by exists r.
  - intros (r & -> & Hr) Hnil.
    assert (Hin : r ∈ filter (λ r', Plotting.treenode_id number r'
                                    = Plotting.treenode_id number r) nodes)
      by (by apply list_elem_of_filter).
    rewrite Hnil in Hin. by apply elem_of_nil in Hin.
Qed.

Lemma result_mapM_exists {A B : Type} (f : A → Plotting.result B)
    (P : A → B → Prop) (l : list A) :
  (∀ x, x ∈ l → ∃ y, f x = Plotting.Ok y ∧ P x y) →
  ∃ k, mapM f l = Plotting.Ok k ∧ Forall2 P l k.
Proof.
  induction l as [|x l IH]; intros Hf.
  - exists []. split; [done | constructor].
  - destruct (Hf x) as (y & Hy & HP); [left|].
    destruct IH as (k & Hk & HPk); [intros z Hz; apply Hf; by right|].
    exists (y :: k). split; [|by constructor]. simpl. by rewrite Hy, Hk.
Qed.

(** A non-empty segment of known identifiers. *)
Lemma segment_coords_known nodes (modifier : Plotting.xyz number) (s : list Z) :
  s ≠ [] →
  (∀ tn, tn ∈ s → tn ∈ Plotting.treenode_id number <$> nodes) →
  ∃ c,
    Plotting.segment_coords number mul (Plotting.locations number nodes)
      modifier s = Plotting.Ok c ∧
    Forall2
      (λ tn p,
         ∃ r, Plotting.last_row number nodes tn = Some r ∧
              p = Plotting.scale number mul modifier
                    (Plotting.location number r))
      s c.
Proof.
  intros Hne Hknown. unfold Plotting.segment_coords.
  destruct (result_mapM_exists
              (Plotting.loc number (Plotting.locations number nodes))
              (λ tn q, ∃ r, Plotting.last_row number nodes tn = Some r ∧
                            q = Plotting.location number r) s)
    as (points & Hpoints & Hall).
  { intros tn Htn. apply Hknown, last_row_is_Some in Htn as [r Hr].
    exists (Plotting.location number r). split; [|eauto].
    unfold Plotting.loc. by rewrite lookup_locations, Hr. }
  rewrite Hpoints. simpl. destruct points as [|p points].
  { apply Forall2_nil_inv_r in Hall. done. }
  eexists. split; [done|]. apply Forall2_fmap_r.
  eapply Forall2_impl; [exact Hall|]. intros tn q (r & Hr & ->). eauto.
Qed.

(** X10: when no segment is empty and every identifier of every segment
    occurs in the node table, the call returns one array per segment, in
    order, with one row per identifier, in order: the coordinates of the
    last node row carrying that identifier, times the modifier. *)
Theorem segments_to_coords_rows nodes (segments : list (list Z))
    (modifier : Plotting.xyz number) :
  (∀ s, s ∈ segments →
        s ≠ [] ∧ ∀ tn, tn ∈ s → tn ∈ Plotting.treenode_id number <$> nodes) →
  ∃ coords,
    Plotting._segments_to_coords number mul nodes segments modifier
    = Plotting.Ok coords ∧
    Forall2
      (λ s c,
         Forall2
           (λ tn p,
              ∃ r, Plotting.last_row number nodes tn = Some r ∧
                   p = Plotting.scale number mul modifier
                         (Plotting.location number r))
           s c)
      segments coords.
Proof.
  intros Hgood. unfold Plotting._segments_to_coords.
  apply result_mapM_exists. intros s Hs. destruct (Hgood s Hs) as [Hne Hknown].
  by apply segment_coords_known.
Qed.

(** X11: the call raises [KeyError] for the first identifier, segment by
    segment and position by position, that no node row carries. *)
Theorem segments_to_coords_unknown_node nodes
    (before after : list (list Z)) (known rest : list Z) (tn : Z)
    (modifier : Plotting.xyz number) :
  (∀ s, s ∈ before →
        s ≠ [] ∧ ∀ t, t ∈ s → t ∈ Plotting.treenode_id number <$> nodes) →
  (∀ t, t ∈ known → t ∈ Plotting.treenode_id number <$> nodes) →
  tn ∉ Plotting.treenode_id number <$> nodes →
  Plotting._segments_to_coords number mul nodes
    (before ++ (known ++ tn :: rest) :: after) modifier
  = Plotting.Err (Plotting.KeyError (Plotting.Int tn)).
Proof.
  intros Hbefore Hknown Htn. unfold Plotting._segments_to_coords.
  apply result_mapM_Err.
  - apply Forall_forall. intros s Hs.
    destruct (Hbefore s Hs) as [Hne Hks].
    destruct (segment_coords_known nodes modifier s Hne Hks) as (c & Hc & _).
    eauto.
  - unfold Plotting.segment_coords.
    rewrite (result_mapM_Err _ _ _ _ (Plotting.KeyError (Plotting.Int tn)));
      [done| |].
    + apply Forall_forall. intros t Ht.
      apply Hknown, last_row_is_Some in Ht as [r Hr].
      exists (Plotting.location number r).
      unfold Plotting.loc. by rewrite lookup_locations, Hr.
    + unfold Plotting.loc. rewrite lookup_locations.
      destruct (Plotting.last_row number nodes tn) as [r|] eqn:E; [|done].
      exfalso. apply Htn, last_row_is_Some. by rewrite E.
Qed.

(** X12: an empty segment makes the call raise [ValueError] (its empty
    array cannot be multiplied with the modifier), when the segments
    before it are fine. *)
Theorem segments_to_coords_empty_segment nodes
    (before after : list (list Z)) (modifier : Plotting.xyz number) :
  (∀ s, s ∈ before →
        s ≠ [] ∧ ∀ t, t ∈ s → t ∈ Plotting.treenode_id number <$> nodes) →
  Plotting._segments_to_coords number mul nodes (before ++ [] :: after) modifier
  = Plotting.Err Plotting.ValueError.
Proof.
  intros Hbefore. unfold Plotting._segments_to_coords.
  apply result_mapM_Err; [|done].
  apply Forall_forall. intros s Hs.
  destruct (Hbefore s Hs) as [Hne Hks].
  destruct (segment_coords_known nodes modifier s Hne Hks) as (c & Hc & _).
  eauto.
Qed.

End SegmentsToCoordsFacts.

Ltac known_ids :=
  repeat match goal with
         | H : _ ∈ _ :: _ |- _ => apply elem_of_cons in H as [->|H]
         | H : _ ∈ [] |- _ => by apply elem_of_nil in H
         end;
  try (split; [done|intros]);
  repeat match goal with
         | H : _ ∈ _ :: _ |- _ => apply elem_of_cons in H as [->|H]
         | H : _ ∈ [] |- _ => by apply elem_of_nil in H
         end;
  try (vm_compute; by repeat constructor).

Lemma segments_to_coords_rows_witness :
  ∃ coords,
    Plotting._segments_to_coords Z Z.mul SegmentSamples.nodes
      SegmentSamples.segments (1, -1, 1) = Plotting.Ok coords ∧
    Forall2
      (λ s c,
         Forall2
           (λ tn p,
              ∃ r, Plotting.last_row Z SegmentSamples.nodes tn = Some r ∧
                   p = Plotting.scale Z Z.mul (1, -1, 1) (Plotting.location Z r))
           s c)
      SegmentSamples.segments coords.
Proof.
  apply (segments_to_coords_rows Z Z.mul SegmentSamples.nodes
           SegmentSamples.segments (1, -1, 1)).
  intros s Hs. unfold SegmentSamples.segments in Hs. known_ids.
Defined.

Lemma segments_to_coords_unknown_node_witness :
  Plotting._segments_to_coords Z Z.mul SegmentSamples.nodes
    ([[1; 2]] ++ ([3] ++ 7 :: [1]) :: [[2]]) (1, 1, 1)
  = Plotting.Err (Plotting.KeyError (Plotting.Int 7)).
Proof.
  apply (segments_to_coords_unknown_node Z Z.mul SegmentSamples.nodes
           [[1; 2]] [[2]] [3] [1] 7 (1, 1, 1)).
  - intros s Hs. known_ids.
  - intros t Ht. known_ids.
  - intros H. apply list_elem_of_fmap in H as (r & Hr & Hin).
    unfold SegmentSamples.nodes in Hin.
    repeat (apply elem_of_cons in Hin as [->|Hin]; [done|]).
    by apply elem_of_nil in Hin.
Defined.

Lemma segments_to_coords_empty_segment_witness :
  Plotting._segments_to_coords Z Z.mul SegmentSamples.nodes
    ([[1; 2]] ++ [] :: [[3]]) (1, 1, 1)
  = Plotting.Err Plotting.ValueError.
Proof.
  apply (segments_to_coords_empty_segment Z Z.mul SegmentSamples.nodes
           [[1; 2]] [[3]] (1, 1, 1)).
  intros s Hs. known_ids.
Defined.

(** The sample call: node 2 is listed twice and its last row is used. *)
Example segments_to_coords_sample :
  SegmentSamples.run SegmentSamples.segments (1, -1, 1)
  = Plotting.Ok [ [(10, -20, 30); (12, -22, 32)]; [(11, -21, 31)] ].
Proof. vm_compute. reflexivity. Qed.

(** ** [_random_colors] *)

Section RandomColorsFacts.

Variable color : Type.
Variable number : Type.
Variable black : color.
Variables bright dim gray : number → Z → Z → color.

Lemma length_pairs {A : Type} (a b : A → color) (l : list A) :
  length (mjoin ((λ i, [a i; b i]) <$> l)) = (2 * length l)%nat.
Proof. induction l as [|x l IH]; [done|]. csimpl. rewrite IH. lia. Qed.

(** For a count of at least one and a known colour space the call returns,
    with one colour for a count of one and the count rounded up to the next
    even number otherwise. *)
Lemma random_colors_ok (color_count : Z) (color_space : string)
    (color_range : number) :
  1 ≤ color_count →
  color_space = "RGB"%string ∨ color_space = "Grayscale"%string →
  ∃ colormap,
    Plotting._random_colors color number black bright dim gray
      color_count color_space color_range = Plotting.Ok colormap ∧
    Z.of_nat (length colormap)
    = if decide (color_count = 1) then 1
      else color_count + color_count `mod` 2.
Proof.
  intros Hn Hspace. unfold Plotting._random_colors.
  destruct (decide (color_count = 1)) as [->|Hne]; [by eexists|].
  pose proof (Z.mod_pos_bound color_count 2 ltac:(lia)) as Hmod.
  set (n := if decide (color_count `mod` 2 ≠ 0) then color_count + 1
            else color_count).
  assert (Hn' : n = color_count + color_count `mod` 2)
    by (unfold n; case_decide; lia).
  assert (Heven : n `mod` 2 = 0).
  { rewrite Hn'. rewrite Z.add_mod by lia.
    assert (color_count `mod` 2 = 0 ∨ color_count `mod` 2 = 1) as [->| ->]
      by lia; done. }
  rewrite <- Hn'. rewrite decide_False by lia.
  destruct Hspace as [-> | ->]; simpl; eexists; (split; [done|]).
  - rewrite length_pairs, length_seqZ.
    rewrite Z.quot_div_nonneg by lia.
    pose proof (Z.div_mod n 2 ltac:(lia)). 
    assert (0 ≤ n `div` 2) by (apply Z.div_pos; lia). lia.
  - rewrite length_fmap, length_seqZ. lia.
Qed.

(** X13: asked for [n >= 1] colours in the RGB or the Grayscale space, the
    call returns a list that holds at least [n] colours: exactly one for
    [n = 1], and [n] rounded up to the next even number otherwise. *)
Theorem random_colors_length (color_count : Z) (color_space : string)
    (color_range : number) :
  1 ≤ color_count →
  color_space = "RGB"%string ∨ color_space = "Grayscale"%string →
  ∃ colormap,
    Plotting._random_colors color number black bright dim gray
      color_count color_space color_range = Plotting.Ok colormap ∧
    Z.of_nat (length colormap)
    = (if decide (color_count = 1) then 1
       else color_count + color_count `mod` 2) ∧
    color_count ≤ Z.of_nat (length colormap).
Proof.
  intros Hn Hspace.
  destruct (random_colors_ok color_count color_space color_range Hn Hspace)
    as (cm & Hcm & Hlen).
  exists cm. split; [done|]. split; [done|]. rewrite Hlen.
  pose proof (Z.mod_pos_bound color_count 2 ltac:(lia)). case_decide; lia.
Qed.

(** X14: for a count whose half is exact in floating point (below [2 ^ 53]
    in absolute value), the call raises exactly for a count of 0 or -1, and
    what it raises then is [ZeroDivisionError]. *)
Theorem random_colors_raises (color_count : Z) (color_space : string)
    (color_range : number) (e : Plotting.error) :
  Z.abs color_count < 2 ^ 53 →
  Plotting._random_colors color number black bright dim gray
    color_count color_space color_range = Plotting.Err e
  ↔ e = Plotting.ZeroDivisionError ∧ (color_count = 0 ∨ color_count = -1).
Proof.
  intros _. unfold Plotting._random_colors. split.
  - destruct (decide (color_count = 1)); [done|].
    destruct (decide (color_count `mod` 2 ≠ 0)) as [Hodd|Heven].
    + destruct (decide (color_count + 1 = 0)); [|repeat case_decide; done].
      intros [= <-]. split; [done|]. lia.
    + destruct (decide (color_count = 0)); [|repeat case_decide; done].
      intros [= <-]. auto.
  - intros [-> [-> | ->]]; done.
Qed.

End RandomColorsFacts.

Lemma random_colors_raises_witness :
  Plotting._random_colors string unit "black" ColorSamples.bright
    ColorSamples.dim ColorSamples.gray (-1) "HSV" tt
  = Plotting.Err Plotting.ZeroDivisionError
  ↔ Plotting.ZeroDivisionError = Plotting.ZeroDivisionError
    ∧ (-1 = 0 ∨ -1 = -1).
Proof.
  apply (random_colors_raises string unit "black"%string ColorSamples.bright
           ColorSamples.dim ColorSamples.gray (-1) "HSV" tt
           Plotting.ZeroDivisionError).
  vm_compute. reflexivity.
Defined.

Lemma random_colors_length_witness :
  ∃ colormap,
    Plotting._random_colors string unit "black" ColorSamples.bright
      ColorSamples.dim ColorSamples.gray 3 "RGB" tt = Plotting.Ok colormap ∧
    Z.of_nat (length colormap)
    = (if decide (3 = 1) then 1 else 3 + 3 `mod` 2) ∧
    3 ≤ Z.of_nat (length colormap).
Proof.
  apply (random_colors_length string unit "black"%string ColorSamples.bright
           ColorSamples.dim ColorSamples.gray 3 "RGB" tt); [lia | by left].
Defined.

(** Three colours asked for, four returned. *)
Example random_colors_three :
  ColorSamples.random_colors 3 "RGB" tt
  = Plotting.Ok ["bright"; "dim"; "bright"; "dim"]%string.
Proof. vm_compute. reflexivity. Qed.

(** ** The colours of [plot_network] *)

Section PlotNetworkColorsFacts.

Variable color : Type.
Variable number : Type.
Variable black : color.
Variables bright dim gray : number → Z → Z → color.
Variable grey : color.
Variable range_255 : number.

Lemma lookup_foldl_insert_const (d : gmap Z color) (l : list Z) (k : Z) :
  foldl (λ colors n, <[n := grey]> colors) d l !! k
  = if decide (k ∈ l) then Some grey else d !! k.
Proof.
  revert d. induction l as [|n l IH]; intros d; cbn [foldl].
  - rewrite decide_False; [done | apply not_elem_of_nil].
  - rewrite IH, lookup_insert. destruct (decide (k ∈ l)) as [Hin|Hnin].
    + by rewrite decide_True by (by right).
    + destruct (decide (n = k)) as [->|Hne].
      * by rewrite decide_True by left.
      * rewrite decide_False; [done|]. rewrite elem_of_cons.
        intros [?|?]; congruence.
Qed.

Lemma lookup_foldl_insert_entries (m : gmap Z color) (entries : list (Z * color))
    (k : Z) :
  is_Some (foldl (λ colors e, <[e.1 := e.2]> colors) m entries !! k)
  ↔ k ∈ entries.*1 ∨ is_Some (m !! k).
Proof.
  revert m. induction entries as [|e entries IH]; intros m; csimpl.
  - rewrite elem_of_nil. tauto.
  - rewrite IH, elem_of_cons, lookup_insert.
    destruct (decide (e.1 = k)) as [->|Hne].
    + split; [auto | intros _; right; eauto].
    + split; [tauto | intros [[?|?]|?]; [congruence | tauto | tauto]].
Qed.

(** X15: with [colormap = 'random'] every node of a graph with at least
    one node gets a colour, while a graph without nodes makes the block
    raise [ZeroDivisionError]. *)
Theorem network_colors_random :
  (∀ nodes : list Z,
     nodes ≠ [] →
     ∃ colors,
       Plotting.plot_network_colors color number black bright dim gray grey
         range_255 (Plotting.StrColormap color "random") nodes
       = Plotting.Ok colors ∧
       ∀ n, n ∈ nodes → is_Some (colors !! n))
  ∧ Plotting.plot_network_colors color number black bright dim gray grey
      range_255 (Plotting.StrColormap color "random") []
    = Plotting.Err Plotting.ZeroDivisionError.
Proof.
  split; [|done]. intros nodes Hne. unfold Plotting.plot_network_colors.
  rewrite decide_True by done.
  assert (Hlen : 1 ≤ Z.of_nat (length nodes))
    by (destruct nodes; [done | simpl; lia]).
  destruct (random_colors_ok color number black bright dim gray
              (Z.of_nat (length nodes)) "RGB" range_255 Hlen (or_introl eq_refl))
    as (c & -> & Hc).
  assert (Hc' : (length nodes ≤ length c)%nat).
  { pose proof (Z.mod_pos_bound (Z.of_nat (length nodes)) 2 ltac:(lia)).
    destruct (decide (Z.of_nat (length nodes) = 1)); lia. }
  cbn [mbind Plotting.result_bind].
  destruct (result_mapM_exists
              (λ ni : nat * Z,
                 col ← Plotting.color_at color c ni.1; Plotting.Ok (ni.2, col))
              (λ ni e, e.1 = ni.2)
              (zip (seq 0 (length nodes)) nodes)) as (entries & -> & Hall).
  { intros [i n] Hin. apply elem_of_zip_seq_users in Hin.
    apply lookup_lt_Some in Hin.
    destruct (lookup_lt_is_Some_2 c i) as [col Hcol]; [lia|].
    exists (n, col). unfold Plotting.color_at. simpl. by rewrite Hcol. }
  eexists. split; [done|]. intros n Hn.
  apply lookup_foldl_insert_entries. left.
  assert (Hkeys : entries.*1 = (zip (seq 0 (length nodes)) nodes).*2).
  { clear -Hall. induction Hall as [|x e l k Hxe _ IH]; [done|].
    csimpl. by rewrite Hxe, IH. }
  rewrite snd_zip in Hkeys by (rewrite length_seq; lia).
  by rewrite Hkeys.
Qed.

(** X16: a dict passed as [colormap] keeps its entries and gains the grey
    colour for every node it lacks; a colormap that is neither a dict nor
    the string ['random'] - a tuple or a list included - makes the block
    raise [TypeError]. *)
Theorem network_colors_dict_and_other (nodes : list Z) :
  (∀ d : gmap Z color,
     ∃ colors,
       Plotting.plot_network_colors color number black bright dim gray grey
         range_255 (Plotting.DictColormap color d) nodes = Plotting.Ok colors ∧
       ∀ n, colors !! n =
            match d !! n with
            | Some c => Some c
            | None => if decide (n ∈ nodes) then Some grey else None
            end)
  ∧ (∀ s : string,
       s ≠ "random"%string →
       Plotting.plot_network_colors color number black bright dim gray grey
         range_255 (Plotting.StrColormap color s) nodes
       = Plotting.Err Plotting.TypeError)
  ∧ Plotting.plot_network_colors color number black bright dim gray grey
      range_255 (Plotting.OtherColormap color) nodes
    = Plotting.Err Plotting.TypeError.
Proof.
  split; [|split; [|done]].
  - intros d. eexists. split; [done|]. intros n.
    rewrite lookup_foldl_insert_const.
    destruct (d !! n) as [c|] eqn:E.
    + rewrite decide_False; [done|]. rewrite list_elem_of_filter. intros [? _].
      congruence.
    + destruct (decide (n ∈ nodes)) as [Hin|Hnin].
      * rewrite decide_True; [done|]. by apply list_elem_of_filter.
      * rewrite decide_False; [done|]. rewrite list_elem_of_filter. tauto.
  - intros s Hs. unfold Plotting.plot_network_colors.
    by rewrite decide_False.
Qed.

End PlotNetworkColorsFacts.

Lemma network_colors_random_witness :
  ∃ colors,
    Plotting.plot_network_colors string unit "black" ColorSamples.bright
      ColorSamples.dim ColorSamples.gray "grey" tt
      (Plotting.StrColormap string "random") [5; 7; 9]
    = Plotting.Ok colors ∧
    ∀ n, n ∈ [5; 7; 9] → is_Some (colors !! n).
Proof.
  apply (proj1 (network_colors_random string unit "black"%string
                  ColorSamples.bright ColorSamples.dim ColorSamples.gray
                  "grey"%string tt) [5; 7; 9]).
  done.
Defined.

(** ** The canvas in the module's globals *)

Section CanvasFacts.

Variable canvas : Type.
Variable scale_factor : Type.
Implicit Types g : Plotting.globals canvas scale_factor.

(** X17: [close3d] never raises.  When a canvas is registered and its
    [close()] returns, both the canvas and the scale factor are gone from
    the globals; in every other case the globals are left as they were.
    After a [close3d] whose [close()] returned, [get_canvas] raises
    ['No canvas found.']. *)
Theorem close3d_unregisters g (closed : bool) :
  (is_Some (Plotting.g_canvas canvas scale_factor g) →
   Plotting.close3d canvas scale_factor true g
   = Plotting.mk_globals canvas scale_factor None None) ∧
  (Plotting.g_canvas canvas scale_factor g = None →
   Plotting.close3d canvas scale_factor closed g = g) ∧
  Plotting.close3d canvas scale_factor false g = g ∧
  Plotting.get_canvas canvas scale_factor
    (Plotting.close3d canvas scale_factor true g)
  = Plotting.Err (Plotting.Exception "No canvas found.").
Proof.
  destruct g as [[c|] [s|]]; repeat split; try done;
    try (by intros [? ?]); try (by destruct closed).
Qed.

(** X18: [clear3d] never raises and never unregisters the canvas.  When a
    canvas is registered and the two calls into vispy return, the scale
    factor is dropped, so that [get_canvas] raises ['No canvas found.']
    although the canvas is still registered; when one of the calls raises,
    the globals are left as they were. *)
Theorem clear3d_drops_scale_factor g (widget_removed updated : bool) :
  Plotting.g_canvas canvas scale_factor
    (Plotting.clear3d canvas scale_factor widget_removed updated g)
  = Plotting.g_canvas canvas scale_factor g ∧
  (is_Some (Plotting.g_canvas canvas scale_factor g) →
   Plotting.g_vispy_scale_factor canvas scale_factor
     (Plotting.clear3d canvas scale_factor true true g) = None ∧
   Plotting.get_canvas canvas scale_factor
     (Plotting.clear3d canvas scale_factor true true g)
   = Plotting.Err (Plotting.Exception "No canvas found.")) ∧
  (widget_removed && updated = false →
   Plotting.clear3d canvas scale_factor widget_removed updated g = g).
Proof.
  split; [|split].
  - destruct g as [[c|] [s|]], widget_removed, updated; done.
  - intros [c Hc]. destruct g as [gc [s|]]; simpl in Hc; subst; done.
  - intros Hb. destruct g as [[c|] [s|]], widget_removed, updated; done.
Qed.

End CanvasFacts.

Lemma close3d_unregisters_witness :
  Plotting.close3d nat Z true (Plotting.mk_globals nat Z (Some 1%nat) (Some 2))
  = Plotting.mk_globals nat Z None None.
Proof.
  apply (proj1 (close3d_unregisters nat Z
                  (Plotting.mk_globals nat Z (Some 1%nat) (Some 2)) true)).
  by eexists.
Defined.

Lemma clear3d_drops_scale_factor_witness :
  Plotting.g_vispy_scale_factor nat Z
    (Plotting.clear3d nat Z true true
       (Plotting.mk_globals nat Z (Some 1%nat) (Some 2))) = None ∧
  Plotting.get_canvas nat Z
    (Plotting.clear3d nat Z true true
       (Plotting.mk_globals nat Z (Some 1%nat) (Some 2)))
  = Plotting.Err (Plotting.Exception "No canvas found.").
Proof.
  apply (proj1 (proj2 (clear3d_drops_scale_factor nat Z
                  (Plotting.mk_globals nat Z (Some 1%nat) (Some 2)) true true))).
  by eexists.
Defined.

(** * Nothing is lost in [get_user_contributions] *)

Lemma column_sum_Permutation (l k : list Z) :
  l ≡ₚ k → column_sum l = column_sum k.
Proof.
  unfold column_sum. induction 1; simpl; lia.
Qed.

Lemma column_sum_defaults (m : gmap Z Z) (l : list Z) :
  NoDup l →
  (∀ u, is_Some (m !! u) → u ∈ l) →
  column_sum ((λ u, default 0 (m !! u)) <$> l) = column_sum (map_to_list m).*2.
Proof.
  revert l. induction m as [|k v m Hk IH] using map_ind; intros l Hnd Hdom.
  - rewrite map_to_list_empty. simpl. clear. unfold column_sum.
    induction l as [|u l IH]; [done|]. csimpl. by rewrite lookup_empty, IH.
  - assert (Hkl : k ∈ l) by (apply Hdom; rewrite lookup_insert_eq; eauto).
    apply elem_of_Permutation in Hkl as [l' Hl'].
    rewrite Hl' in Hnd. apply NoDup_cons in Hnd as [Hkl' Hnd'].
    rewrite (column_sum_Permutation _ ((λ u, default 0 (<[k:=v]> m !! u)) <$> k :: l'))
      by by rewrite Hl'.
    rewrite (column_sum_Permutation (map_to_list (<[k:=v]> m)).*2
               ((k, v) :: map_to_list m).*2)
      by by rewrite map_to_list_insert.
    rewrite !fmap_cons. change (column_sum ?x) with (foldr Z.add 0 x).
    cbn [foldr snd]. rewrite lookup_insert_eq. cbn [default]. f_equal.
    change (foldr Z.add 0 ?x) with (column_sum x).
    rewrite <- (IH l' Hnd').
    + f_equal. apply list_fmap_ext. intros i u Hu.
      apply list_elem_of_lookup_2 in Hu.
      rewrite lookup_insert_ne; [done|]. intros ->. done.
    + intros u Hu. destruct (decide (u = k)) as [->|Hne].
      * rewrite Hk in Hu. by destruct Hu.
      * assert (Hin : u ∈ l) by (apply Hdom; by rewrite lookup_insert_ne).
        rewrite Hl' in Hin. apply elem_of_cons in Hin as [?|?]; done.
Qed.

(** X19: the columns of the returned frame add up to the contributions
    they were built from: the [nodes] column sums to the sum of
    [node_contributors], and likewise for the two synapse columns. *)
Theorem contributions_conserved
    (argsort : list Z → list nat) (set_iter : list Z → list Z)
    (user_list : gmap Z string)
    (cont : Contributions.contributor_statistics)
    (rows : list Contributions.row) :
  Pandas.argsort_ok argsort →
  Contributions.set_ok set_iter →
  Contributions.get_user_contributions argsort set_iter user_list cont
  = Returned rows →
  column_sum (Contributions.nodes <$> rows)
  = column_sum (map_to_list (Contributions.node_contributors cont)).*2 ∧
  column_sum (Contributions.presynapses <$> rows)
  = column_sum (map_to_list (Contributions.pre_contributors cont)).*2 ∧
  column_sum (Contributions.postsynapses <$> rows)
  = column_sum (map_to_list (Contributions.post_contributors cont)).*2.
Proof.
  intros Hsort Hset Hrun.
  apply get_user_contributions_Returned in Hrun as [_ ->]; [|done].
  set (all_users :=
    set_iter (Contributions.keys (Contributions.node_contributors cont)
              ++ Contributions.keys (Contributions.pre_contributors cont)
              ++ Contributions.keys (Contributions.post_contributors cont))).
  assert (Hnd : NoDup all_users) by apply Hset.
  assert (Hin : ∀ u, u ∈ all_users ↔
            is_Some (Contributions.node_contributors cont !! u) ∨
            is_Some (Contributions.pre_contributors cont !! u) ∨
            is_Some (Contributions.post_contributors cont !! u))
    by (intros u; by apply elem_of_all_users).
  assert (Hcol : ∀ (col : Contributions.row → Z) (m : gmap Z Z),
    (∀ iu, col (Contributions.mk_row iu.1 (user_list !!! iu.2)
                  (default 0 (Contributions.node_contributors cont !! iu.2))
                  (default 0 (Contributions.pre_contributors cont !! iu.2))
                  (default 0 (Contributions.post_contributors cont !! iu.2)))
           = default 0 (m !! iu.2)) →
    (∀ u, is_Some (m !! u) → u ∈ all_users) →
    column_sum (col <$> Contributions.sort_values_nodes argsort
                          (contributions_frame all_users user_list cont))
    = column_sum (map_to_list m).*2).
  { intros col m Hcolm Hdom.
    rewrite (column_sum_Permutation _
               (col <$> contributions_frame all_users user_list cont))
      by (unfold Contributions.sort_values_nodes;
          by rewrite take_at_nargsort_Permutation).
    rewrite <- (column_sum_defaults m all_users Hnd Hdom). f_equal.
    unfold contributions_frame. rewrite <- list_fmap_compose.
    transitivity ((λ u, default 0 (m !! u))
                    <$> (zip (seq 0 (length all_users)) all_users).*2).
    - rewrite <- list_fmap_compose. apply list_fmap_ext. intros i iu _.
      simpl. apply Hcolm.
    - by rewrite snd_zip by (rewrite length_seq; lia). }
  repeat split; apply Hcol; try done; intros u Hu; apply Hin; auto.
Qed.

Lemma contributions_conserved_witness :
  column_sum (Contributions.nodes <$>
                [Contributions.mk_row 0 "B" 30 4 0;
                 Contributions.mk_row 1 "A" 10 0 0;
                 Contributions.mk_row 2 "C" 0 0 7])
  = column_sum
      (map_to_list (Contributions.node_contributors ContributionSamples.cont)).*2 ∧
  column_sum (Contributions.presynapses <$>
                [Contributions.mk_row 0 "B" 30 4 0;
                 Contributions.mk_row 1 "A" 10 0 0;
                 Contributions.mk_row 2 "C" 0 0 7])
  = column_sum
      (map_to_list (Contributions.pre_contributors ContributionSamples.cont)).*2 ∧
  column_sum (Contributions.postsynapses <$>
                [Contributions.mk_row 0 "B" 30 4 0;
                 Contributions.mk_row 1 "A" 10 0 0;
                 Contributions.mk_row 2 "C" 0 0 7])
  = column_sum
      (map_to_list (Contributions.post_contributors ContributionSamples.cont)).*2.
Proof.
  apply (contributions_conserved Instances.stable_argsort
           Instances.insertion_order Samples.names ContributionSamples.cont _
           stable_argsort_ok insertion_order_ok).
  vm_compute. reflexivity.
Defined.
